(** * StackGAN demo: a shallow embedding of the text-to-image pipeline

    The development follows the Python sources
    - [demo/demo_embeddings_tf.py]   (module [Demo] below)
    - [embedding/graph_load.py]      (module [GraphLoad] below)
    - [embedding/train_embedding_model.py]  (module [Train] below)

    Python integers are [Z], Python strings are [string], Python lists are
    [list], [None]-able values are [option].  Code that may raise returns a
    [result]; code with effects threads a [World] explicitly.  TensorFlow,
    numpy, PIL and Keras are libraries, not part of the program: their
    operations appear as fields of interface classes, and only the way the
    program wires them together is modelled. *)

From Stdlib Require Import ZArith QArith Qround Sorted Lia Lqa Ascii.
From Stdlib Require String.
From stdpp Require Import base strings pretty list gmap.

Local Open Scope Z_scope.

(** ** Python built-ins used by the program *)

Module Py.

(** [range(k)]: the integers [0 .. k-1]; empty when [k <= 0]. *)
Definition range (k : Z) : list Z := Z.of_nat <$> seq 0 (Z.to_nat k).

(** [range(a, b)]. *)
Definition range2 (a b : Z) : list Z := (fun i => a + i) <$> range (b - a).

(** [len(l)] as a Python integer. *)
Definition len {A} (l : list A) : Z := Z.of_nat (length l).

(** Normalisation of one slice bound against a sequence of length [n]:
    negative bounds count from the end, and every bound is clipped. *)
Definition clip (n i : Z) : Z :=
  if i <? 0 then Z.max 0 (n + i) else Z.min i n.

(** [l[a:b]]. *)
Definition slice {A} (l : list A) (a b : Z) : list A :=
  let a' := clip (len l) a in
  let b' := clip (len l) b in
  take (Z.to_nat (b' - a')) (drop (Z.to_nat a') l).

(** [l[i]]: [None] stands for [IndexError]. *)
Definition index {A} (l : list A) (i : Z) : option A :=
  if i <? 0 then
    (if 0 <=? len l + i then l !! Z.to_nat (len l + i) else None)
  else l !! Z.to_nat i.

(** Strings as character lists, for the operations defined by position. *)
Definition chars (s : string) : list ascii := String.list_ascii_of_string s.
Definition str (l : list ascii) : string := String.string_of_list_ascii l.

Definition slen (s : string) : Z := Z.of_nat (String.length s).

(** [s[a:b]], [s[:b]] and [s[a:]]. *)
Definition substr (s : string) (a b : Z) : string := str (slice (chars s) a b).
Definition prefix (s : string) (b : Z) : string := substr s 0 b.
Definition suffix (s : string) (a : Z) : string := substr s a (slen s).

(** [s.find(sub, start)]: the lowest index [i >= start] at which [sub]
    occurs in [s], or [-1].  A negative [start] counts from the end. *)
Definition find_from (s sub : string) (start : Z) : Z :=
  match String.index (Z.to_nat (clip (slen s) start)) sub s with
  | Some i => Z.of_nat i
  | None => -1
  end.

(** [s.find(sub)]. *)
Definition find (s sub : string) : Z := find_from s sub 0.

(** ['%d' % k] and [str(k)] for an integer. *)
Definition fmt_d (k : Z) : string := pretty k.

(** Truthiness of an optional string: [None] and [''] are false. *)
Definition truthy (s : option string) : bool :=
  match s with
  | Some s => negb (String.eqb s "")
  | None => false
  end.

(** ['%s' % s] for an optional string. *)
Definition fmt_s (s : option string) : string := default "None" s.

(** [a-zA-Z] *)
Definition is_alpha (c : ascii) : bool :=
  let n := Z.of_nat (nat_of_ascii c) in
  ((65 <=? n) && (n <=? 90)) || ((97 <=? n) && (n <=? 122)).

(** [re.search('[a-zA-Z]+', s)] succeeds iff some character is a letter. *)
Definition search_alpha (s : string) : bool := existsb is_alpha (chars s).

(** [sep.join(l)] *)
Fixpoint join (sep : string) (l : list string) : string :=
  match l with
  | [] => ""
  | [a] => a
  | a :: l' => a +:+ sep +:+ join sep l'
  end.

(** [repr] of a tuple of integers, as in [print(a.shape)]. *)
Definition repr_tuple (t : list Z) : string :=
  match t with
  | [k] => "(" +:+ fmt_d k +:+ ",)"
  | _ => "(" +:+ join ", " (fmt_d <$> t) +:+ ")"
  end.

(** [f.readlines()]: the content cut after every newline. *)
Fixpoint readlines_go (cur : list ascii) (s : list ascii) : list string :=
  match s with
  | [] => match cur with [] => [] | _ => [str (rev cur)] end
  | c :: s' =>
      if Ascii.eqb c "010" then str (rev (c :: cur)) :: readlines_go [] s'
      else readlines_go (c :: cur) s'
  end.
Definition readlines (content : string) : list string :=
  readlines_go [] (chars content).

Definition is_slash (c : ascii) : bool := Ascii.eqb c "/".

Fixpoint lstrip_slash (l : list ascii) : list ascii :=
  match l with
  | c :: l' => if is_slash c then lstrip_slash l' else l
  | [] => []
  end.

Fixpoint drop_to_slash (l : list ascii) : list ascii :=
  match l with
  | c :: l' => if is_slash c then l else drop_to_slash l'
  | [] => []
  end.

(** [os.path.dirname(p)]: everything up to the last slash, without the
    trailing slashes unless it consists of slashes only. *)
Definition dirname (p : string) : string :=
  let head := rev (drop_to_slash (rev (chars p))) in
  if forallb is_slash head then str head
  else str (rev (lstrip_slash (rev head))).

Definition starts_slash (l : list ascii) : bool :=
  match l with
  | c :: _ => is_slash c
  | [] => false
  end.

(** [os.path.join(a, b)] *)
Definition path_join (a b : string) : string :=
  if starts_slash (chars b) then b
  else if String.eqb a "" || starts_slash (rev (chars a)) then a +:+ b
  else a +:+ "/" +:+ b.

End Py.

(** ** Pixel rescaling (exact arithmetic) *)

Module Pixel.
Local Open Scope Q_scope.

(** [(hr_img + 1.0) * 127.5], the per-pixel map of [save_super_images]. *)
Definition rescale (x : Q) : Q := (x + 1) * (255 # 2).

(** The inverse named by the specification: [y / 127.5 - 1]. *)
Definition unscale (y : Q) : Q := y / (255 # 2) - 1.

End Pixel.

(** ** Outcomes and effects *)

(** Python exceptions the program can meet.  [FailedPreconditionError] is
    TensorFlow's: a fetch that reads a variable which holds no value. *)
Inductive exn : Type :=
  | ValueError (msg : string)
  | IndexError
  | TypeError
  | AttributeError
  | IOError (path : string)
  | ZeroDivisionError
  | FailedPreconditionError.

(** The outcome of running a piece of code.  [OutOfFuel] is not a Python
    outcome: it says that a [while] loop had not finished within the number
    of iterations the model was given. *)
Inductive result (X : Type) : Type :=
  | Ok (x : X)
  | Raise (e : exn)
  | OutOfFuel.
Arguments Ok {X} x.
Arguments Raise {X} e.
Arguments OutOfFuel {X}.

(** Code with effects on a state [S]: the state is threaded through, and
    kept as it was at the point of failure when the code raises. *)
Definition M (S X : Type) : Type := S -> result X * S.

Definition ret {S X} (x : X) : M S X := fun s => (Ok x, s).

Definition bind {S X Y} (m : M S X) (k : X -> M S Y) : M S Y :=
  fun s =>
    match m s with
    | (Ok x, s') => k x s'
    | (Raise e, s') => (Raise e, s')
    | (OutOfFuel, s') => (OutOfFuel, s')
    end.

Definition raise {S X} (e : exn) : M S X := fun s => (Raise e, s).

(** Lifting of a lookup that raises when it finds nothing. *)
Definition or_raise {S X} (e : exn) (o : option X) : M S X :=
  match o with
  | Some x => ret x
  | None => raise e
  end.

#[global] Instance M_ret {S} : MRet (M S) := fun X x => ret x.
#[global] Instance M_bind {S} : MBind (M S) := fun X Y k m => bind m k.

(** [for x in xs: body(x)] *)
Fixpoint for_each {S X} (xs : list X) (body : X -> M S unit) : M S unit :=
  match xs with
  | [] => ret tt
  | x :: xs' => bind (body x) (fun _ => for_each xs' body)
  end.

(** A [for] loop that carries the variables it updates in [acc]. *)
Fixpoint for_fold {S X A} (xs : list X) (acc : A) (body : A -> X -> M S A)
  : M S A :=
  match xs with
  | [] => ret acc
  | x :: xs' => bind (body acc x) (fun acc' => for_fold xs' acc' body)
  end.

(** ** The libraries, as interfaces *)

(** TensorFlow, on evaluated tensors [T].  Random operations draw from a
    generator state [R]. *)
Class Tensorflow (T R : Type) : Type := {
  tf_shape : T -> list Z;
  tf_add : T -> T -> T;
  tf_mul : T -> T -> T;
  tf_exp : T -> T;
  tf_concat : Z -> list T -> T;
  tf_truncated_normal : list Z -> R -> T * R;
  tf_random_normal : list Z -> R -> T * R
}.

(** [stageII.model.CondGAN]: the networks of the two generator stages.
    The variable scope under which a network is built selects its
    parameters, so it is an explicit argument here. *)
Record CondGAN : Type := { lr_imsize : Z; hr_lr_ratio : Z }.

Class StageII (T : Type) : Type := {
  generate_condition : CondGAN -> string -> T -> T * T;
  get_generator : CondGAN -> string -> T -> T;
  hr_get_generator : CondGAN -> string -> T -> T -> T
}.

(** numpy and scipy.misc on arrays; pixels are exact rationals.  [a[j]]
    raises IndexError when [a] has no entry [j]: [np_get a j] is [None]
    then.  Shape errors raised inside the other operations are not
    modelled. *)
Class Numpy (T : Type) : Type := {
  np_shape : T -> list Z;
  np_full : Q -> list Z -> T;            (* v + np.zeros(shape) *)
  np_map : (Q -> Q) -> T -> T;           (* element-wise arithmetic *)
  np_get : T -> Z -> option T;           (* a[j] *)
  np_stack : list T -> T;                (* rows seen as one array *)
  np_concatenate : list T -> Z -> T;
  np_paste : T -> T -> T;                (* a[:h, :w, :c] = b *)
  np_uint8 : T -> T;
  imresize : T -> list Z -> T
}.

(** What the embedding side reads from disk, and the text normalisation.
    [load_graph file] stands for the frozen graph between its input tensor
    [X] and its output tensor [Y]: the forward pass, one token row at a
    time.  [load_tokenizer file] is the pickled Keras tokenizer, one token
    sequence per text.  [normalize] is [embedding.preprocessing.normalize],
    which is not among the sources. *)
Class Embedding (T : Type) : Type := {
  load_graph : string -> list Z -> T;
  load_tokenizer : string -> string -> list Z;
  normalize : string -> string
}.

(** ** The world the program acts on *)

(** A PIL image: an array and the text drawn over it, each at its position. *)
Record Picture (T : Type) : Type := {
  canvas : T;
  drawn : list (Z * Z * string)
}.
Arguments canvas {T} _.
Arguments drawn {T} _.

(** What the program can see and change.  The program makes one TensorFlow
    session, in the constructor of its one [GenerativeModel]; [restored]
    is the checkpoint whose values the variables of that session hold, and
    [None] as long as nothing was restored, as at the start of a run. *)
Record World (T R : Type) : Type := {
  stdout : list string;                 (* lines printed so far *)
  dirs : gset string;                   (* directories that exist *)
  written : list (string * Picture T);  (* imsave calls, oldest first *)
  rng : R;                              (* state of the random generators *)
  restored : option string;             (* checkpoint loaded in the session *)
  runs : nat                            (* generator fetches run so far *)
}.
Arguments stdout {T R} _.
Arguments dirs {T R} _.
Arguments written {T R} _.
Arguments rng {T R} _.
Arguments restored {T R} _.
Arguments runs {T R} _.

Section WorldActions.
Context {T R : Type}.

(** [print(a, b, ...)]: the arguments, already rendered, joined by spaces. *)
Definition print (args : list string) : M (World T R) unit :=
  fun w =>
    (Ok tt,
     {| stdout := stdout w ++ [Py.join " " args];
        dirs := dirs w; written := written w; rng := rng w;
        restored := restored w; runs := runs w |}).

(** [os.path.isdir(d)] *)
Definition isdir (d : string) : M (World T R) bool :=
  fun w => (Ok (bool_decide (d ∈ dirs w)), w).

(** Modelled from the spec: [misc.utils.mkdir_p] is not among the sources.
    The specification has the images written to a configurable directory;
    after [mkdir_p(d)] the directory [d] exists.  Directories above [d] that
    the call may have to make on the way are not recorded. *)
Definition mkdir_p (d : string) : M (World T R) unit :=
  fun w =>
    (Ok tt,
     {| stdout := stdout w; dirs := {[ d ]} ∪ dirs w; written := written w;
        rng := rng w; restored := restored w; runs := runs w |}).

(** [scipy.misc.imsave(path, img)] *)
Definition imsave (path : string) (img : Picture T) : M (World T R) unit :=
  fun w =>
    (Ok tt,
     {| stdout := stdout w; dirs := dirs w;
        written := written w ++ [(path, img)];
        rng := rng w; restored := restored w; runs := runs w |}).

(** [saver.restore(sess, path)] *)
Definition saver_restore (path : string) : M (World T R) unit :=
  fun w =>
    (Ok tt,
     {| stdout := stdout w; dirs := dirs w; written := written w;
        rng := rng w; restored := Some path; runs := runs w |}).

Definition with_rng (w : World T R) (r : R) : World T R :=
  {| stdout := stdout w; dirs := dirs w; written := written w;
     rng := r; restored := restored w; runs := runs w |}.

(** Evaluation of one random operation of the graph. *)
Definition draw (op : R -> T * R) : M (World T R) T :=
  fun w => let '(x, r) := op (rng w) in (Ok x, with_rng w r).

(** Book-keeping of one [persistent_sess.run] on the generator graph. *)
Definition count_run : M (World T R) unit :=
  fun w =>
    (Ok tt,
     {| stdout := stdout w; dirs := dirs w; written := written w;
        rng := rng w; restored := restored w; runs := S (runs w) |}).

(** [persistent_sess.run(fetches, feed_dict)] on the generator graph.  The
    networks read their variables, and the program gives these a value in
    one place only, [saver.restore]: there is no initializer.  In a session
    in which nothing was restored the fetch raises FailedPreconditionError
    before anything is computed. *)
Definition session_run {X} (fetch : M (World T R) X) : M (World T R) X :=
  fun w =>
    match restored w with
    | None => (Raise FailedPreconditionError, w)
    | Some _ => (x ← fetch; _ ← count_run; mret x) w
    end.

(** [w'] is [w] after [n] generator fetches and nothing else: the random
    generator may have advanced, the rest is as it was. *)
Definition after_runs (n : nat) (w w' : World T R) : Prop :=
  stdout w' = stdout w /\ dirs w' = dirs w /\ written w' = written w /\
  restored w' = restored w /\ runs w' = (runs w + n)%nat.

End WorldActions.

(** ** embedding/graph_load.py *)

Module GraphLoad.

Definition MAX_SENT_LENGTH : Z := 400.

(** One row of [keras.preprocessing.sequence.pad_sequences] with
    [padding='post', truncating='post'] and the default [value=0]: the
    sequence is cut to [s[:maxlen]] and written at the start of a row of
    [maxlen] zeros. *)
Definition pad_post (maxlen : Z) (s : list Z) : list Z :=
  let trunc := Py.slice s 0 maxlen in
  trunc ++ replicate (Z.to_nat (maxlen - Py.len trunc)) 0.

Definition pad_sequences (x : list (list Z)) (maxlen : Z)
  : list (list Z) := pad_post maxlen <$> x.

(** [k] consecutive rows of width [n] read off a flat array. *)
Fixpoint rows_of {A} (k n : nat) (flat : list A) : list (list A) :=
  match k with
  | O => []
  | S k' => take n flat :: rows_of k' n (drop n flat)
  end.

(** [np.array(x).reshape(-1, maxlen)]: the row count is inferred from the
    number of elements, which numpy refuses when it cannot be done. *)
Definition reshape_rows (x : list (list Z)) (maxlen : Z)
  : result (list (list Z)) :=
  let flat := concat x in
  if maxlen <=? 0 then
    Raise (ValueError "cannot reshape array")
  else if Py.len flat mod maxlen =? 0 then
    Ok (rows_of (Z.to_nat (Py.len flat / maxlen)) (Z.to_nat maxlen) flat)
  else Raise (ValueError "cannot reshape array").

(** The argument of [embed]: one string, or a list or tuple of strings. *)
Inductive text_arg : Type :=
  | One (s : string)
  | Many (l : list string).

Section Model.
Context {T : Type} `{Embedding T}.

(** [class Model]: the tensors [X], [Y] of the loaded graph are kept as
    the function from a token row to its embedding; [LF] is fed [False]
    on every run. *)
Record Model : Type := {
  Y : list Z -> T;
  tokenizer : string -> list Z;
  maxlen : Z
}.

(** [Model.__init__(frozen_graph_filename, tokenizer_path, maxlen)] *)
Definition Model_init {R} (frozen_graph_filename tokenizer_path : string)
    (maxlen : Z) : M (World T R) Model :=
  _ ← print ["Loading the graph"];
  mret {| Y := load_graph frozen_graph_filename;
          tokenizer := load_tokenizer tokenizer_path;
          maxlen := maxlen |}.

(** The token matrix [x] built by lines 56-61 of [embed]. *)
Definition token_matrix (self : Model) (text : text_arg)
  : result (list (list Z)) :=
  let text := match text with One s => [s] | Many l => l end in
  let x := tokenizer self <$> text in
  let x := pad_sequences x (maxlen self) in
  reshape_rows x (maxlen self).

(** [Model.embed(text)] *)
Definition embed (self : Model) (text : text_arg) : result (list T) :=
  match token_matrix self text with
  | Ok x => Ok (Y self <$> x)
  | Raise e => Raise e
  | OutOfFuel => OutOfFuel
  end.

End Model.

End GraphLoad.

(** ** demo/demo_embeddings_tf.py *)

Module Demo.

(** [misc.config.cfg], the fields the demo reads. *)
Record TestCfg : Type := {
  PRETRAINED_MODEL : string;
  BATCH_SIZE : Z;
  LR_IMSIZE : Z;
  HR_IMSIZE : Z;
  CAPTION_PATH : string
}.
Record Cfg : Type := { GPU_ID : Z; Z_DIM : Z; TEST : TestCfg }.

(** The command line, as [parse_args] returns it. *)
Record Args : Type := {
  cfg_file : option string;
  gpu_id : Z;
  caption_path : option string;
  caption_model : option string;
  save_dir : option string
}.

(** [misc.config.cfg_from_file]: merges a configuration file into [cfg]. *)
Class MiscConfig : Type := { cfg_from_file : string -> Cfg -> Cfg }.

(** [PIL] text drawing over the composite image.  [img.shape[k]] of an
    image is read with [shape_at]. *)
Definition shape_at {T} `{Numpy T} (a : T) (k : Z) : Z :=
  default 0 (Py.index (np_shape a) k).

Definition drawCaption {T} `{Numpy T} (img : T) (caption : string)
  : Picture T :=
  let d := [(10, 256, "Stage-I"); (10, 512, "Stage-II")] in
  let d :=
    if shape_at img 0 >? 832 then
      d ++ [(10, 832, "Stage-I"); (10, 1088, "Stage-II")]
    else d in
  let idx := Py.find_from caption " " 60 in
  let d :=
    if idx =? -1 then d ++ [(256, 10, caption)]
    else
      let cap1 := Py.prefix caption idx in
      let cap2 := Py.suffix caption (idx + 1) in
      d ++ [(256, 10, cap1); (256, 60, cap2)] in
  {| canvas := img; drawn := d |}.

(** The caption lines of a picture: what was drawn in the caption column,
    each line with its position. *)
Definition caption_lines {T} (p : Picture T) : list (Z * Z * string) :=
  filter (fun '(x, _, _) => x = 256) (drawn p).

Section Program.
Context {T R : Type}.
Context `{Tensorflow T R} `{StageII T} `{Numpy T} `{Embedding T}.
Context `{MiscConfig}.

Abbreviation W := (World T R).

Definition sample_encoded_context (scope : string) (embeddings : T)
    (model : CondGAN) (bAugmentation : bool) : M W T :=
  let c_mean_logsigma := generate_condition model scope embeddings in
  let mean := c_mean_logsigma.1 in
  if bAugmentation then
    epsilon ← draw (tf_truncated_normal (tf_shape mean));
    let stddev := tf_exp c_mean_logsigma.2 in
    mret (tf_add mean (tf_mul stddev epsilon))
  else mret mean.

(** The graph [build_model] returns: given the value fed to the
    placeholder [embeddings], one evaluation of the pair
    [(fake_images, hr_fake_images)]. *)
Definition Graph : Type := T -> M W (T * T).

(** Lines 71-82 of [build_model]: the two generator stages. *)
Definition generator_graph (model : CondGAN) (batch_size z_dim : Z)
  : Graph :=
  fun embeddings =>
    c ← sample_encoded_context "g_net" embeddings model true;
    z ← draw (tf_random_normal [batch_size; z_dim]);
    let fake_images := get_generator model "g_net" (tf_concat 1 [c; z]) in
    hr_c ← sample_encoded_context "hr_g_net" embeddings model true;
    let hr_fake_images :=
      hr_get_generator model "hr_g_net" fake_images hr_c in
    mret (fake_images, hr_fake_images).

Definition build_model (embedding_dim batch_size : Z) (cfg : Cfg)
  : M W Graph :=
  hr_lr_ratio ←
    (if LR_IMSIZE (TEST cfg) =? 0 then raise ZeroDivisionError
     else mret (HR_IMSIZE (TEST cfg) ÷ LR_IMSIZE (TEST cfg)));
  let model := {| lr_imsize := LR_IMSIZE (TEST cfg);
                  hr_lr_ratio := hr_lr_ratio |} in
  let graph := generator_graph model batch_size (Z_DIM cfg) in
  let ckt_path := PRETRAINED_MODEL (TEST cfg) in
  _ ← (if negb (Py.find ckt_path ".ckpt" =? -1) then
         _ ← print ["Reading model parameters from " +:+ ckt_path];
         saver_restore ckt_path
       else
         print ["Input a valid model path. " +:+ ckt_path
                +:+ " is not valid"]);
  mret graph.

(** [class GenerativeModel]; the session lives in the world. *)
Record GenerativeModel : Type := {
  batch_size : Z;
  ops : Graph
}.

Definition GenerativeModel_init (cfg : Cfg) (batch_size embedding_dim : Z)
  : M W GenerativeModel :=
  g ← build_model embedding_dim batch_size cfg;
  mret {| batch_size := batch_size; ops := g |}.

Definition generate (self : GenerativeModel) (embeddings : T)
  : M W (T * T) :=
  '(lr_samples, hr_samples) ← session_run (ops self embeddings);
  mret (hr_samples, lr_samples).

Definition generate_n (self : GenerativeModel) (embeddings : T) (n : Z)
  : M W (list T * list T) :=
  '(lr_samples_batchs, hr_samples_batchs) ←
    for_fold (Py.range (Z.min 16 n)) ([], [])
      (fun '(lr_samples_batchs, hr_samples_batchs) _ =>
         '(hr_samples, samples) ← generate self embeddings;
         mret (lr_samples_batchs ++ [samples],
               hr_samples_batchs ++ [hr_samples]));
  mret (hr_samples_batchs, lr_samples_batchs).

(** One block of the composite: the resized low-resolution samples
    over the rescaled high-resolution ones, for sentence [j] and the
    sample numbers [indices], each row starting with a padding tile. *)
Definition sample_rows (lr_sample_batchs hr_sample_batchs : list T)
    (j : Z) (padding : T) (indices : list Z) : M W T :=
  '(row1, row2) ←
    for_fold indices ([padding], [padding])
      (fun '(row1, row2) i =>
         lr_batch ← or_raise IndexError (Py.index lr_sample_batchs i);
         lr_img ← or_raise IndexError (np_get lr_batch j);
         hr_batch ← or_raise IndexError (Py.index hr_sample_batchs i);
         hr_img ← or_raise IndexError (np_get hr_batch j);
         let hr_img := np_map Pixel.rescale hr_img in
         let re_sample :=
           imresize lr_img (Py.slice (np_shape hr_img) 0 2) in
         mret (row1 ++ [re_sample], row2 ++ [hr_img]));
  let row1 := np_concatenate row1 1 in
  let row2 := np_concatenate row2 1 in
  mret (np_concatenate [row1; row2] 0).

(** Lines 134-173: the composite image of sentence [j]. *)
Definition super_image (lr_sample_batchs hr_sample_batchs : list T)
    (j : Z) (img_shape : list Z) : M W T :=
  let padding := np_full 255 img_shape in
  superimage ←
    sample_rows lr_sample_batchs hr_sample_batchs j padding
      (Py.range (Z.min 8 (Py.len lr_sample_batchs)));
  superimage ←
    (if Py.len lr_sample_batchs >? 8 then
       super_row ←
         sample_rows lr_sample_batchs hr_sample_batchs j padding
           (Py.range2 8 (Py.len lr_sample_batchs));
       let superimage2 :=
         np_paste (np_full 0 (np_shape superimage)) super_row in
       let mid_padding := np_full 0 [64; shape_at superimage 1; 3] in
       mret (np_concatenate [superimage; mid_padding; superimage2] 0)
     else mret superimage);
  let top_padding := np_full 255 [128; shape_at superimage 1; 3] in
  mret (np_concatenate [top_padding; superimage] 0).

(** Line 175, ['%s/sentence%d.jpg' % (save_dir, k)]: the path of the image
    of sentence number [k]. *)
Definition image_path (save_dir : option string) (k : Z) : string :=
  Py.fmt_s save_dir +:+ "/sentence" +:+ Py.fmt_d k +:+ ".jpg".

Definition save_super_images (lr_sample_batchs hr_sample_batchs : list T)
    (texts_batch : list string) (batch_size startID : Z)
    (save_dir : option string) : M W (list (Picture T)) :=
  _ ← (if Py.truthy save_dir then
         there ← isdir (Py.fmt_s save_dir);
         if negb there then
           _ ← print ["Make a new folder: "; Py.fmt_s save_dir];
           mkdir_p (Py.fmt_s save_dir)
         else mret tt
       else mret tt);
  hr0 ← or_raise IndexError (Py.index hr_sample_batchs 0);
  hr00 ← or_raise IndexError (np_get hr0 0);
  let img_shape := np_shape hr00 in
  for_fold (Py.range batch_size) []
    (fun super_images j =>
       text ← or_raise IndexError (Py.index texts_batch j);
       if negb (Py.search_alpha text) then mret super_images
       else
         superimage ←
           super_image lr_sample_batchs hr_sample_batchs j img_shape;
         let fullpath := image_path save_dir (startID + j) in
         let superimage := drawCaption (np_uint8 superimage) text in
         _ ← (if Py.truthy save_dir then imsave fullpath superimage
              else mret tt);
         mret (super_images ++ [superimage])).

(** [disk] holds the content of the text files that can be opened.  The
    demo imports [Model] from [embedding.model], which is not among the
    sources; the class of that name in [embedding/graph_load.py] has the
    constructor the demo calls and is the one used here.  The script is
    Python 2 ([from __future__ import division], [print_function]): there
    [open(None, 'rt')] raises TypeError and [os.path.join(None, ...)]
    raises AttributeError. *)
Definition embed_text (disk : gmap string string)
    (texts_path model_path : option string)
  : M W (list T * Z * list string) :=
  _ ← print ["Loading texts"];
  path ← or_raise TypeError texts_path;
  content ← or_raise (IOError path) (disk !! path);
  let texts := Py.readlines content in
  _ ← print ["Loading embedding model"];
  model_path ← or_raise AttributeError model_path;
  model ← GraphLoad.Model_init
            (Py.path_join model_path "frozen_model.pb")
            (Py.path_join model_path "tokenizer.pickle")
            GraphLoad.MAX_SENT_LENGTH;
  let normalized_texts := normalize <$> texts in
  embeddings ←
    (fun w => (GraphLoad.embed model (GraphLoad.Many normalized_texts), w));
  let num_embeddings := Py.len normalized_texts in
  _ ← print ["Successfully load sentences from: "; path];
  _ ← print ["Total number of sentences:"; Py.fmt_d num_embeddings];
  _ ← print ["num_embeddings:"; Py.fmt_d num_embeddings;
             Py.repr_tuple (np_shape (np_stack embeddings))];
  mret (embeddings, num_embeddings, normalized_texts).

(** The [while] loop of lines 269-288 around an arbitrary treatment
    [body count iend] of the batch [count:iend]. *)
Fixpoint batching_loop {S} (body : Z -> Z -> M S unit) (fuel : nat)
    (num_embeddings batch_size count : Z) : M S unit :=
  match fuel with
  | O => fun s => (OutOfFuel, s)
  | S fuel' =>
      if count <? num_embeddings then
        let iend := count + batch_size in
        let '(iend, count) :=
          if iend >? num_embeddings
          then (num_embeddings, num_embeddings - batch_size)
          else (iend, count) in
        _ ← body count iend;
        batching_loop body fuel' num_embeddings batch_size
          (count + batch_size)
      else mret tt
  end.

(** Lines 276-286: what the program does with one batch. *)
Definition process_batch (model : GenerativeModel) (embeddings : list T)
    (normalized_texts : list string) (batch_size : Z)
    (save_dir : option string) (count iend : Z) : M W unit :=
  let embeddings_batch := Py.slice embeddings count iend in
  let text_batch := Py.slice normalized_texts count iend in
  '(hr_samples_batch, lr_samples_batch) ←
    generate_n model (np_stack embeddings_batch) 8;
  super_images ←
    save_super_images lr_samples_batch hr_samples_batch text_batch
      batch_size count save_dir;
  mret tt.

(** Lines 243-248: the configuration after the command line is read. *)
Definition configure (args : Args) (cfg : Cfg) : Cfg :=
  let cfg := match cfg_file args with
             | Some f => cfg_from_file f cfg
             | None => cfg
             end in
  let cfg := if negb (gpu_id args =? -1)
             then {| GPU_ID := gpu_id args; Z_DIM := Z_DIM cfg;
                     TEST := TEST cfg |}
             else cfg in
  match caption_path args with
  | Some p =>
      {| GPU_ID := GPU_ID cfg; Z_DIM := Z_DIM cfg;
         TEST := {| PRETRAINED_MODEL := PRETRAINED_MODEL (TEST cfg);
                    BATCH_SIZE := BATCH_SIZE (TEST cfg);
                    LR_IMSIZE := LR_IMSIZE (TEST cfg);
                    HR_IMSIZE := HR_IMSIZE (TEST cfg);
                    CAPTION_PATH := p |} |}
  | None => cfg
  end.

(** Lines 264-265: [--save_dir], or else the directory of the captions. *)
Definition output_dir (args : Args) : option string :=
  if Py.truthy (save_dir args) then save_dir args
  else Py.dirname <$> caption_path args.

(** The script body under [if __name__ == "__main__"]. *)
Definition main (fuel : nat) (disk : gmap string string) (args : Args)
    (cfg : Cfg) : M W unit :=
  let cfg := configure args cfg in
  '(embeddings, num_embeddings, normalized_texts) ←
    embed_text disk (caption_path args) (caption_model args);
  if num_embeddings <=? 0 then
    raise (ValueError "At least one embedding required")
  else
    let batch_size := Z.min num_embeddings (BATCH_SIZE (TEST cfg)) in
    model ← GenerativeModel_init cfg batch_size
              (default 0 (Py.index (np_shape (np_stack embeddings)) (-1)));
    let save_dir := output_dir args in
    _ ← batching_loop
          (process_batch model embeddings normalized_texts batch_size
             save_dir)
          fuel num_embeddings batch_size 0;
    _ ← print ["Finish generating samples for "
               +:+ Py.fmt_d num_embeddings +:+ " sentences:"];
    _ ← print ["Example sentences:"];
    for_each (Py.range (Z.min 10 num_embeddings))
      (fun i =>
         text ← or_raise IndexError (Py.index normalized_texts i);
         print ["Sentence " +:+ Py.fmt_d i +:+ ": " +:+ text]).

End Program.

(** The batches a run hands to generation: the same loop, with a body
    that only notes the bounds [(count, iend)] it is given. *)
Definition note_batch (count iend : Z) : M (list (Z * Z)) unit :=
  fun seen => (Ok tt, seen ++ [(count, iend)]).

Definition batches (fuel : nat) (num_embeddings batch_size : Z)
  : result unit * list (Z * Z) :=
  batching_loop note_batch fuel num_embeddings batch_size 0 [].

End Demo.

(** ** embedding/train_embedding_model.py *)

Module Train.

(** The exceptions this file can raise.  The script has no [while] loop, so
    its outcomes are a value or an exception. *)
Inductive error : Type :=
  | ValueError
  | IndexError
  | KeyError (key : string)
  | IOError (path : string)
  | UnboundLocalError (name : string).

Inductive outcome (X : Type) : Type :=
  | Returns (x : X)
  | Raises (e : error).
Arguments Returns {X} x.
Arguments Raises {X} e.

(** Lookup that raises when it finds nothing. *)
Definition or_raises {X} (e : error) (o : option X) : outcome X :=
  match o with
  | Some x => Returns x
  | None => Raises e
  end.

(** [[f(x) for x in l]], where [f] may raise. *)
Fixpoint comprehension {X Y} (f : X -> outcome Y) (l : list X)
  : outcome (list Y) :=
  match l with
  | [] => Returns []
  | x :: l' =>
      match f x with
      | Raises e => Raises e
      | Returns y =>
          match comprehension f l' with
          | Raises e => Raises e
          | Returns ys => Returns (y :: ys)
          end
      end
  end.

(** Code that writes to the log: the outcome, and the messages logged on
    the way, without time stamp and level.  The level is INFO, so what
    [logger.debug] is given does not appear. *)
Definition Logged (X : Type) : Type := (outcome X * list string)%type.

Definition logged_ret {X} (x : X) : Logged X := (Returns x, []).

Definition logged_bind {X Y} (m : Logged X) (k : X -> Logged Y) : Logged Y :=
  match m with
  | (Returns x, log) => let (r, log') := k x in (r, log ++ log')
  | (Raises e, log) => (Raises e, log)
  end.

#[global] Instance Logged_ret : MRet Logged := fun X x => logged_ret x.
#[global] Instance Logged_bind : MBind Logged :=
  fun X Y k m => logged_bind m k.

Definition logger_info (msg : string) : Logged unit := (Returns tt, [msg]).

Definition lift {X} (r : outcome X) : Logged X := (r, []).

(** *** Library functions the file calls *)

(** [np.argmax] of one row: the first position of the greatest entry.
    Floats are exact rationals here. *)
Fixpoint argmax_from (best : Q) (ibest i : Z) (row : list Q) : Z :=
  match row with
  | [] => ibest
  | x :: row' =>
      if Qle_bool x best then argmax_from best ibest (i + 1) row'
      else argmax_from x i (i + 1) row'
  end.

Definition argmax (row : list Q) : option Z :=
  match row with
  | [] => None
  | x :: row' => Some (argmax_from x 0 1 row')
  end.

(** [np.argmax(y, axis=1)] of a two-dimensional array given by its rows;
    numpy refuses rows of width 0. *)
Definition argmax_rows (y : list (list Q)) : outcome (list Z) :=
  comprehension (fun row => or_raises ValueError (argmax row)) y.

(** [max] of a list of integers, which raises ValueError on an empty
    list. *)
Definition max_of (l : list Z) : outcome Z :=
  match l with
  | [] => Raises ValueError
  | x :: l' => Returns (foldl Z.max x l')
  end.

Section Counter.
Context {K : Type} `{EqDecision K}.

(** [collections.Counter(l)]: the elements with their counts, in the order
    in which they were first met. *)
Fixpoint count_one (c : K) (counter : list (K * Z)) : list (K * Z) :=
  match counter with
  | [] => [(c, 1)]
  | (k, n) :: counter' =>
      if decide (k = c) then (k, n + 1) :: counter'
      else (k, n) :: count_one c counter'
  end.

Definition Counter (l : list K) : list (K * Z) :=
  foldl (fun counter c => count_one c counter) [] l.

(** [counter[k]]: the count of [k], which is 0 for what was never met. *)
Fixpoint count_of (counter : list (K * Z)) (k : K) : Z :=
  match counter with
  | [] => 0
  | (k', n) :: counter' => if decide (k' = k) then n else count_of counter' k
  end.

(** [Counter.most_common()] is [sorted(items, key=count, reverse=True)]:
    by decreasing count, elements with equal counts in the order first
    met. *)
Fixpoint insert_desc (x : K * Z) (sorted : list (K * Z)) : list (K * Z) :=
  match sorted with
  | [] => [x]
  | y :: sorted' =>
      if y.2 <? x.2 then x :: sorted else y :: insert_desc x sorted'
  end.

Definition most_common (counter : list (K * Z)) : list (K * Z) :=
  foldl (fun sorted x => insert_desc x sorted) [] counter.

End Counter.

(** [zip] with the rows as its arguments: the columns of [rows], as many
    as the shortest row has entries. *)
Fixpoint zip_star {A} (rows : list (list A)) : list (list A) :=
  match rows with
  | [] => []
  | row :: rows' =>
      match rows' with
      | [] => (fun x => [x]) <$> row
      | _ => zip_with cons row (zip_star rows')
      end
  end.

(** [a, b = l] *)
Definition unpack2 {A} (l : list A) : outcome (A * A) :=
  match l with
  | [a; b] => Returns (a, b)
  | _ => Raises ValueError
  end.

(** [line.split(" ", 1)]: cut at the first space, if there is one. *)
Definition split1 (line : string) : list string :=
  let i := Py.find line " " in
  if i =? -1 then [line] else [Py.prefix line i; Py.suffix line (i + 1)].

(** [keras.utils.np_utils.to_categorical(y, num_classes)]: one row per
    entry of [y], all zeros but a one at the position the entry gives
    (counted from the end when negative); without [num_classes] the width
    is the greatest entry plus one. *)
Definition one_hot (k i : Z) : list Q :=
  (fun j => if j =? i then 1%Q else 0%Q) <$> Py.range k.

Definition to_categorical (y : list Z) (num_classes : Z)
  : outcome (list (list Q)) :=
  match (if num_classes =? 0
         then match max_of y with
              | Returns m => Returns (m + 1)
              | Raises e => Raises e
              end
         else Returns num_classes) with
  | Raises e => Raises e
  | Returns k =>
      if k <? 0 then Raises ValueError
      else comprehension
             (fun i => if (- k <=? i) && (i <? k)
                       then Returns (one_hot k (i mod k))
                       else Raises IndexError) y
  end.

(** [a.shape] of a two-dimensional array that has a row. *)
Definition shape2 {A} (a : list (list A)) : Z * Z :=
  (Py.len a, match a with row :: _ => Py.len row | [] => 0 end).

(** [keras.preprocessing.text.Tokenizer]: a tokenizer fitted on texts, and
    the token sequence it gives a text. *)
Class Keras (Tok : Type) : Type := {
  fit_on_texts : Z -> list string -> Tok;
  text_to_sequence : Tok -> string -> list Z
}.

(** [np.asarray(coefs.split(), dtype='float32')]: the numbers written on
    the rest of a line, or [None] for the ValueError when a piece of it is
    not a number. *)
Class Glove : Type := {
  coefficients : string -> option (list Q)
}.

(** [keras.layers.Embedding], as the arguments it was made with. *)
Record EmbeddingLayer : Type := {
  input_dim : Z;
  output_dim : Z;
  weights : list (list Q);
  input_length : Z;
  trainable : bool
}.

(** [matrix[i] = vector] on a matrix of [ncols] columns: the row is chosen
    as Python indexes, and a vector of one entry fills the row. *)
Definition set_row (matrix : list (list Q)) (ncols i : Z) (vector : list Q)
  : outcome (list (list Q)) :=
  let nrows := Py.len matrix in
  if (- nrows <=? i) && (i <? nrows) then
    if Py.len vector =? ncols then
      Returns (<[Z.to_nat (i mod nrows) := vector]> matrix)
    else
      match vector with
      | [x] =>
          Returns (<[Z.to_nat (i mod nrows) := replicate (Z.to_nat ncols) x]>
                     matrix)
      | _ => Raises ValueError
      end
  else Raises IndexError.

(** *** The functions of the file *)

(** [get_class_weights(y)]: the weights are whole numbers, kept as
    integers here. *)
Definition get_class_weights (y : list (list Q)) : outcome (gmap Z Z) :=
  match argmax_rows y with
  | Raises e => Raises e
  | Returns classes =>
      let counter := Counter classes in
      match max_of counter.*2 with
      | Raises e => Raises e
      | Returns majority =>
          Returns
            (foldl (fun d '(cls, count) =>
                      <[cls := Qceiling (inject_Z majority / inject_Z count)]> d)
               ∅ counter)
      end
  end.

(** [{key: index for (index, (key, value)) in enumerate(classes_stats)}] *)
Definition index_classes (classes_stats : list (string * Z))
  : gmap string Z :=
  foldl (fun d '(index, (key, value)) => <[key := Z.of_nat index]> d) ∅
    (imap pair classes_stats).

(** [load_data(data_path, verbose, class_to_id)].  [files] gives the text
    of each file as text mode delivers it. *)
Definition load_data (files : gmap string string) (data_path : string)
    (verbose : bool) (class_to_id : option (gmap string Z))
  : Logged (list string * list (list Q) * gmap string Z) :=
  content ← lift (or_raises (IOError data_path) (files !! data_path));
  '(classes, texts) ←
    lift (unpack2 (zip_star (split1 <$> Py.readlines content)));
  '(classes, texts, class_to_id) ←
    match class_to_id with
    | Some class_to_id =>
        '(classes, texts) ←
          lift (unpack2 (zip_star
            ((fun '(cls, text) => [cls; text]) <$>
             filter (fun '(cls, text) => is_Some (class_to_id !! cls))
               (zip classes texts))));
        mret (classes, texts, class_to_id)
    | None =>
        _ ← logger_info "Filtering classes";
        let classes_stats := most_common (Counter classes) in
        mret (classes, texts, index_classes classes_stats)
    end;
  y ← lift (comprehension
              (fun cls => or_raises (KeyError cls) (class_to_id !! cls))
              classes);
  labels ← lift (to_categorical y (Z.of_nat (size class_to_id)));
  _ ← (if verbose then
         _ ← logger_info "Class statistics";
         _ ← logger_info ("Found " +:+ Py.fmt_d (Z.of_nat (size class_to_id))
                            +:+ " classes");
         logger_info ("Labels shape: (" +:+ Py.fmt_d (shape2 labels).1 +:+ ", "
                        +:+ Py.fmt_d (shape2 labels).2 +:+ ")")
       else mret tt);
  mret (texts, labels, class_to_id).

(** [process_data(texts, num_words, maxlen, tokenizer)]; a negative
    [maxlen] is refused when the array of that width is made. *)
Definition process_data {Tok} `{Keras Tok} (texts : list string)
    (num_words maxlen : Z) (tokenizer : option Tok)
  : outcome (list (list Z) * Tok) :=
  let tokenizer :=
    match tokenizer with
    | None => fit_on_texts num_words texts
    | Some tokenizer => tokenizer
    end in
  let sequences := text_to_sequence tokenizer <$> texts in
  if maxlen <? 0 then Raises ValueError
  else Returns (GraphLoad.pad_sequences sequences maxlen, tokenizer).

(** The first loop of [load_glove_embeddings]: the dictionary of the
    vectors, and [coefs] as the last line read leaves it ([None] while
    unbound). *)
Fixpoint read_vectors `{Glove} (lines : list string)
    (embeddings_index : gmap string (list Q)) (coefs : option (list Q))
  : outcome (gmap string (list Q) * option (list Q)) :=
  match lines with
  | [] => Returns (embeddings_index, coefs)
  | line :: lines' =>
      match unpack2 (split1 line) with
      | Raises e => Raises e
      | Returns (word, coefs) =>
          match coefficients coefs with
          | None => Raises ValueError
          | Some coefs =>
              read_vectors lines' (<[word := coefs]> embeddings_index)
                (Some coefs)
          end
      end
  end.

(** The second loop: [word_index.items()] in the order of the dictionary. *)
Fixpoint fill_matrix (items : list (string * Z))
    (embeddings_index : gmap string (list Q)) (ncols : Z)
    (embedding_matrix : list (list Q)) : outcome (list (list Q)) :=
  match items with
  | [] => Returns embedding_matrix
  | (word, i) :: items' =>
      match embeddings_index !! word with
      | Some embedding_vector =>
          match set_row embedding_matrix ncols i embedding_vector with
          | Raises e => Raises e
          | Returns embedding_matrix =>
              fill_matrix items' embeddings_index ncols embedding_matrix
          end
      | None => fill_matrix items' embeddings_index ncols embedding_matrix
      end
  end.

(** [load_glove_embeddings(embedding_path, word_index, max_sequence,
    trainable)]; [word_index] is given by its items. *)
Definition load_glove_embeddings `{Glove} (files : gmap string string)
    (embedding_path : string) (word_index : list (string * Z))
    (max_sequence : Z) (trainable : bool) : outcome EmbeddingLayer :=
  match files !! embedding_path with
  | None => Raises (IOError embedding_path)
  | Some content =>
      match read_vectors (Py.readlines content) ∅ None with
      | Raises e => Raises e
      | Returns (embeddings_index, coefs) =>
          match coefs with
          | None => Raises (UnboundLocalError "coefs")
          | Some coefs =>
              let nrows := Py.len word_index + 1 in
              let ncols := Py.len coefs in
              match fill_matrix word_index embeddings_index ncols
                      (replicate (Z.to_nat nrows)
                         (replicate (Z.to_nat ncols) 0%Q)) with
              | Raises e => Raises e
              | Returns embedding_matrix =>
                  Returns {| input_dim := nrows;
                             output_dim := ncols;
                             weights := embedding_matrix;
                             input_length := max_sequence;
                             trainable := trainable |}
              end
          end
      end
  end.

End Train.

(** ** Words for what a run leaves behind *)

Section Outcomes.
Context {T R : Type} `{Numpy T}.

Definition with_stdout (w : World T R) (l : list string) : World T R :=
  {| stdout := l; dirs := dirs w; written := written w;
     rng := rng w; restored := restored w; runs := runs w |}.

Definition with_written (w : World T R) (l : list (string * Picture T))
  : World T R :=
  {| stdout := stdout w; dirs := dirs w; written := l;
     rng := rng w; restored := restored w; runs := runs w |}.

(** The world after lines 123-125 of [save_super_images]: the output
    directory, when it is a non-empty string and does not exist, has been
    announced and created. *)
Definition prepare_dir (save_dir : option string) (w : World T R) : World T R :=
  if Py.truthy save_dir && negb (bool_decide (Py.fmt_s save_dir ∈ dirs w))
  then {| stdout := stdout w ++ ["Make a new folder:  " +:+ Py.fmt_s save_dir];
          dirs := {[ Py.fmt_s save_dir ]} ∪ dirs w;
          written := written w; rng := rng w; restored := restored w;
          runs := runs w |}
  else w.

(** The composites of a batch, each with its position and its text: the
    pictures returned, and the files they are saved as. *)
Definition pictures (out : list (nat * string * T)) : list (Picture T) :=
  (fun '(j, t, x) => Demo.drawCaption x t) <$> out.

Definition saved_as (save_dir : option string) (startID : Z)
    (out : list (nat * string * T)) : list (string * Picture T) :=
  (fun '(j, t, x) =>
     (Demo.image_path save_dir (startID + Z.of_nat j), Demo.drawCaption x t))
  <$> out.

(** Code that ends, with a value or with an exception, and leaves the
    directories, the written files and the session as they were. *)
Definition quiet {X} (m : M (World T R) X) : Prop :=
  forall (w w' : World T R) (r : result X),
    m w = (r, w') ->
    r <> OutOfFuel /\ dirs w' = dirs w /\ written w' = written w /\
    restored w' = restored w /\ runs w' = runs w.

(** The array [a] has an entry at each of the positions [0 .. n-1]: as a
    batch of samples, it holds at least [n] images. *)
Definition holds_images (a : T) (n : Z) : Prop :=
  forall j, 0 <= j < n -> is_Some (np_get a j).

End Outcomes.

Section Batches.
Context {T R : Type} `{Tensorflow T R} `{StageII T} `{Numpy T}.

(** The networks keep the batch dimension: the noise of line 73 has
    [batch_size] rows, and every evaluation of the graph built for
    [batch_size] sentences gives [batch_size] images at either
    resolution. *)
Definition batch_preserving : Prop :=
  forall (model : CondGAN) (batch_size z_dim : Z) (embeddings : T)
         (w w' : World T R) (lr hr : T),
    Demo.generator_graph model batch_size z_dim embeddings w
    = (Ok (lr, hr), w') ->
    holds_images lr batch_size /\ holds_images hr batch_size.

End Batches.

(** The texts that have a letter, each with its position in the list. *)
Definition lettered (texts : list string) : list (nat * string) :=
  filter (fun p => Py.search_alpha p.2 = true) (imap pair texts).

(** How often [x] occurs in [l]. *)
Definition occurrences {A} `{EqDecision A} (x : A) (l : list A) : Z :=
  Py.len (filter (fun y => y = x) l).

(** ** A small concrete instance, to run the program on examples *)

Module Example.

Definition is_upper (c : ascii) : bool :=
  let n := Z.of_nat (nat_of_ascii c) in (65 <=? n) && (n <=? 90).

Definition lower (c : ascii) : ascii :=
  if is_upper c then ascii_of_nat (nat_of_ascii c + 32) else c.

(** The characters Python's [str.strip] removes. *)
Definition is_space (c : ascii) : bool :=
  let n := Z.of_nat (nat_of_ascii c) in
  (n =? 32) || ((9 <=? n) && (n <=? 13)).

Fixpoint lstrip (l : list ascii) : list ascii :=
  match l with
  | c :: l' => if is_space c then lstrip l' else l
  | [] => []
  end.

(** Modelled from the spec: [embedding.preprocessing.normalize] is not
    among the sources.  The specification describes a sentence as a "raw
    string, normalized (case/whitespace) before tokenization": letters are
    lowered and the white space around the sentence is removed. *)
Definition normalize_spec (s : string) : string :=
  Py.str (lower <$> rev (lstrip (rev (lstrip (Py.chars s))))).

(** Arrays without content: every operation returns the one array. *)
#[export] Instance tf_unit : Tensorflow unit unit := {|
  tf_shape := fun _ => [];
  tf_add := fun _ _ => tt;
  tf_mul := fun _ _ => tt;
  tf_exp := fun _ => tt;
  tf_concat := fun _ _ => tt;
  tf_truncated_normal := fun _ r => (tt, r);
  tf_random_normal := fun _ r => (tt, r)
|}.

#[export] Instance gan_unit : StageII unit := {|
  generate_condition := fun _ _ _ => (tt, tt);
  get_generator := fun _ _ _ => tt;
  hr_get_generator := fun _ _ _ _ => tt
|}.

#[export] Instance np_unit : Numpy unit := {|
  np_shape := fun _ => [];
  np_full := fun _ _ => tt;
  np_map := fun _ _ => tt;
  np_get := fun _ _ => Some tt;
  np_stack := fun _ => tt;
  np_concatenate := fun _ _ => tt;
  np_paste := fun _ _ => tt;
  np_uint8 := fun _ => tt;
  imresize := fun _ _ => tt
|}.

(** A tokenizer that numbers the characters of the text. *)
#[export] Instance embedding_unit : Embedding unit := {|
  load_graph := fun _ _ => tt;
  load_tokenizer := fun _ s => (fun c => Z.of_nat (nat_of_ascii c)) <$> Py.chars s;
  normalize := normalize_spec
|}.

#[export] Instance config_id : Demo.MiscConfig := {|
  Demo.cfg_from_file := fun _ cfg => cfg
|}.

Definition world0 : World unit unit := {|
  stdout := []; dirs := ∅; written := []; rng := tt;
  restored := None; runs := 0
|}.

Definition cfg0 (ckpt : string) (bs : Z) : Demo.Cfg := {|
  Demo.GPU_ID := 0; Demo.Z_DIM := 100;
  Demo.TEST := {| Demo.PRETRAINED_MODEL := ckpt; Demo.BATCH_SIZE := bs;
                  Demo.LR_IMSIZE := 64; Demo.HR_IMSIZE := 256;
                  Demo.CAPTION_PATH := "" |}
|}.

Definition args0 (captions : string) (out : option string) : Demo.Args := {|
  Demo.cfg_file := None; Demo.gpu_id := -1;
  Demo.caption_path := Some captions;
  Demo.caption_model := Some "models";
  Demo.save_dir := out
|}.

(** The same world once the directory of the captions files is there. *)
Definition world1 : World unit unit := {|
  stdout := []; dirs := {[ "data" ]}; written := []; rng := tt;
  restored := None; runs := 0
|}.

(** The embedding model as [embed_text] loads it. *)
Definition model400 : GraphLoad.Model (T:=unit) := {|
  GraphLoad.Y := load_graph "models/frozen_model.pb";
  GraphLoad.tokenizer := load_tokenizer "models/tokenizer.pickle";
  GraphLoad.maxlen := GraphLoad.MAX_SENT_LENGTH
|}.

(** Two captions files: three sentences of which two have letters, and a
    single line of digits. *)
Definition nl : string := String "010" "".
Definition captions : string :=
  "A small bird" +:+ nl +:+ "12345" +:+ nl +:+ "this bird has wings" +:+ nl.
Definition digits : string := "12345" +:+ nl.

(** The program on the unit arrays. *)
Definition run (fuel : nat) (disk : gmap string string) (args : Demo.Args)
    (cfg : Demo.Cfg) : result unit * World unit unit :=
  Demo.main fuel disk args cfg world0.

End Example.

(** A configuration with a low-resolution size of 0. *)
Definition cfg_zero_lr : Demo.Cfg := {|
  Demo.GPU_ID := 0; Demo.Z_DIM := 100;
  Demo.TEST := {| Demo.PRETRAINED_MODEL := "models/model.ckpt";
                  Demo.BATCH_SIZE := 2;
                  Demo.LR_IMSIZE := 0; Demo.HR_IMSIZE := 256;
                  Demo.CAPTION_PATH := "" |}
|}.

(** Three captions that all have letters. *)
Definition three_birds : string :=
  "a red bird" +:+ Example.nl +:+ "a blue bird" +:+ Example.nl
    +:+ "a grey bird" +:+ Example.nl.

(** ** Small inputs for the training script *)

Module TrainExample.

(** A tokenizer without a vocabulary: the tokens of a text are the codes
    of its characters. *)
#[export] Instance keras_codes : Train.Keras unit := {|
  Train.fit_on_texts := fun _ _ => tt;
  Train.text_to_sequence :=
    fun _ s => (fun c => Z.of_nat (nat_of_ascii c)) <$> Py.chars s
|}.

(** A reader of numbers of one digit: every digit of the line is a number,
    and a letter is refused. *)
Definition digit (c : ascii) : option Q :=
  let n := Z.of_nat (nat_of_ascii c) in
  if (48 <=? n) && (n <=? 57) then Some (inject_Z (n - 48)) else None.

#[export] Instance glove_digits : Train.Glove := {|
  Train.coefficients :=
    fun s => if Py.search_alpha s then None
             else Some (omap digit (Py.chars s))
|}.

(** Three training lines of two classes, two test lines of which the
    first has a class of the training data, and three GloVe lines. *)
Definition train_file : string :=
  "cat a b" +:+ Example.nl +:+ "dog x" +:+ Example.nl +:+ "cat q" +:+ Example.nl.
Definition test_file : string := "dog w" +:+ Example.nl +:+ "emu z" +:+ Example.nl.
Definition glove_file : string :=
  "a 1 2" +:+ Example.nl +:+ "b 3 4" +:+ Example.nl +:+ "a 5 6" +:+ Example.nl.
Definition files : gmap string string :=
  {[ "train.txt" := train_file; "test.txt" := test_file;
     "glove.txt" := glove_file; "empty.txt" := "" ]}.

End TrainExample.

(** * Properties *)

Import Example.

(** ** Pixel rescaling *)

(** C8. The rescaling [(x + 1.0) * 127.5] maps the interval [-1,1] onto
    [0,255]: every [x] in [-1,1] lands in [0,255], every [y] in [0,255] is
    the image of [y/127.5 - 1], which lies in [-1,1]; and over exact
    (rational) arithmetic the two maps are mutually inverse. *)
Theorem rescale_roundtrip (x y : Q) :
  (-1 <= x <= 1)%Q -> (0 <= y <= 255)%Q ->
  ((0 <= Pixel.rescale x <= 255)%Q /\ (Pixel.unscale (Pixel.rescale x) == x)%Q) /\
  ((-1 <= Pixel.unscale y <= 1)%Q /\ (Pixel.rescale (Pixel.unscale y) == y)%Q).
Proof.
  intros Hx Hy. unfold Pixel.rescale, Pixel.unscale, Qdiv.
  change (/ (255 # 2))%Q with (2 # 255)%Q.
  repeat split; lra.
Qed.

Lemma rescale_roundtrip_witness :
  ((0 <= Pixel.rescale (1 # 2) <= 255)%Q /\
   (Pixel.unscale (Pixel.rescale (1 # 2)) == 1 # 2)%Q) /\
  ((-1 <= Pixel.unscale 51 <= 1)%Q /\ (Pixel.rescale (Pixel.unscale 51) == 51)%Q).
Proof.
  apply (rescale_roundtrip (1 # 2) 51); split; vm_compute; discriminate.
Defined.

(** ** Strings and slices *)

Lemma prefix_empty s : String.prefix "" s = true.
Proof. by destruct s. Qed.

Lemma index_char_Some c s : forall n m,
  String.index n (String c "") s = Some m ->
  (n <= m)%nat /\ Py.chars s !! m = Some c /\
  forall i, (n <= i < m)%nat -> Py.chars s !! i <> Some c.
Proof.
  unfold Py.chars.
  induction s as [|b s IH]; intros n m; simpl.
  - destruct n; discriminate.
  - destruct n as [|n].
    + destruct (ascii_dec c b) as [->|Hne].
      * rewrite prefix_empty. intros [= <-]. split; [lia | split; [done | intros; lia]].
      * destruct (String.index 0 (String c "") s) as [k|] eqn:Hk; [|discriminate].
        intros [= <-]. destruct (IH _ _ Hk) as (_ & Hat & Hbefore).
        split; [lia | split; [done |]].
        intros [|i] Hi; simpl; [congruence | apply Hbefore; lia].
    + destruct (String.index n (String c "") s) as [k|] eqn:Hk; [|discriminate].
      intros [= <-]. destruct (IH _ _ Hk) as (Hle & Hat & Hbefore).
      split; [lia | split; [done |]].
      intros [|i] Hi; simpl; [lia | apply Hbefore; lia].
Qed.

Lemma index_char_None c s : forall n,
  String.index n (String c "") s = None ->
  forall i, (n <= i)%nat -> Py.chars s !! i <> Some c.
Proof.
  unfold Py.chars.
  induction s as [|b s IH]; intros n; simpl.
  - intros _ i _. done.
  - destruct n as [|n].
    + destruct (ascii_dec c b) as [->|Hne].
      * rewrite prefix_empty. discriminate.
      * destruct (String.index 0 (String c "") s) as [k|] eqn:Hk; [discriminate|].
        intros _ [|i] Hi; simpl; [congruence | apply (IH _ Hk); lia].
    + destruct (String.index n (String c "") s) as [k|] eqn:Hk; [discriminate|].
      intros _ [|i] Hi; simpl; [lia | apply (IH _ Hk); lia].
Qed.

Lemma str_chars s : Py.str (Py.chars s) = s.
Proof. apply String.string_of_list_ascii_of_string. Qed.

Lemma chars_str l : Py.chars (Py.str l) = l.
Proof. apply String.list_ascii_of_string_of_list_ascii. Qed.

Lemma str_app l1 l2 : Py.str (l1 ++ l2) = Py.str l1 +:+ Py.str l2.
Proof. induction l1 as [|c l1 IH]; simpl; [done | by rewrite IH]. Qed.

Lemma chars_length s : length (Py.chars s) = String.length s.
Proof. induction s; simpl; [done | by f_equal]. Qed.

Lemma slice_prefix {A} (l : list A) (b : Z) :
  0 <= b <= Py.len l -> Py.slice l 0 b = take (Z.to_nat b) l.
Proof.
  intros Hb. unfold Py.slice, Py.clip.
  replace (0 <? 0) with false by done.
  destruct (b <? 0) eqn:Hneg; [lia|].
  rewrite Z.min_l by lia. rewrite (Z.min_l 0) by (unfold Py.len; lia).
  simpl. rewrite drop_0. f_equal. lia.
Qed.

Lemma slice_suffix {A} (l : list A) (a : Z) :
  0 <= a <= Py.len l -> Py.slice l a (Py.len l) = drop (Z.to_nat a) l.
Proof.
  intros Ha. unfold Py.slice, Py.clip.
  destruct (a <? 0) eqn:Hneg; [lia|].
  destruct (Py.len l <? 0) eqn:Hneg'; [unfold Py.len in *; lia|].
  rewrite !Z.min_l by lia.
  apply take_ge. rewrite length_drop. unfold Py.len. lia.
Qed.

Lemma find_from_cases s c start :
  0 <= start ->
  let idx := Py.find_from s (String c "") start in
  (idx = -1 /\ forall i, (Z.to_nat start <= i)%nat -> Py.chars s !! i <> Some c) \/
  (start <= idx < Py.slen s /\ Py.chars s !! Z.to_nat idx = Some c /\
   forall i, (Z.to_nat start <= i < Z.to_nat idx)%nat -> Py.chars s !! i <> Some c).
Proof.
  intros Hstart. unfold Py.find_from, Py.clip.
  destruct (start <? 0) eqn:Hneg; [lia|].
  destruct (String.index _ _ s) as [m|] eqn:Hm.
  - right. apply index_char_Some in Hm as (Hle & Hat & Hbefore).
    pose proof (lookup_lt_Some _ _ _ Hat) as Hlt. rewrite chars_length in Hlt.
    rewrite Nat2Z.id. unfold Py.slen in *. split; [lia|]. split; [done|].
    intros i Hi. destruct (decide (i < Z.to_nat (Z.min start (Z.of_nat (String.length s))))%nat).
    + intros Hc. apply lookup_lt_Some in Hc. rewrite chars_length in Hc. lia.
    + apply Hbefore. lia.
  - left. split; [done|]. intros i Hi.
    destruct (decide (i < String.length s)%nat) as [Hlt|Hge].
    + apply (index_char_None _ _ _ Hm). unfold Py.slen. lia.
    + intros Hc. apply lookup_lt_Some in Hc. rewrite chars_length in Hc. lia.
Qed.

Lemma split_at_char s c (m : nat) :
  Py.chars s !! m = Some c ->
  Py.prefix s (Z.of_nat m) +:+ String c "" +:+ Py.suffix s (Z.of_nat m + 1) = s.
Proof.
  intros Hat. pose proof (lookup_lt_Some _ _ _ Hat) as Hlt.
  unfold Py.prefix, Py.suffix, Py.substr.
  assert (Py.slen s = Py.len (Py.chars s)) as ->
    by (unfold Py.slen, Py.len; by rewrite chars_length).
  rewrite slice_prefix, slice_suffix by (unfold Py.len; lia).
  change (String c "") with (Py.str [c]).
  rewrite <- !str_app.
  rewrite <- (str_chars s) at 3. f_equal.
  rewrite Nat2Z.id. replace (Z.to_nat (Z.of_nat m + 1)) with (S m) by lia.
  rewrite <- (take_drop_middle _ _ _ Hat) at 3. done.
Qed.

(** ** Captions *)

Lemma slen_prefix s (m : nat) :
  (m <= String.length s)%nat -> Py.slen (Py.prefix s (Z.of_nat m)) = Z.of_nat m.
Proof.
  intros Hm. unfold Py.prefix, Py.substr, Py.slen.
  rewrite slice_prefix by (unfold Py.len; rewrite chars_length; lia).
  rewrite <- chars_length, chars_str, length_take, chars_length. lia.
Qed.

(** C6 (amended).  [drawCaption] writes the caption on two lines only when
    it has a space at position 60 or later: it is then cut at the first such
    space, the part before it ([cap1], at least 60 characters) is drawn at
    (256, 10) and the part after it ([cap2]) at (256, 60), and
    [cap1 + " " + cap2] is the caption.  A caption with no space from
    position 60 on is drawn whole, on a single line at (256, 10).  Nothing
    else is drawn in the caption column. *)
Theorem drawCaption_lines {T} `{Numpy T} (img : T) (caption : string) :
  let idx := Py.find_from caption " " 60 in
  let lines := Demo.caption_lines (Demo.drawCaption img caption) in
  (idx = -1 /\ lines = [(256, 10, caption)] /\
   forall i : nat, (60 <= i)%nat -> Py.chars caption !! i <> Some " "%char) \/
  (60 <= idx < Py.slen caption /\
   lines = [(256, 10, Py.prefix caption idx);
            (256, 60, Py.suffix caption (idx + 1))] /\
   Py.prefix caption idx +:+ " " +:+ Py.suffix caption (idx + 1) = caption /\
   Py.slen (Py.prefix caption idx) = idx /\
   forall i : nat, (60 <= i < Z.to_nat idx)%nat ->
                   Py.chars caption !! i <> Some " "%char).
Proof.
  intros idx lines. subst lines. unfold Demo.drawCaption, Demo.caption_lines.
  fold idx. simpl.
  destruct (find_from_cases caption " "%char 60 ltac:(lia))
    as [(Hidx & Hnone) | (Hrange & Hat & Hbefore)]; fold idx in Hidx || fold idx in Hrange, Hat, Hbefore.
  - left. rewrite Hidx. split; [done|]. split; [|exact Hnone].
    destruct (Demo.shape_at img 0 >? 832); reflexivity.
  - right. split; [done|].
    destruct (idx =? -1) eqn:Hm1; [lia|].
    split; [destruct (Demo.shape_at img 0 >? 832); reflexivity|].
    pose proof (lookup_lt_Some _ _ _ Hat) as Hlt. rewrite chars_length in Hlt.
    rewrite <- (Z2Nat.id idx) by lia.
    split; [by apply split_at_char|]. split; [apply slen_prefix; lia|].
    rewrite Nat2Z.id. exact Hbefore.
Qed.

(** C6, as stated, fails: the sentence "a small bird" contains letters, so
    its image is produced, and its caption is drawn on one line. *)
Lemma drawCaption_short_caption_one_line :
  Py.search_alpha "a small bird" = true /\
  Demo.caption_lines
    (Demo.drawCaption tt "a small bird")
  = [(256, 10, "a small bird")] /\
  length (Demo.caption_lines
            (Demo.drawCaption tt "a small bird"))
  <> 2%nat.
Proof. repeat split; vm_compute; congruence. Qed.

(** ** Token matrices *)

Section PadSequences.
Import GraphLoad.

Lemma pad_post_spec (maxlen : Z) (s : list Z) :
  0 <= maxlen ->
  pad_post maxlen s
  = take (Z.to_nat maxlen) s
      ++ replicate (Z.to_nat maxlen - length s) 0.
Proof.
  intros Hm. unfold pad_post.
  destruct (Z_le_gt_dec maxlen (Py.len s)) as [Hle|Hgt].
  - rewrite slice_prefix by lia. f_equal. f_equal.
    unfold Py.len in *. rewrite length_take. lia.
  - replace (Py.slice s 0 maxlen) with s.
    + rewrite take_ge by (unfold Py.len in *; lia).
      f_equal. f_equal. unfold Py.len in *. lia.
    + unfold Py.slice, Py.clip. simpl.
      replace (maxlen <? 0) with false by lia.
      rewrite Z.min_r by lia. rewrite Z.min_l by (unfold Py.len; lia).
      rewrite Z.sub_0_r. unfold Py.len. rewrite Nat2Z.id.
      simpl. by rewrite take_ge.
Qed.

Lemma pad_post_length (maxlen : Z) (s : list Z) :
  0 <= maxlen -> length (pad_post maxlen s) = Z.to_nat maxlen.
Proof.
  intros Hm. rewrite pad_post_spec by done.
  rewrite length_app, length_take, length_replicate. lia.
Qed.

Lemma rows_of_concat {A} (n : nat) (x : list (list A)) :
  Forall (fun row => length row = n) x ->
  rows_of (length x) n (concat x) = x.
Proof.
  induction 1 as [|row x Hrow _ IH]; simpl; [done|].
  rewrite take_app_length', drop_app_length' by done. by rewrite IH.
Qed.

Lemma concat_length_rows {A} (n : nat) (x : list (list A)) :
  Forall (fun row => length row = n) x ->
  length (concat x) = (length x * n)%nat.
Proof.
  induction 1 as [|row x Hrow _ IH]; simpl; [done|].
  rewrite length_app. lia.
Qed.

Lemma reshape_rows_id (x : list (list Z)) (maxlen : Z) :
  0 < maxlen ->
  Forall (fun row => length row = Z.to_nat maxlen) x ->
  reshape_rows x maxlen = Ok x.
Proof.
  intros Hm Hx. unfold reshape_rows.
  destruct (maxlen <=? 0) eqn:Hle; [lia|].
  assert (Py.len (concat x) = Z.of_nat (length x) * maxlen) as ->.
  { unfold Py.len. rewrite (concat_length_rows _ _ Hx). lia. }
  rewrite Z_mod_mult. simpl. rewrite Z_div_mult by lia.
  rewrite Nat2Z.id. by rewrite rows_of_concat.
Qed.
End PadSequences.

Lemma token_matrix_spec {T} `{Embedding T}
    (self : GraphLoad.Model (T:=T)) (texts : list string) :
  0 < GraphLoad.maxlen self ->
  let n := Z.to_nat (GraphLoad.maxlen self) in
  let x := (fun s => take n (GraphLoad.tokenizer self s)
                       ++ replicate (n - length (GraphLoad.tokenizer self s)) 0)
           <$> texts in
  GraphLoad.token_matrix self (GraphLoad.Many texts) = Ok x /\
  Forall (fun row => length row = n) x.
Proof.
  intros Hm n x.
  assert (Hx : GraphLoad.pad_sequences (GraphLoad.tokenizer self <$> texts)
                 (GraphLoad.maxlen self) = x).
  { unfold x, GraphLoad.pad_sequences. rewrite <- list_fmap_compose.
    apply list_fmap_ext. intros _ s _. simpl. apply pad_post_spec. lia. }
  assert (Hrows : Forall (fun row => length row = n) x).
  { rewrite <- Hx. unfold GraphLoad.pad_sequences.
    rewrite Forall_fmap, Forall_fmap.
    apply Forall_true. intros s. simpl. apply pad_post_length. lia. }
  split; [|done].
  unfold GraphLoad.token_matrix. rewrite Hx. now apply reshape_rows_id.
Qed.

(** C10.  [Model.embed] takes one string or a list of strings, a bare string
    standing for the one-element list.  With a positive [maxlen] (400 by
    default) the token matrix has one row per text, every row has exactly
    [maxlen] entries, and the row of a text is its token sequence cut after
    [maxlen] tokens and filled with zeros at the end; the result holds the
    embedding of each row. *)
Theorem embed_token_rows {T} `{Embedding T}
    (self : GraphLoad.Model (T:=T)) (text : GraphLoad.text_arg) :
  0 < GraphLoad.maxlen self ->
  let texts := match text with GraphLoad.One s => [s] | GraphLoad.Many l => l end in
  let n := Z.to_nat (GraphLoad.maxlen self) in
  exists x : list (list Z),
    GraphLoad.token_matrix self text = Ok x /\
    GraphLoad.embed self text = Ok (GraphLoad.Y self <$> x) /\
    length x = length texts /\
    Forall (fun row => Py.len row = GraphLoad.maxlen self) x /\
    x = (fun s => take n (GraphLoad.tokenizer self s)
                    ++ replicate (n - length (GraphLoad.tokenizer self s)) 0)
        <$> texts.
Proof.
  intros Hm texts n.
  destruct (token_matrix_spec self texts Hm) as (Hx & Hrows).
  assert (GraphLoad.token_matrix self text
          = GraphLoad.token_matrix self (GraphLoad.Many texts)) as Htext
    by (by destruct text).
  eexists. split; [by rewrite Htext|]. split.
  { unfold GraphLoad.embed. by rewrite Htext, Hx. }
  split; [by rewrite length_fmap|]. split; [|done].
  eapply Forall_impl; [exact Hrows|]. intros row Hrow. simpl in Hrow.
  unfold Py.len. lia.
Qed.

Lemma embed_token_rows_witness :
  exists x : list (list Z),
    GraphLoad.token_matrix Example.model400 (GraphLoad.One "a bird") = Ok x /\
    GraphLoad.embed Example.model400 (GraphLoad.One "a bird")
    = Ok (GraphLoad.Y Example.model400 <$> x) /\
    length x = 1%nat /\
    Forall (fun row => Py.len row = 400) x /\
    x = (fun s => take 400 (GraphLoad.tokenizer Example.model400 s)
                    ++ replicate
                         (400 - length (GraphLoad.tokenizer Example.model400 s))
                         0)
        <$> ["a bird"].
Proof.
  apply (embed_token_rows Example.model400
           (GraphLoad.One "a bird")).
  reflexivity.
Defined.

(** ** The conditioning sampler and the generator graph *)

Section Monad.
Context {S : Type}.

Lemma bind_Ok {X Y} (m : M S X) (k : X -> M S Y) s x s' :
  m s = (Ok x, s') -> (m ≫= k) s = k x s'.
Proof. intros Hm. unfold mbind, M_bind, bind. by rewrite Hm. Qed.

Lemma bind_Raise {X Y} (m : M S X) (k : X -> M S Y) s e s' :
  m s = (Raise e, s') -> (m ≫= k) s = (Raise e, s').
Proof. intros Hm. unfold mbind, M_bind, bind. by rewrite Hm. Qed.


End Monad.

Section Sampler.
Context {T R : Type} `{Tensorflow T R} `{StageII T}.

Lemma draw_spec (op : R -> T * R) (w : World T R) :
  draw op w = (Ok (op (rng w)).1, with_rng w (op (rng w)).2).
Proof. unfold draw. by destruct (op (rng w)). Qed.

Lemma sample_with_augmentation (scope : string) (embeddings : T)
    (model : CondGAN) (w : World T R) :
  let mean := (generate_condition model scope embeddings).1 in
  let logsigma := (generate_condition model scope embeddings).2 in
  let noise := tf_truncated_normal (tf_shape mean) (rng w) in
  Demo.sample_encoded_context scope embeddings model true w
  = (Ok (tf_add mean (tf_mul (tf_exp logsigma) noise.1)),
     with_rng w noise.2).
Proof.
  intros mean logsigma noise. unfold Demo.sample_encoded_context.
  erewrite bind_Ok by apply draw_spec. done.
Qed.

Lemma generator_graph_steps (embeddings : T) (model : CondGAN)
    (batch_size z_dim : Z) (w : World T R) :
  exists (c z hr_c : T) (r1 r2 r3 : R),
    Demo.sample_encoded_context "g_net" embeddings model true w
    = (Ok c, with_rng w r1) /\
    draw (tf_random_normal [batch_size; z_dim]) (with_rng w r1)
    = (Ok z, with_rng w r2) /\
    Demo.sample_encoded_context "hr_g_net" embeddings model true
      (with_rng w r2)
    = (Ok hr_c, with_rng w r3) /\
    Demo.generator_graph model batch_size z_dim embeddings w
    = (Ok (get_generator model "g_net" (tf_concat 1 [c; z]),
           hr_get_generator model "hr_g_net"
             (get_generator model "g_net" (tf_concat 1 [c; z])) hr_c),
       with_rng w r3).
Proof.
  pose proof (sample_with_augmentation "g_net" embeddings model w) as Hc.
  simpl in Hc.
  set (r1 := (tf_truncated_normal _ (rng w)).2) in Hc.
  pose proof (draw_spec (tf_random_normal [batch_size; z_dim])
                (with_rng w r1)) as Hz.
  change (rng (with_rng w r1)) with r1 in Hz.
  set (r2 := (tf_random_normal _ r1).2) in Hz.
  change (with_rng (with_rng w r1) r2) with (with_rng w r2) in Hz.
  pose proof (sample_with_augmentation "hr_g_net" embeddings model
                (with_rng w r2)) as Hhr.
  simpl in Hhr. change (rng (with_rng w r2)) with r2 in Hhr.
  set (r3 := (tf_truncated_normal _ r2).2) in Hhr.
  change (with_rng (with_rng w r2) r3) with (with_rng w r3) in Hhr.
  eexists _, _, _, r1, r2, r3.
  split; [exact Hc|]. split; [exact Hz|]. split; [exact Hhr|].
  unfold Demo.generator_graph.
  erewrite bind_Ok by exact Hc.
  erewrite bind_Ok by exact Hz.
  erewrite bind_Ok by exact Hhr.
  done.
Qed.

(** C5.  From the embeddings the sampler computes the pair (mean,
  log-stddev) with [generate_condition].  With augmentation it draws one
  noise tensor of the shape of the mean and returns
  [mean + exp(log-stddev) * noise], touching nothing but the random
  generator; without augmentation it returns the mean itself and draws
  nothing.  The generator graph samples twice, with augmentation: once
  under the scope "g_net" for the Stage-I code [c], and once more, with
  noise drawn afresh, under the scope "hr_g_net" for the Stage-II code
  [hr_c]; Stage-I generates from [c] joined with a noise vector [z], and
  Stage-II from the Stage-I images and [hr_c]. *)
Theorem sample_encoded_context_spec (scope : string) (embeddings : T)
    (model : CondGAN) (batch_size z_dim : Z) (w : World T R) :
  let mean := (generate_condition model scope embeddings).1 in
  let logsigma := (generate_condition model scope embeddings).2 in
  let noise := tf_truncated_normal (tf_shape mean) (rng w) in
  Demo.sample_encoded_context scope embeddings model true w
  = (Ok (tf_add mean (tf_mul (tf_exp logsigma) noise.1)),
     with_rng w noise.2) /\
  Demo.sample_encoded_context scope embeddings model false w
  = (Ok mean, w) /\
  exists (c z hr_c : T) (w1 w2 w3 : World T R),
    Demo.sample_encoded_context "g_net" embeddings model true w
    = (Ok c, w1) /\
    draw (tf_random_normal [batch_size; z_dim]) w1 = (Ok z, w2) /\
    Demo.sample_encoded_context "hr_g_net" embeddings model true w2
    = (Ok hr_c, w3) /\
    Demo.generator_graph model batch_size z_dim embeddings w
    = (Ok (get_generator model "g_net" (tf_concat 1 [c; z]),
           hr_get_generator model "hr_g_net"
             (get_generator model "g_net" (tf_concat 1 [c; z])) hr_c),
       w3).
Proof.
  intros mean logsigma noise.
  split; [apply sample_with_augmentation|]. split; [done|].
  destruct (generator_graph_steps embeddings model batch_size z_dim w)
    as (c & z & hr_c & r1 & r2 & r3 & Hc & Hz & Hhr & Hg).
  by exists c, z, hr_c, (with_rng w r1), (with_rng w r2), (with_rng w r3).
Qed.
End Sampler.

Section Generator.
Context {T R : Type} `{Tensorflow T R} `{StageII T}.

(** The graph is a total function of the fed embeddings and the random
    generator, and changes nothing else. *)
Lemma generator_graph_runs (model : CondGAN) (bs z_dim : Z)
    (embeddings : T) (w : World T R) :
  exists out r,
    Demo.generator_graph model bs z_dim embeddings w = (Ok out, with_rng w r).
Proof.
  destruct (generator_graph_steps embeddings model bs z_dim w)
    as (c & z & hr_c & r1 & r2 & r3 & _ & _ & _ & ->).
  by eexists _, _.
Qed.


(** When the configured checkpoint path does not contain ".ckpt" (and the
    low-resolution size is not zero, so that the ratio of line 66 is
    defined), [build_model] itself raises nothing: it prints
    "Input a valid model path. <path> is not valid", restores no checkpoint
    and returns the generator graph like in the other case. *)
Lemma build_model_invalid_path (dim bs : Z) (cfg : Demo.Cfg)
    (w : World T R) :
  Demo.LR_IMSIZE (Demo.TEST cfg) <> 0 ->
  Py.find (Demo.PRETRAINED_MODEL (Demo.TEST cfg)) ".ckpt" = -1 ->
  exists (g : Demo.Graph) (w' : World T R),
    Demo.build_model dim bs cfg w = (Ok g, w') /\
    stdout w' = stdout w ++
      ["Input a valid model path. "
         +:+ Demo.PRETRAINED_MODEL (Demo.TEST cfg) +:+ " is not valid"] /\
    restored w' = restored w /\ dirs w' = dirs w /\
    written w' = written w /\ rng w' = rng w /\ runs w' = runs w /\
    g = Demo.generator_graph
          {| lr_imsize := Demo.LR_IMSIZE (Demo.TEST cfg);
             hr_lr_ratio := Demo.HR_IMSIZE (Demo.TEST cfg)
                              ÷ Demo.LR_IMSIZE (Demo.TEST cfg) |}
          bs (Demo.Z_DIM cfg).
Proof.
  intros Hlr Hfind. unfold Demo.build_model.
  destruct (Demo.LR_IMSIZE (Demo.TEST cfg) =? 0) eqn:Hz; [lia|].
  erewrite bind_Ok by reflexivity. rewrite Hfind. simpl negb.
  erewrite bind_Ok by reflexivity.
  eexists _, _. split; [reflexivity|]. done.
Qed.
End Generator.

(** On the unit arrays every position holds an image. *)
Lemma batch_preserving_unit : batch_preserving (T:=unit) (R:=unit).
Proof. intros ? ? ? ? ? ? ? ? _. split; intros j _; by eexists. Qed.

(** ** Repeated generation *)

Lemma for_fold_inv {S X A} (I : nat -> A -> S -> Prop)
    (xs : list X) (body : A -> X -> M S A) :
  (forall k x acc s, xs !! k = Some x -> I k acc s ->
     exists acc' s', body acc x s = (Ok acc', s') /\ I (Datatypes.S k) acc' s') ->
  forall acc s, I 0%nat acc s ->
  exists acc' s', for_fold xs acc body s = (Ok acc', s') /\ I (length xs) acc' s'.
Proof.
  revert I. induction xs as [|x xs IH]; intros I Hbody acc s HI.
  - exists acc, s. by split.
  - destruct (Hbody 0%nat x acc s eq_refl HI) as (acc1 & s1 & Hx & HI1).
    destruct (IH (fun k => I (Datatypes.S k))
                 (fun k y => Hbody (Datatypes.S k) y) acc1 s1 HI1)
      as (acc' & s' & Hrest & HI').
    exists acc', s'. split; [|done].
    simpl. unfold bind. by rewrite Hx.
Qed.

Lemma range_length (k : Z) : length (Py.range k) = Z.to_nat k.
Proof. unfold Py.range. by rewrite length_fmap, length_seq. Qed.

Lemma range_lookup (k : Z) (i : nat) x :
  Py.range k !! i = Some x <-> x = Z.of_nat i /\ (i < Z.to_nat k)%nat.
Proof.
  unfold Py.range. rewrite list_lookup_fmap.
  destruct (decide (i < Z.to_nat k)%nat) as [Hlt|Hge].
  - rewrite lookup_seq_lt by done. simpl. split; [intros [= <-]; done|].
    intros [-> _]. done.
  - rewrite lookup_seq_ge by lia. simpl. split; [done|]. intros [_ ?]. lia.
Qed.

Section GenerateN.
Context {T R : Type} `{Tensorflow T R} `{StageII T}.

Lemma after_runs_refl (w : World T R) : after_runs 0 w w.
Proof. unfold after_runs. repeat split; lia. Qed.

Lemma after_runs_trans n m (w1 w2 w3 : World T R) :
  after_runs n w1 w2 -> after_runs m w2 w3 -> after_runs (n + m) w1 w3.
Proof.
  unfold after_runs. intros (?&?&?&?&?) (?&?&?&?&?).
  repeat split; try congruence. lia.
Qed.

(** One fetch in a session that holds a restored checkpoint: the graph is
    evaluated once and the run is counted.  [P] is any property of the
    pairs of samples the graph gives. *)
Lemma generate_spec (self : Demo.GenerativeModel) (model : CondGAN) (z_dim : Z)
    (embeddings : T) (w : World T R) (P : T -> T -> Prop) :
  Demo.ops self = Demo.generator_graph model (Demo.batch_size self) z_dim ->
  restored w <> None ->
  (forall w0 w1 lr hr,
     Demo.generator_graph model (Demo.batch_size self) z_dim embeddings w0
     = (Ok (lr, hr), w1) -> P lr hr) ->
  exists hr lr w',
    Demo.generate self embeddings w = (Ok (hr, lr), w') /\
    after_runs 1 w w' /\ P lr hr.
Proof.
  intros Hops Hres HP. unfold Demo.generate. rewrite Hops.
  destruct (generator_graph_runs model (Demo.batch_size self) z_dim embeddings w)
    as ([lr hr] & r & Hg).
  erewrite bind_Ok.
  2:{ unfold session_run. destruct (restored w); [|done].
      erewrite bind_Ok by exact Hg.
      erewrite bind_Ok by reflexivity. reflexivity. }
  exists hr, lr. eexists. split; [reflexivity|].
  split; [|by eapply HP].
  unfold after_runs. simpl. repeat split; lia.
Qed.

(** The same fetch in a session in which nothing was restored. *)
Lemma generate_unrestored (self : Demo.GenerativeModel) (embeddings : T)
    (w : World T R) :
  restored w = None ->
  Demo.generate self embeddings w = (Raise FailedPreconditionError, w).
Proof.
  intros Hres. unfold Demo.generate.
  erewrite bind_Raise; [reflexivity|].
  unfold session_run. by rewrite Hres.
Qed.

Lemma generate_n_spec (self : Demo.GenerativeModel) (model : CondGAN) (z_dim : Z)
    (embeddings : T) (n : Z) (w : World T R) (P : T -> T -> Prop) :
  Demo.ops self = Demo.generator_graph model (Demo.batch_size self) z_dim ->
  restored w <> None ->
  (forall w0 w1 lr hr,
     Demo.generator_graph model (Demo.batch_size self) z_dim embeddings w0
     = (Ok (lr, hr), w1) -> P lr hr) ->
  exists hr lr w',
    Demo.generate_n self embeddings n w = (Ok (hr, lr), w') /\
    length hr = Z.to_nat (Z.min 16 n) /\
    length lr = Z.to_nat (Z.min 16 n) /\
    after_runs (Z.to_nat (Z.min 16 n)) w w' /\
    Forall2 P lr hr.
Proof.
  intros Hops Hres HP. unfold Demo.generate_n.
  destruct (for_fold_inv
    (fun k (acc : list T * list T) w' =>
       length acc.1 = k /\ length acc.2 = k /\ after_runs k w w' /\
       Forall2 P acc.1 acc.2)
    (Py.range (Z.min 16 n))
    (fun '(lr_samples_batchs, hr_samples_batchs) _ =>
       '(hr_samples, samples) ← Demo.generate self embeddings;
       mret (lr_samples_batchs ++ [samples],
             hr_samples_batchs ++ [hr_samples]))) with (@nil T, @nil T) w
    as ([lr hr] & w' & Hrun & Hlr & Hhr & Hw & HPs).
  - intros k x [lr hr] w0 _ (Hlr & Hhr & Hw & HPs). simpl in Hlr, Hhr, HPs.
    assert (restored w0 <> None) as Hres0.
    { destruct Hw as (_ & _ & _ & -> & _). done. }
    destruct (generate_spec self model z_dim embeddings w0 P Hops Hres0 HP)
      as (hr1 & lr1 & w1 & Hgen & Hw1 & HP1).
    eexists (_, _), _. split.
    + erewrite bind_Ok by exact Hgen. reflexivity.
    + simpl. rewrite !length_app. simpl.
      split; [lia|]. split; [lia|]. split.
      * replace (Datatypes.S k) with (k + 1)%nat by lia.
        by eapply after_runs_trans.
      * apply Forall2_app; [done|]. by constructor.
  - split; [done|]. split; [done|]. split; [apply after_runs_refl|].
    constructor.
  - exists hr, lr, w'. rewrite range_length in *. simpl in *.
    split; [|done].
    erewrite bind_Ok by exact Hrun. done.
Qed.

End GenerateN.



(** ** The batching loop *)

Section BatchingLoop.
Context {S : Type} (body : Z -> Z -> M S unit).
Variables (n bs : Z).
Hypothesis Hbs : 1 <= bs <= n.

(** A property [I count s] that holds on entry, and that every batch
    carries from its [count] to the next one, holds with [count = n] when
    the loop ends; and the loop does end. *)
Lemma batching_loop_rule (I : Z -> S -> Prop) :
  (forall count s, 0 <= count < n -> I count s ->
     exists s',
       (if count + bs >? n then body (n - bs) n s
        else body count (count + bs) s) = (Ok tt, s') /\
       I (if count + bs >? n then n else count + bs) s') ->
  forall (fuel : nat) count s,
    0 <= count <= n -> n - count < Z.of_nat fuel -> I count s ->
    exists s', Demo.batching_loop body fuel n bs count s = (Ok tt, s') /\ I n s'.
Proof.
  intros Hstep. induction fuel as [|fuel IH]; intros count s Hc Hfuel HI; [lia|].
  simpl. destruct (count <? n) eqn:Hlt.
  - destruct (Hstep count s ltac:(lia) HI) as (s' & Hbody & HI').
    destruct (count + bs >? n) eqn:Hover.
    + erewrite bind_Ok by exact Hbody.
      replace (n - bs + bs) with n by lia.
      apply IH; [lia | lia | done].
    + erewrite bind_Ok by exact Hbody.
      apply IH; [lia | lia | done].
  - assert (count = n) as -> by lia. exists s. by split.
Qed.
End BatchingLoop.

Lemma range_snoc (k : Z) : 0 <= k -> Py.range (k + 1) = Py.range k ++ [k].
Proof.
  intros Hk. unfold Py.range.
  replace (Z.to_nat (k + 1)) with (Z.to_nat k + 1)%nat by lia.
  rewrite seq_app, fmap_app. simpl. f_equal. f_equal. lia.
Qed.

(** The batches of a run, in closed form: [(n-1)/bs] batches at the
    stride [bs], followed by the batch [(n - bs, n)]. *)
Lemma batches_closed_form (n bs : Z) (fuel : nat) :
  1 <= bs <= n -> n < Z.of_nat fuel ->
  Demo.batches fuel n bs
  = (Ok tt,
     ((fun k => (k * bs, k * bs + bs)) <$> Py.range ((n - 1) / bs))
       ++ [(n - bs, n)]).
Proof.
  intros Hbs Hfuel. unfold Demo.batches.
  set (regular := fun q => (fun k => (k * bs, k * bs + bs)) <$> Py.range q).
  destruct (batching_loop_rule Demo.note_batch n bs Hbs
    (fun count seen =>
       (count < n /\ exists q, 0 <= q /\ count = q * bs /\ seen = regular q) \/
       (count = n /\ seen = regular ((n - 1) / bs) ++ [(n - bs, n)])))
    with (fuel := fuel) (count := 0) (s := @nil (Z * Z))
    as (seen & Hrun & Hseen).
  - intros count seen Hcount [(_ & q & Hq & -> & ->) | (-> & _)]; [|lia].
    destruct (q * bs + bs >? n) eqn:Hover.
    + eexists. split; [reflexivity|]. right. split; [done|].
      replace ((n - 1) / bs) with q; [done|].
      apply Z.div_unique with (r := n - 1 - q * bs); lia.
    + eexists. split; [reflexivity|].
      assert (regular q ++ [(q * bs, q * bs + bs)] = regular (q + 1)) as Hnext.
      { unfold regular. rewrite range_snoc by done. by rewrite fmap_app. }
      destruct (decide (q * bs + bs = n)) as [Heq|Hne].
      * right. split; [done|]. rewrite Hnext.
        replace ((n - 1) / bs) with q.
        -- rewrite <- Hnext. do 2 f_equal. f_equal; lia.
        -- apply Z.div_unique with (r := bs - 1); lia.
      * left. split; [lia|]. exists (q + 1). split; [lia|]. split; [lia|done].
  - lia.
  - lia.
  - left. split; [lia|]. exists 0. by repeat split.
  - rewrite Hrun. destruct Hseen as [(? & _) | (_ & ->)]; [lia | done].
Qed.

Lemma slice_in_range {A} (l : list A) (a b : Z) :
  0 <= a <= b -> b <= Py.len l ->
  Py.slice l a b = take (Z.to_nat (b - a)) (drop (Z.to_nat a) l).
Proof.
  intros Hab Hb. unfold Py.slice, Py.clip.
  destruct (a <? 0) eqn:Ha; [lia|]. destruct (b <? 0) eqn:Hb'; [lia|].
  by rewrite !Z.min_l by lia.
Qed.

Lemma slice_len {A} (l : list A) (a b : Z) :
  0 <= a <= b -> b <= Py.len l -> Py.len (Py.slice l a b) = b - a.
Proof.
  intros Hab Hb. rewrite slice_in_range by done.
  unfold Py.len in *. rewrite length_take, length_drop. lia.
Qed.

(** C2 (amended).  With at least one embedding and a configured batch size
    of at least 1, the loop ends, no batch ends beyond [num_embeddings], and
    the batches are [(num_embeddings - 1) / batch_size] batches at the
    regular stride followed by the batch
    [(num_embeddings - batch_size, num_embeddings)]; in particular, when
    [num_embeddings] is not a multiple of [batch_size], the last batch is
    the realigned one, with [count = num_embeddings - batch_size] and
    [iend = num_embeddings]. *)
Theorem batching_realigns_last_batch
    (num_embeddings configured : Z) (fuel : nat) :
  1 <= num_embeddings -> 1 <= configured ->
  num_embeddings < Z.of_nat fuel ->
  let batch_size := Z.min num_embeddings configured in
  exists seen : list (Z * Z),
    Demo.batches fuel num_embeddings batch_size = (Ok tt, seen) /\
    seen = ((fun k => (k * batch_size, k * batch_size + batch_size))
              <$> Py.range ((num_embeddings - 1) / batch_size))
           ++ [(num_embeddings - batch_size, num_embeddings)] /\
    Forall (fun b => b.2 <= num_embeddings) seen /\
    (num_embeddings mod batch_size <> 0 ->
     last seen = Some (num_embeddings - batch_size, num_embeddings)).
Proof.
  intros Hn Hcfg Hfuel batch_size.
  assert (Hbs : 1 <= batch_size <= num_embeddings) by (unfold batch_size; lia).
  eexists. split; [by apply batches_closed_form|]. split; [done|]. split.
  - apply Forall_app. split; [|by repeat constructor].
    apply Forall_fmap, Forall_forall. intros k Hk. simpl.
    apply list_elem_of_lookup in Hk as [i Hi].
    apply range_lookup in Hi as [-> Hi].
    assert (Z.of_nat i < (num_embeddings - 1) / batch_size) by lia.
    pose proof (Z.mul_div_le (num_embeddings - 1) batch_size ltac:(lia)).
    nia.
  - intros _. by rewrite last_snoc.
Qed.

Lemma batching_realigns_last_batch_witness :
  exists seen : list (Z * Z),
    Demo.batches 8 7 (Z.min 7 3) = (Ok tt, seen) /\
    seen = ((fun k => (k * Z.min 7 3, k * Z.min 7 3 + Z.min 7 3))
              <$> Py.range ((7 - 1) / Z.min 7 3))
           ++ [(7 - Z.min 7 3, 7)] /\
    Forall (fun b => b.2 <= 7) seen /\
    (7 mod Z.min 7 3 <> 0 -> last seen = Some (7 - Z.min 7 3, 7)).
Proof.
  apply (batching_realigns_last_batch 7 3 8); lia.
Defined.

Lemma batching_loop_stuck (fuel : nat) (seen : list (Z * Z)) :
  exists seen',
    Demo.batching_loop Demo.note_batch fuel 1 0 0 seen = (OutOfFuel, seen') /\
    forall b, b ∈ seen' -> b ∈ seen \/ b = (0, 0).
Proof.
  revert seen. induction fuel as [|fuel IH]; intros seen.
  - exists seen. split; [done|]. auto.
  - destruct (IH (seen ++ [(0, 0)])) as (seen' & Hrun & Hseen').
    exists seen'. split; [exact Hrun|].
    intros b Hb. apply Hseen' in Hb as [Hb | Hb]; [|by right].
    apply elem_of_app in Hb as [Hb | Hb]; [by left|].
    right. by apply list_elem_of_singleton in Hb.
Qed.

(** C2, as stated, fails for a configured batch size of 0: with one
    embedding the batch size is [min(1, 0) = 0], which does not divide 1,
    yet the loop never reaches its end and no batch ends at
    [num_embeddings]. *)
Lemma batching_zero_batch_size_no_last_batch :
  ~ (Z.min 1 0 | 1) /\
  ~ (exists fuel seen, Demo.batches fuel 1 (Z.min 1 0) = (Ok tt, seen)) /\
  ~ (exists fuel count, (count, 1) ∈ (Demo.batches fuel 1 (Z.min 1 0)).2).
Proof.
  split; [intros [k Hk]; lia|]. split.
  - intros (fuel & seen & Hrun). unfold Demo.batches in Hrun.
    destruct (batching_loop_stuck fuel []) as (seen' & Hstuck & _).
    change (Z.min 1 0) with 0 in Hrun. congruence.
  - intros (fuel & count & Hin). unfold Demo.batches in Hin.
    destruct (batching_loop_stuck fuel []) as (seen' & Hstuck & Hseen').
    change (Z.min 1 0) with 0 in Hin. rewrite Hstuck in Hin.
    apply Hseen' in Hin as [Hin | Hin]; [by apply elem_of_nil in Hin | congruence].
Qed.

(** C9 (amended).  With at least one embedding and a configured batch size
    of at least 1, the loop ends, and every batch it hands on satisfies
    [0 <= count < iend <= num_embeddings] and holds exactly [batch_size]
    embeddings; the realigned count [num_embeddings - batch_size] is not
    negative. *)
Theorem batching_loop_invariant {A} (embeddings : list A)
    (configured : Z) (fuel : nat) :
  let num_embeddings := Py.len embeddings in
  1 <= num_embeddings -> 1 <= configured ->
  num_embeddings < Z.of_nat fuel ->
  let batch_size := Z.min num_embeddings configured in
  exists seen : list (Z * Z),
    Demo.batches fuel num_embeddings batch_size = (Ok tt, seen) /\
    Forall (fun '(count, iend) =>
              0 <= count < iend /\ iend <= num_embeddings /\
              Py.len (Py.slice embeddings count iend) = batch_size) seen /\
    0 <= num_embeddings - batch_size.
Proof.
  intros num_embeddings Hn Hcfg Hfuel batch_size.
  assert (Hbs : 1 <= batch_size <= num_embeddings) by (unfold batch_size; lia).
  eexists. split; [by apply batches_closed_form|]. split; [|lia].
  apply Forall_app. split.
  - apply Forall_fmap, Forall_forall. intros k Hk. simpl.
    apply list_elem_of_lookup in Hk as [i Hi].
    apply range_lookup in Hi as [-> Hi].
    assert (Z.of_nat i < (num_embeddings - 1) / batch_size) by lia.
    pose proof (Z.mul_div_le (num_embeddings - 1) batch_size ltac:(lia)).
    assert (Z.of_nat i * batch_size + batch_size <= num_embeddings) by nia.
    split; [nia|]. split; [done|].
    rewrite slice_len; [lia | nia | done].
  - repeat constructor; try lia. rewrite slice_len; lia.
Qed.

Lemma batching_loop_invariant_witness :
  exists seen : list (Z * Z),
    Demo.batches 8 (Py.len ["a"; "b"; "c"; "d"; "e"; "f"; "g"])
      (Z.min (Py.len ["a"; "b"; "c"; "d"; "e"; "f"; "g"]) 3) = (Ok tt, seen) /\
    Forall (fun '(count, iend) =>
              0 <= count < iend /\
              iend <= Py.len ["a"; "b"; "c"; "d"; "e"; "f"; "g"] /\
              Py.len (Py.slice ["a"; "b"; "c"; "d"; "e"; "f"; "g"] count iend)
              = Z.min (Py.len ["a"; "b"; "c"; "d"; "e"; "f"; "g"]) 3) seen /\
    0 <= Py.len ["a"; "b"; "c"; "d"; "e"; "f"; "g"]
         - Z.min (Py.len ["a"; "b"; "c"; "d"; "e"; "f"; "g"]) 3.
Proof.
  apply (batching_loop_invariant ["a"; "b"; "c"; "d"; "e"; "f"; "g"] 3 8);
    vm_compute; congruence.
Defined.

(** C9, as stated, fails for a configured batch size of 0: with one
    embedding, the first batch handed on has [count = iend = 0]. *)
Lemma batching_zero_batch_size_empty_batch :
  Demo.batches 1 (Py.len ["a bird"]) (Z.min (Py.len ["a bird"]) 0)
  = (OutOfFuel, [(0, 0)]) /\
  ~ (0 <= 0 < 0 /\ 0 <= Py.len ["a bird"]).
Proof. split; [reflexivity | lia]. Qed.

(** ** Writing the images *)

Lemma index_in_range {A} (l : list A) (i : Z) :
  0 <= i < Py.len l -> Py.index l i = l !! Z.to_nat i /\ is_Some (l !! Z.to_nat i).
Proof.
  intros Hi. unfold Py.index. destruct (i <? 0) eqn:Hneg; [lia|].
  split; [done|]. apply lookup_lt_is_Some. unfold Py.len in Hi. lia.
Qed.

Lemma range_elem (k i : Z) : i ∈ Py.range k <-> 0 <= i < k.
Proof.
  rewrite list_elem_of_lookup. split.
  - intros [j Hj]. apply range_lookup in Hj. lia.
  - intros Hi. exists (Z.to_nat i). apply range_lookup. lia.
Qed.

Lemma range2_elem (a b i : Z) : i ∈ Py.range2 a b <-> a <= i < b.
Proof.
  unfold Py.range2. rewrite list_elem_of_fmap. split.
  - intros (j & -> & Hj). apply range_elem in Hj. lia.
  - intros Hi. exists (i - a). split; [lia|]. apply range_elem. lia.
Qed.

Section Composite.
Context {T R : Type} `{Numpy T}.

Lemma holds_images_elem (l : list T) (n j : Z) (a : T) :
  Forall (fun a => holds_images a n) l -> a ∈ l -> 0 <= j < n ->
  exists x, np_get a j = Some x.
Proof.
  intros Hall Ha Hj. rewrite Forall_forall in Hall.
  destruct (Hall a Ha j Hj) as [x Hx]. by exists x.
Qed.

Lemma holds_images_mono (a : T) (n m : Z) :
  n <= m -> holds_images a m -> holds_images a n.
Proof. intros Hnm Ha j Hj. apply Ha. lia. Qed.

Lemma holds_images_first (hr : list T) (n : Z) (hr0 : T) :
  Forall (fun a => holds_images a (Z.max 1 n)) hr -> hr !! 0%nat = Some hr0 ->
  (exists x, np_get hr0 0 = Some x) /\
  Forall (fun a => holds_images a n) hr.
Proof.
  intros Hall H0. split.
  - eapply holds_images_elem; [exact Hall | by eapply list_elem_of_lookup_2 | lia].
  - eapply Forall_impl; [exact Hall|]. intros a Ha.
    eapply holds_images_mono; [|exact Ha]. lia.
Qed.

Lemma sample_rows_pure (lr hr : list T) (j n : Z) (padding : T)
    (indices : list Z) (w : World T R) :
  (forall i, i ∈ indices -> 0 <= i < Py.len lr /\ i < Py.len hr) ->
  Forall (fun a => holds_images a n) lr ->
  Forall (fun a => holds_images a n) hr ->
  0 <= j < n ->
  exists x, Demo.sample_rows lr hr j padding indices w = (Ok x, w).
Proof.
  intros Hidx Hlrs Hhrs Hj. unfold Demo.sample_rows.
  match goal with
  | |- context [for_fold indices ?acc ?body] =>
      destruct (for_fold_inv (fun _ (_ : list T * list T) w' => w' = w)
                  indices body) with acc w as ([row1 row2] & w' & Hrun & ->)
  end.
  - intros k i [row1 row2] w0 Hk ->.
    destruct (Hidx i) as (Hlr & Hhr); [by eapply list_elem_of_lookup_2|].
    destruct (index_in_range lr i Hlr) as (Hi1 & [x1 Hx1]).
    destruct (index_in_range hr i ltac:(lia)) as (Hi2 & [x2 Hx2]).
    destruct (holds_images_elem lr n j x1 Hlrs) as [y1 Hy1];
      [by eapply list_elem_of_lookup_2 | done |].
    destruct (holds_images_elem hr n j x2 Hhrs) as [y2 Hy2];
      [by eapply list_elem_of_lookup_2 | done |].
    rewrite Hi1, Hx1, Hi2, Hx2.
    erewrite bind_Ok by reflexivity. rewrite Hy1.
    erewrite bind_Ok by reflexivity.
    erewrite bind_Ok by reflexivity. rewrite Hy2.
    erewrite bind_Ok by reflexivity.
    eexists (_, _), _. split; [reflexivity|done].
  - done.
  - erewrite bind_Ok by exact Hrun. by eexists.
Qed.

Lemma super_image_pure (lr hr : list T) (j n : Z) (img_shape : list Z)
    (w : World T R) :
  Py.len lr = Py.len hr ->
  Forall (fun a => holds_images a n) lr ->
  Forall (fun a => holds_images a n) hr ->
  0 <= j < n ->
  exists x, Demo.super_image lr hr j img_shape w = (Ok x, w).
Proof.
  intros Hlen Hlrs Hhrs Hj. unfold Demo.super_image.
  destruct (sample_rows_pure lr hr j n (np_full 255 img_shape)
              (Py.range (Z.min 8 (Py.len lr))) w) as [x Hx]; try done.
  { intros i Hi. apply range_elem in Hi. lia. }
  erewrite bind_Ok by exact Hx.
  destruct (Py.len lr >? 8).
  - destruct (sample_rows_pure lr hr j n (np_full 255 img_shape)
                (Py.range2 8 (Py.len lr)) w) as [y Hy]; try done.
    { intros i Hi. apply range2_elem in Hi. lia. }
    erewrite bind_Ok by (erewrite bind_Ok by exact Hy; reflexivity).
    by eexists.
  - erewrite bind_Ok by reflexivity. by eexists.
Qed.
End Composite.

Section Saving.
Context {T R : Type} `{Numpy T}.

(** The images [save_super_images] writes: one per sentence of the batch
    that has a letter, named after its position, and only when the output
    directory is a non-empty string. *)
Lemma save_super_images_spec (lr hr : list T) (texts_batch : list string)
    (batch_size startID : Z) (save_dir : option string) (w : World T R) :
  Py.len lr = Py.len hr -> 1 <= Py.len hr ->
  Py.len texts_batch = batch_size ->
  Forall (fun a => holds_images a batch_size) lr ->
  Forall (fun a => holds_images a (Z.max 1 batch_size)) hr ->
  exists imgs w' new,
    Demo.save_super_images lr hr texts_batch batch_size startID save_dir w
    = (Ok imgs, w') /\
    restored w' = restored w /\
    written w' = written w ++ new /\
    forall p, p ∈ new.*1 <->
      Py.truthy save_dir = true /\
      exists (j : nat) t, texts_batch !! j = Some t /\
        Py.search_alpha t = true /\
        p = Demo.image_path save_dir (startID + Z.of_nat j).
Proof.
  intros Hlen Hhr Htexts Hlrs Hhrs1. unfold Demo.save_super_images.
  (* the output directory *)
  match goal with
  | |- context [mbind _ ?m] =>
      match m with
      | (if Py.truthy save_dir then _ else _) =>
          assert (exists w1, m w = (Ok tt, w1) /\ written w1 = written w /\
                             restored w1 = restored w)
            as (w1 & Hdir & Hw1 & Hr1)
      end
  end.
  { destruct (Py.truthy save_dir); [|by eexists].
    unfold isdir. erewrite bind_Ok by reflexivity.
    destruct (negb _); [|by eexists].
    erewrite bind_Ok by reflexivity. by eexists. }
  erewrite bind_Ok by exact Hdir.
  destruct (index_in_range hr 0 ltac:(lia)) as (Hi0 & [hr0 Hhr0]).
  rewrite Hi0, Hhr0. erewrite bind_Ok by reflexivity.
  destruct (holds_images_first hr batch_size hr0 Hhrs1 Hhr0)
    as ([hr00 Hhr00] & Hhrs).
  rewrite Hhr00. erewrite bind_Ok by reflexivity.
  (* the loop over the sentences of the batch *)
  match goal with
  | |- context [for_fold _ ?acc ?body] =>
      destruct (for_fold_inv
        (fun k (_ : list (Picture T)) w' =>
           restored w' = restored w /\
           exists new, written w' = written w ++ new /\
             forall p, p ∈ new.*1 <->
               Py.truthy save_dir = true /\
               exists (j : nat) t, (j < k)%nat /\ texts_batch !! j = Some t /\
                 Py.search_alpha t = true /\
                 p = Demo.image_path save_dir (startID + Z.of_nat j))
        (Py.range batch_size) body) with acc w1
        as (imgs & w' & Hrun & Hres & new & Hnew & Hpaths)
  end.
  - intros k j imgs w0 Hj (Hres & new & Hnew & Hpaths).
    apply range_lookup in Hj as [-> Hk].
    destruct (index_in_range texts_batch (Z.of_nat k) ltac:(lia))
      as (Hik & [t Ht]).
    rewrite Nat2Z.id in Hik, Ht. rewrite Hik, Ht.
    erewrite bind_Ok by reflexivity.
    destruct (Py.search_alpha t) eqn:Halpha; cbn [negb].
    + destruct (super_image_pure (R:=R) lr hr (Z.of_nat k) batch_size
                  (np_shape hr00) w0 Hlen Hlrs Hhrs) as [x Hx]; [lia|].
      erewrite bind_Ok by exact Hx.
      destruct (Py.truthy save_dir) eqn:Hsave.
      * erewrite bind_Ok by reflexivity.
        eexists _, _. split; [reflexivity|]. split; [exact Hres|].
        eexists (new ++ [_]). split; [simpl; rewrite Hnew; by rewrite app_assoc|].
        intros p. rewrite fmap_app, elem_of_app, Hpaths. simpl.
        rewrite list_elem_of_singleton. split.
        -- intros [(_ & j & t' & Hlt & Hj & Ha & ->) | ->].
           ++ split; [done|]. exists j, t'. split; [lia|]. done.
           ++ split; [done|]. exists k, t. split; [lia|]. done.
        -- intros (_ & j & t' & Hlt & Hj & Ha & ->).
           destruct (decide (j = k)) as [->|Hne].
           ++ by right.
           ++ left. split; [done|]. exists j, t'. split; [lia|]. done.
      * erewrite bind_Ok by reflexivity.
        eexists _, _. split; [reflexivity|]. split; [exact Hres|].
        exists new. split; [done|].
        intros p. rewrite Hpaths. split; intros (? & _); congruence.
    + eexists _, _. split; [reflexivity|]. split; [exact Hres|].
      exists new. split; [done|].
      intros p. rewrite Hpaths. split.
      * intros (Hs & j & t' & Hlt & Hj & Ha & ->).
        split; [done|]. exists j, t'. split; [lia|]. done.
      * intros (Hs & j & t' & Hlt & Hj & Ha & ->).
        split; [done|]. exists j, t'. split; [|done].
        destruct (decide (j = k)) as [->|Hne]; [congruence | lia].
  - split; [done|]. exists []. split; [by rewrite app_nil_r|].
    intros p. split; [intros Hp; by apply elem_of_nil in Hp|].
    intros (_ & j & t & Hlt & _). lia.
  - exists imgs, w', new. split; [exact Hrun|]. split; [done|].
    split; [done|].
    intros p. rewrite Hpaths, range_length. split.
    + intros (Hs & j & t & _ & Hj & Ha & ->). split; [done|]. by exists j, t.
    + intros (Hs & j & t & Hj & Ha & ->). split; [done|]. exists j, t.
      split; [|done]. apply lookup_lt_Some in Hj. unfold Py.len in Htexts. lia.
Qed.
End Saving.

(** ** The whole run *)

Lemma readlines_go_nonempty (s cur : list ascii) :
  s <> [] \/ cur <> [] -> Py.readlines_go cur s <> [].
Proof.
  revert cur. induction s as [|c s IH]; intros cur Hne; simpl.
  - destruct cur; [by destruct Hne | done].
  - destruct (Ascii.eqb c "010"); [done|]. apply IH. by right.
Qed.

Lemma readlines_nonempty (content : string) :
  content <> "" -> Py.readlines content <> [].
Proof.
  intros Hne. apply readlines_go_nonempty. left.
  intros Hnil. apply Hne. by rewrite <- (str_chars content), Hnil.
Qed.

Section MainProgram.
Context {T R : Type}.
Context `{Tensorflow T R} `{StageII T} `{Numpy T} `{Embedding T}.
Context `{Demo.MiscConfig}.

Lemma embed_text_spec (disk : gmap string string) (path mp content : string)
    (w : World T R) :
  disk !! path = Some content ->
  let texts := normalize <$> Py.readlines content in
  exists embeddings w1,
    Demo.embed_text disk (Some path) (Some mp) w
    = (Ok (embeddings, Py.len texts, texts), w1) /\
    Py.len embeddings = Py.len texts /\
    written w1 = written w.
Proof.
  intros Hdisk texts. unfold Demo.embed_text.
  erewrite bind_Ok by reflexivity. simpl or_raise.
  erewrite bind_Ok by reflexivity. rewrite Hdisk. simpl or_raise.
  erewrite bind_Ok by reflexivity.
  erewrite bind_Ok by reflexivity.
  erewrite bind_Ok by reflexivity.
  unfold GraphLoad.Model_init.
  erewrite bind_Ok by (erewrite bind_Ok by reflexivity; reflexivity).
  fold texts.
  match goal with
  | |- context [GraphLoad.embed ?m (GraphLoad.Many texts)] =>
      destruct (token_matrix_spec m texts) as (Hx & _); [done|];
      assert (exists e, GraphLoad.embed m (GraphLoad.Many texts) = Ok e /\
                        length e = length texts) as (e & He & Hlen)
        by (unfold GraphLoad.embed; rewrite Hx; eexists; split;
            [reflexivity | by rewrite !length_fmap])
  end.
  erewrite bind_Ok by (rewrite He; reflexivity).
  erewrite bind_Ok by reflexivity.
  erewrite bind_Ok by reflexivity.
  erewrite bind_Ok by reflexivity.
  eexists _, _. split; [reflexivity|]. split; [|done].
  unfold Py.len. by rewrite Hlen.
Qed.
End MainProgram.

Lemma for_each_inv {S X} (I : nat -> S -> Prop)
    (xs : list X) (body : X -> M S unit) :
  (forall k x s, xs !! k = Some x -> I k s ->
     exists s', body x s = (Ok tt, s') /\ I (Datatypes.S k) s') ->
  forall s, I 0%nat s ->
  exists s', for_each xs body s = (Ok tt, s') /\ I (length xs) s'.
Proof.
  revert I. induction xs as [|x xs IH]; intros I Hbody s HI.
  - exists s. by split.
  - destruct (Hbody 0%nat x s eq_refl HI) as (s1 & Hx & HI1).
    destruct (IH (fun k => I (Datatypes.S k))
                 (fun k y => Hbody (Datatypes.S k) y) s1 HI1)
      as (s' & Hrest & HI').
    exists s'. split; [|done]. simpl. unfold bind. by rewrite Hx.
Qed.

Section MainLoop.
Context {T R : Type}.
Context `{Tensorflow T R} `{StageII T} `{Numpy T} `{Embedding T}.
Context `{Demo.MiscConfig}.

(** The constructor on a checkpoint path that has ".ckpt" in it: the
    session holds the restored checkpoint afterwards. *)
Lemma GenerativeModel_init_spec (cfg : Demo.Cfg) (bs dim : Z) (w : World T R) :
  Demo.LR_IMSIZE (Demo.TEST cfg) <> 0 ->
  Py.find (Demo.PRETRAINED_MODEL (Demo.TEST cfg)) ".ckpt" <> -1 ->
  exists self w' model,
    Demo.GenerativeModel_init cfg bs dim w = (Ok self, w') /\
    Demo.ops self
    = Demo.generator_graph model (Demo.batch_size self) (Demo.Z_DIM cfg) /\
    Demo.batch_size self = bs /\
    restored w' = Some (Demo.PRETRAINED_MODEL (Demo.TEST cfg)) /\
    written w' = written w.
Proof.
  intros Hlr Hckpt. unfold Demo.GenerativeModel_init, Demo.build_model.
  destruct (Demo.LR_IMSIZE (Demo.TEST cfg) =? 0) eqn:Hz; [lia|].
  destruct (Py.find _ ".ckpt" =? -1) eqn:Hfind; [lia|]. cbn [negb].
  erewrite bind_Ok.
  2:{ erewrite bind_Ok by reflexivity.
      erewrite bind_Ok by (erewrite bind_Ok by reflexivity; reflexivity).
      reflexivity. }
  eexists _, _, _. split; [reflexivity|]. by repeat split.
Qed.

(** The constructor on a checkpoint path without ".ckpt": it returns, and
    the session is as it was. *)
Lemma GenerativeModel_init_invalid (cfg : Demo.Cfg) (bs dim : Z)
    (w : World T R) :
  Demo.LR_IMSIZE (Demo.TEST cfg) <> 0 ->
  Py.find (Demo.PRETRAINED_MODEL (Demo.TEST cfg)) ".ckpt" = -1 ->
  exists self w',
    Demo.GenerativeModel_init cfg bs dim w = (Ok self, w') /\
    stdout w' = stdout w ++
      ["Input a valid model path. "
         +:+ Demo.PRETRAINED_MODEL (Demo.TEST cfg) +:+ " is not valid"] /\
    restored w' = restored w /\ dirs w' = dirs w /\
    written w' = written w /\ runs w' = runs w.
Proof.
  intros Hlr Hfind. unfold Demo.GenerativeModel_init.
  destruct (build_model_invalid_path dim bs cfg w Hlr Hfind)
    as (g & w' & Hb & Hout & Hres & Hdirs & Hwr & _ & Hruns & _).
  erewrite bind_Ok by exact Hb. by eexists _, _.
Qed.

(** One batch: the sentences [count .. iend-1] that have a letter get
    their image written, under their own number. *)
Lemma process_batch_spec (self : Demo.GenerativeModel) (model : CondGAN)
    (z_dim : Z) (embeddings : list T) (texts : list string)
    (save_dir : option string) (bs count iend : Z) (w : World T R) :
  batch_preserving (T:=T) (R:=R) ->
  Demo.ops self = Demo.generator_graph model (Demo.batch_size self) z_dim ->
  Demo.batch_size self = bs -> 1 <= bs ->
  restored w <> None ->
  0 <= count <= iend -> iend <= Py.len texts -> iend - count = bs ->
  exists w' new,
    Demo.process_batch self embeddings texts bs save_dir
      count iend w = (Ok tt, w') /\
    restored w' = restored w /\
    written w' = written w ++ new /\
    forall p, p ∈ new.*1 <->
      Py.truthy save_dir = true /\
      exists (i : nat) t, count <= Z.of_nat i < iend /\
        texts !! i = Some t /\ Py.search_alpha t = true /\
        p = Demo.image_path save_dir (Z.of_nat i).
Proof.
  intros Hgan Hops Hself Hbs Hres Hcount Hiend <-. unfold Demo.process_batch.
  destruct (generate_n_spec self model z_dim
              (np_stack (Py.slice embeddings count iend)) 8 w
              (fun lr hr => holds_images lr (iend - count) /\
                            holds_images hr (iend - count)) Hops Hres)
    as (hr & lr & w1 & Hgen & Hhr & Hlr & Hw1 & Himgs).
  { intros w0 w1 lr hr Hg. rewrite Hself in Hg. by eapply Hgan. }
  erewrite bind_Ok by exact Hgen.
  destruct (save_super_images_spec lr hr (Py.slice texts count iend)
              (iend - count) count save_dir w1)
    as (imgs & w' & new & Hsave & Hres' & Hnew & Hpaths).
  { unfold Py.len. lia. }
  { unfold Py.len. rewrite Hhr. lia. }
  { by apply slice_len. }
  { eapply Forall2_Forall_l; [exact Himgs|].
    apply Forall_true. by intros a b [Ha _]. }
  { rewrite Z.max_r by lia. eapply Forall2_Forall_r; [exact Himgs|].
    apply Forall_true. by intros a b [_ Hb]. }
  erewrite bind_Ok by exact Hsave.
  exists w', new. split; [done|].
  destruct Hw1 as (_ & _ & Hwr & Hrs & _).
  split; [by rewrite Hres', Hrs|]. split; [by rewrite Hnew, Hwr|].
  intros p. rewrite Hpaths. rewrite slice_in_range by done.
  split; intros (Hs & Hex); (split; [done|]).
  - destruct Hex as (j & t & Hj & Ha & ->).
    apply lookup_take_Some in Hj as [Hj Hlt]. rewrite lookup_drop in Hj.
    exists (Z.to_nat count + j)%nat, t. split; [lia|]. split; [done|].
    split; [done|]. f_equal. lia.
  - destruct Hex as (i & t & Hi & Ht & Ha & ->).
    exists (i - Z.to_nat count)%nat, t. split.
    + apply lookup_take_Some. split; [|lia]. rewrite lookup_drop.
      by replace (Z.to_nat count + (i - Z.to_nat count))%nat with i by lia.
    + split; [done|]. f_equal. lia.
Qed.

(** A run on a captions file with at least one line, with a usable
    configuration (the checkpoint path has ".ckpt" in it): it ends
    normally, and the images it has written are those of the sentences that
    have a letter, each under its own number, provided the output directory
    is a non-empty string. *)
Lemma main_run (fuel : nat) (disk : gmap string string) (args : Demo.Args)
    (cfg : Demo.Cfg) (path mp content : string) (w : World T R) :
  batch_preserving (T:=T) (R:=R) ->
  Demo.caption_path args = Some path ->
  Demo.caption_model args = Some mp ->
  disk !! path = Some content ->
  content <> "" ->
  Demo.LR_IMSIZE (Demo.TEST (Demo.configure args cfg)) <> 0 ->
  Py.find (Demo.PRETRAINED_MODEL (Demo.TEST (Demo.configure args cfg)))
    ".ckpt" <> -1 ->
  1 <= Demo.BATCH_SIZE (Demo.TEST (Demo.configure args cfg)) ->
  (length (Py.readlines content) < fuel)%nat ->
  let texts := normalize <$> Py.readlines content in
  exists w' new,
    Demo.main fuel disk args cfg w = (Ok tt, w') /\
    written w' = written w ++ new /\
    forall p, p ∈ new.*1 <->
      Py.truthy (Demo.output_dir args) = true /\
      exists (i : nat) t, texts !! i = Some t /\
        Py.search_alpha t = true /\
        p = Demo.image_path (Demo.output_dir args) (Z.of_nat i).
Proof.
  intros Hgan Hpath Hmp Hdisk Hcontent Hlr Hckpt Hbatch Hfuel texts.
  set (n := Py.len texts).
  assert (Hn : 1 <= n).
  { pose proof (readlines_nonempty content Hcontent) as Hne.
    unfold n, texts, Py.len. rewrite length_fmap.
    destruct (Py.readlines content); [done | simpl; lia]. }
  unfold Demo.main. rewrite Hpath, Hmp.
  destruct (embed_text_spec disk path mp content w Hdisk)
    as (embeddings & w1 & Hembed & Hlen & Hw1).
  erewrite bind_Ok by exact Hembed. cbn beta iota. fold texts. fold n.
  destruct (n <=? 0) eqn:Hn0; [lia|].
  set (cfg' := Demo.configure args cfg) in *.
  set (bs := Z.min n (Demo.BATCH_SIZE (Demo.TEST cfg'))).
  assert (Hbs : 1 <= bs <= n) by (unfold bs; lia).
  match goal with
  | |- context [Demo.GenerativeModel_init cfg' bs ?dim] =>
      destruct (GenerativeModel_init_spec cfg' bs dim w1 Hlr Hckpt)
        as (self & w2 & model & Hinit & Hops & Hself & Hres2 & Hw2)
  end.
  erewrite bind_Ok by exact Hinit.
  set (sd := Demo.output_dir args).
  (* the batches *)
  destruct (batching_loop_rule
    (Demo.process_batch self embeddings texts bs sd) n bs Hbs
    (fun count w' =>
       restored w' = restored w2 /\
       exists new, written w' = written w ++ new /\
         forall p, p ∈ new.*1 <->
           Py.truthy sd = true /\
           exists (i : nat) t, Z.of_nat i < count /\ texts !! i = Some t /\
             Py.search_alpha t = true /\
             p = Demo.image_path sd (Z.of_nat i)))
    with (fuel := fuel) (count := 0) (s := w2)
    as (w3 & Hloop & _ & new & Hnew & Hpaths).
  - intros count w0 Hcount (Hres0 & new & Hnew & Hpaths).
    assert (exists c e, 0 <= c <= count /\ e = c + bs /\ count < e <= n /\
              (if count + bs >? n
               then Demo.process_batch self embeddings texts bs sd (n - bs) n w0
               else Demo.process_batch self embeddings texts bs sd count
                      (count + bs) w0)
              = Demo.process_batch self embeddings texts bs sd c e w0 /\
              (if count + bs >? n then n else count + bs) = e)
      as (c & e & Hc & He & Hce & -> & ->).
    { destruct (count + bs >? n) eqn:Hover.
      - exists (n - bs), n. repeat split; lia.
      - exists count, (count + bs). repeat split; lia. }
    destruct (process_batch_spec self model _ embeddings texts sd bs c e w0
                Hgan Hops Hself)
      as (w' & new_b & Hrun & Hres' & Hnew_b & Hpaths_b);
      [lia | by rewrite Hres0, Hres2 | lia | by fold n; lia | lia |].
    exists w'. split; [done|]. split; [by rewrite Hres'|].
    exists (new ++ new_b).
    split; [by rewrite Hnew_b, Hnew, app_assoc|].
    intros p. rewrite fmap_app, elem_of_app, Hpaths, Hpaths_b. split.
    + intros [(Hs & i & t & Hi & Ht & Ha & ->) | (Hs & i & t & Hi & Ht & Ha & ->)];
        (split; [done|]); exists i, t; (split; [lia|done]).
    + intros (Hs & i & t & Hi & Ht & Ha & ->).
      destruct (decide (Z.of_nat i < count)).
      * left. split; [done|]. by exists i, t.
      * right. split; [done|]. exists i, t. split; [lia|done].
  - lia.
  - unfold n, texts, Py.len. rewrite length_fmap. lia.
  - split; [done|]. exists []. split; [by rewrite app_nil_r, Hw2, Hw1|].
    intros p. split; [intros Hp; by apply elem_of_nil in Hp|].
    intros (_ & i & t & Hi & _). lia.
  - erewrite bind_Ok by exact Hloop.
    erewrite bind_Ok by reflexivity.
    erewrite bind_Ok by reflexivity.
    match goal with
    | |- context [for_each ?xs ?body ?s] =>
        destruct (for_each_inv (fun _ (w' : World T R) => written w' = written w3)
                    xs body) with s as (w4 & Hprint & Hw4)
    end.
    + intros k i w0 Hi Hw0. apply range_lookup in Hi as [-> Hk].
      destruct (index_in_range texts (Z.of_nat k)) as (Hik & [t Ht]);
        [fold n; lia|].
      rewrite Hik, Ht. erewrite bind_Ok by reflexivity.
      eexists. split; [reflexivity|]. done.
    + done.
    + exists w4, new. split; [exact Hprint|]. split; [by rewrite Hw4|].
      intros p. rewrite Hpaths. split.
      * intros (Hs & i & t & _ & Ht & Ha & ->). split; [done|]. by exists i, t.
      * intros (Hs & i & t & Ht & Ha & ->). split; [done|]. exists i, t.
        split; [|done]. apply lookup_lt_Some in Ht. unfold n, Py.len. lia.
Qed.
End MainLoop.

(** ** A run without a restored checkpoint *)

Section Quiet.
Context {T R : Type} `{Numpy T}.

Lemma quiet_ret {X} (x : X) : quiet (T:=T) (R:=R) (mret x).
Proof. intros w w' r [= <- <-]. done. Qed.

Lemma quiet_raise {X} (e : exn) : quiet (T:=T) (R:=R) (X:=X) (raise e).
Proof. intros w w' r [= <- <-]. done. Qed.

Lemma quiet_or_raise {X} (e : exn) (o : option X) :
  quiet (T:=T) (R:=R) (or_raise e o).
Proof. destruct o; [apply quiet_ret | apply quiet_raise]. Qed.

Lemma quiet_print (args : list string) : quiet (T:=T) (R:=R) (print args).
Proof. intros w w' r [= <- <-]. done. Qed.

Lemma quiet_bind {X Y} (m : M (World T R) X) (k : X -> M (World T R) Y) :
  quiet m -> (forall x, quiet (k x)) -> quiet (m ≫= k).
Proof.
  intros Hm Hk w w' r. unfold mbind, M_bind, bind.
  destruct (m w) as [[x| e |] w1] eqn:Hmw.
  - intros Hkx. destruct (Hm _ _ _ Hmw) as (_ & ? & ? & ? & ?).
    destruct (Hk x _ _ _ Hkx) as (? & ? & ? & ? & ?).
    repeat split; [done | congruence..].
  - intros [= <- <-]. destruct (Hm _ _ _ Hmw) as (_ & ? & ? & ? & ?). done.
  - by destruct (Hm _ _ _ Hmw) as (? & _).
Qed.

End Quiet.

Section InvalidCheckpoint.
Context {T R : Type}.
Context `{Tensorflow T R} `{StageII T} `{Numpy T} `{Embedding T}.
Context `{Demo.MiscConfig}.

Lemma embed_never_out_of_fuel (m : GraphLoad.Model (T:=T))
    (text : GraphLoad.text_arg) :
  GraphLoad.embed m text <> OutOfFuel.
Proof.
  unfold GraphLoad.embed, GraphLoad.token_matrix, GraphLoad.reshape_rows.
  destruct (_ <=? 0); [done|]. by destruct (_ =? 0).
Qed.

Lemma embed_text_quiet (disk : gmap string string)
    (texts_path model_path : option string) :
  quiet (T:=T) (R:=R) (Demo.embed_text disk texts_path model_path).
Proof.
  unfold Demo.embed_text, GraphLoad.Model_init.
  repeat first
    [ apply quiet_ret | apply quiet_print | apply quiet_or_raise
    | apply quiet_bind; [|intros ?] ].
  intros w w' r [= <- <-]. split; [apply embed_never_out_of_fuel | done].
Qed.

Lemma range_cons (k : Z) : 0 < k -> exists tl, Py.range k = 0 :: tl.
Proof.
  intros Hk. unfold Py.range.
  destruct (Z.to_nat k) as [|m] eqn:Hm; [lia|]. simpl. by eexists.
Qed.

Lemma generate_n_first_fetch_fails (self : Demo.GenerativeModel)
    (embeddings : T) (n : Z) (w : World T R) :
  restored w = None -> 0 < n ->
  Demo.generate_n self embeddings n w = (Raise FailedPreconditionError, w).
Proof.
  intros Hres Hn. unfold Demo.generate_n.
  destruct (range_cons (Z.min 16 n) ltac:(lia)) as [tl ->].
  erewrite bind_Raise; [reflexivity|].
  cbn [for_fold]. unfold bind at 1.
  erewrite bind_Raise by (by apply generate_unrestored). reflexivity.
Qed.

Lemma process_batch_unrestored (self : Demo.GenerativeModel)
    (embeddings : list T) (texts : list string) (bs : Z)
    (save_dir : option string) (count iend : Z) (w : World T R) :
  restored w = None ->
  Demo.process_batch self embeddings texts bs save_dir count iend w
  = (Raise FailedPreconditionError, w).
Proof.
  intros Hres. unfold Demo.process_batch.
  erewrite bind_Raise; [reflexivity|]. by apply generate_n_first_fetch_fails.
Qed.

(** C1.  When the checkpoint path of the configuration has no ".ckpt" in
    it, the program raises an error and stops, whatever its other inputs
    are: nothing is restored, so the session that starts without values
    for the variables still has none at the first fetch of the generator
    graph, which raises (unless the run has failed before, on its captions
    or on a low-resolution size of 0).  The run never ends normally; it
    makes no directory, writes no image and completes no fetch. *)
Theorem invalid_checkpoint_path_raises (fuel : nat)
    (disk : gmap string string) (args : Demo.Args) (cfg : Demo.Cfg)
    (w : World T R) :
  Py.find (Demo.PRETRAINED_MODEL (Demo.TEST (Demo.configure args cfg)))
    ".ckpt" = -1 ->
  restored w = None ->
  (0 < fuel)%nat ->
  exists (e : exn) (w' : World T R),
    Demo.main fuel disk args cfg w = (Raise e, w') /\
    dirs w' = dirs w /\ written w' = written w /\
    restored w' = None /\ runs w' = runs w.
Proof.
  intros Hckpt Hres Hfuel. unfold Demo.main.
  destruct (Demo.embed_text disk (Demo.caption_path args)
              (Demo.caption_model args) w) as [r w1] eqn:Hembed.
  destruct (embed_text_quiet _ _ _ _ _ _ Hembed) as (Hr & Hd1 & Hw1 & Hr1 & Hn1).
  destruct r as [[[embeddings n] texts] | e |]; [| |done].
  2:{ exists e, w1. erewrite bind_Raise by exact Hembed.
      repeat split; congruence. }
  erewrite bind_Ok by exact Hembed. cbn beta iota.
  destruct (n <=? 0) eqn:Hn0.
  { eexists _, w1. split; [reflexivity|]. repeat split; congruence. }
  set (cfg' := Demo.configure args cfg) in *.
  set (bs := Z.min n (Demo.BATCH_SIZE (Demo.TEST cfg'))).
  destruct (decide (Demo.LR_IMSIZE (Demo.TEST cfg') = 0)) as [Hlr|Hlr].
  { exists ZeroDivisionError, w1. split; [|repeat split; congruence].
    erewrite bind_Raise; [reflexivity|].
    unfold Demo.GenerativeModel_init, Demo.build_model. rewrite Hlr. simpl.
    erewrite bind_Raise; [reflexivity|].
    erewrite bind_Raise by reflexivity. reflexivity. }
  match goal with
  | |- context [Demo.GenerativeModel_init cfg' bs ?dim] =>
      destruct (GenerativeModel_init_invalid cfg' bs dim w1 Hlr Hckpt)
        as (self & w2 & Hinit & _ & Hr2 & Hd2 & Hw2 & Hn2)
  end.
  erewrite bind_Ok by exact Hinit.
  exists FailedPreconditionError, w2. split; [|repeat split; congruence].
  erewrite bind_Raise; [reflexivity|].
  destruct fuel as [|fuel]; [lia|]. simpl.
  destruct (0 <? n) eqn:Hpos; [|lia].
  destruct (0 + bs >? n);
    (erewrite bind_Raise; [reflexivity|];
     apply process_batch_unrestored; congruence).
Qed.

End InvalidCheckpoint.

Lemma invalid_checkpoint_path_raises_witness :
  exists (e : exn) (w' : World unit unit),
    Demo.main 4 {[ "data/captions.txt" := captions ]}
      (args0 "data/captions.txt" None) (cfg0 "models/stageII" 2) world1
    = (Raise e, w') /\
    dirs w' = dirs world1 /\ written w' = written world1 /\
    restored w' = None /\ runs w' = runs world1.
Proof.
  apply (invalid_checkpoint_path_raises 4 {[ "data/captions.txt" := captions ]}
           (args0 "data/captions.txt" None) (cfg0 "models/stageII" 2) world1).
  - reflexivity.
  - reflexivity.
  - lia.
Defined.

Lemma chars_app (s1 s2 : string) :
  Py.chars (s1 +:+ s2) = Py.chars s1 ++ Py.chars s2.
Proof.
  unfold Py.chars. induction s1 as [|c s1 IH]; simpl; [done | by rewrite IH].
Qed.

Lemma chars_inj (s1 s2 : string) : Py.chars s1 = Py.chars s2 -> s1 = s2.
Proof. intros Heq. by rewrite <- (str_chars s1), <- (str_chars s2), Heq. Qed.

Lemma image_path_inj (save_dir : option string) (k1 k2 : Z) :
  Demo.image_path save_dir k1 = Demo.image_path save_dir k2 -> k1 = k2.
Proof.
  unfold Demo.image_path, Py.fmt_d. intros Heq.
  apply (inj (String.app _)) in Heq. apply (inj (String.app _)) in Heq.
  apply (f_equal Py.chars) in Heq. rewrite !chars_app in Heq.
  apply (inj (.++ _)) in Heq. apply chars_inj in Heq.
  by apply (inj pretty) in Heq.
Qed.

Lemma filter_fmap_length {A B} (f : A -> B) (P : B -> Prop)
    `{!forall y, Decision (P y)} (l : list A) :
  length (filter P (f <$> l)) = length (filter (fun x => P (f x)) l).
Proof.
  induction l as [|x l IH]; [done|].
  rewrite fmap_cons, !filter_cons. destruct (decide (P (f x))); simpl; by rewrite IH.
Qed.

(** Counting the positions of a list that satisfy a test is counting the
    elements that satisfy it. *)
Lemma filter_positions_length {A} (P : A -> bool) (l : list A) :
  length (filter (fun i => (from_option P false (l !! i)) = true)
            (seq 0 (length l)))
  = length (filter (fun t => P t = true) l).
Proof.
  induction l as [|x l IH]; [done|].
  simpl length. rewrite <- fmap_S_seq.
  rewrite filter_cons, (filter_cons _ x l). simpl.
  destruct (decide (P x = true)); simpl;
    rewrite filter_fmap_length; simpl; by rewrite <- IH.
Qed.

Lemma written_paths_size (save_dir : option string) (texts : list string)
    (paths : list string) :
  (forall p, p ∈ paths <->
     exists (i : nat) t, texts !! i = Some t /\ Py.search_alpha t = true /\
       p = Demo.image_path save_dir (Z.of_nat i)) ->
  size (list_to_set paths : gset string)
  = length (filter (fun t => Py.search_alpha t = true) texts).
Proof.
  intros Hpaths.
  set (idxs := filter (fun i => from_option Py.search_alpha false (texts !! i) = true)
                 (seq 0 (length texts))).
  assert (list_to_set paths
          =@{gset string} list_to_set ((fun i => Demo.image_path save_dir (Z.of_nat i)) <$> idxs))
    as ->.
  { apply set_eq. intros p. rewrite !elem_of_list_to_set, Hpaths, list_elem_of_fmap.
    unfold idxs. split.
    - intros (i & t & Ht & Ha & ->). exists i. split; [done|].
      apply list_elem_of_filter. rewrite Ht. simpl. split; [done|].
      apply elem_of_seq. apply lookup_lt_Some in Ht. lia.
    - intros (i & -> & Hi). apply list_elem_of_filter in Hi as [Hi _].
      destruct (texts !! i) as [t|] eqn:Ht; [|done]. by exists i, t. }
  rewrite size_list_to_set.
  - rewrite length_fmap. apply filter_positions_length.
  - apply NoDup_fmap_2.
    + intros i j Hij. apply image_path_inj in Hij. lia.
    + apply NoDup_filter, NoDup_seq.
Qed.

(** ** Output files and the check on the input *)

Section Outputs.
Context {T R : Type}.
Context `{Tensorflow T R} `{StageII T} `{Numpy T} `{Embedding T}.
Context `{Demo.MiscConfig}.

(** X23.  For a captions file with at least one line, a model directory, a
    checkpoint path with ".ckpt" in it, a non-zero low-resolution size and
    a configured batch size of at least 1, the run ends normally.  When the
    output directory ([--save_dir], or else the directory part of the
    captions path) is a non-empty string, the number of distinct image
    files written equals the number of lines whose normalized text has a
    letter, and a line has its file written exactly when it has a letter;
    when the output directory is the empty string, no file is written. *)
Theorem images_match_alphabetic_lines (fuel : nat) (disk : gmap string string)
    (args : Demo.Args) (cfg : Demo.Cfg) (path mp content : string)
    (w : World T R) :
  batch_preserving (T:=T) (R:=R) ->
  Demo.caption_path args = Some path ->
  Demo.caption_model args = Some mp ->
  disk !! path = Some content ->
  content <> "" ->
  Demo.LR_IMSIZE (Demo.TEST (Demo.configure args cfg)) <> 0 ->
  Py.find (Demo.PRETRAINED_MODEL (Demo.TEST (Demo.configure args cfg)))
    ".ckpt" <> -1 ->
  1 <= Demo.BATCH_SIZE (Demo.TEST (Demo.configure args cfg)) ->
  (length (Py.readlines content) < fuel)%nat ->
  let texts := normalize <$> Py.readlines content in
  exists (w' : World T R) (new : list (string * Picture T)),
    Demo.main fuel disk args cfg w = (Ok tt, w') /\
    written w' = written w ++ new /\
    if Py.truthy (Demo.output_dir args) then
      size (list_to_set new.*1 : gset string)
      = length (filter (fun t => Py.search_alpha t = true) texts) /\
      forall (i : nat) t, texts !! i = Some t ->
        (Demo.image_path (Demo.output_dir args) (Z.of_nat i) ∈ new.*1
         <-> Py.search_alpha t = true)
    else new = [].
Proof.
  intros Hgan Hpath Hmp Hdisk Hcontent Hlr Hckpt Hbatch Hfuel texts.
  destruct (main_run fuel disk args cfg path mp content w)
    as (w' & new & Hrun & Hnew & Hpaths); try done.
  fold texts in Hpaths.
  exists w', new. split; [done|]. split; [done|].
  destruct (Py.truthy (Demo.output_dir args)) eqn:Hdir.
  - split.
    + apply written_paths_size with (save_dir := Demo.output_dir args).
      intros p. rewrite Hpaths. split; [by intros (_ & ?) | by intros ?].
    + intros i t Ht. rewrite Hpaths. split.
      * intros (_ & j & t' & Ht' & Ha & Hij).
        apply image_path_inj in Hij. assert (i = j) as -> by lia. congruence.
      * intros Ha. split; [done|]. by exists i, t.
  - destruct new as [|[p pic] new]; [done|].
    assert (p ∈ ((p, pic) :: new).*1) as Hp by (simpl; left).
    apply Hpaths in Hp as (? & _). congruence.
Qed.

(** C4 (amended).  The run raises ValueError("At least one embedding
    required") when the captions file has no line at all, before any image
    is written.  A file that has lines is not refused, whatever they hold:
    when none of them has a letter, and the configuration is usable (the
    checkpoint path has ".ckpt" in it, the low-resolution size is not 0,
    the batch size is at least 1), the run ends normally and writes no
    image. *)
Theorem main_requires_a_line (fuel : nat) (disk : gmap string string)
    (args : Demo.Args) (cfg : Demo.Cfg) (path mp content : string)
    (w : World T R) :
  Demo.caption_path args = Some path ->
  Demo.caption_model args = Some mp ->
  disk !! path = Some content ->
  (content = "" ->
   exists w' : World T R,
     Demo.main fuel disk args cfg w
     = (Raise (ValueError "At least one embedding required"), w') /\
     written w' = written w) /\
  (content <> "" ->
   batch_preserving (T:=T) (R:=R) ->
   Demo.LR_IMSIZE (Demo.TEST (Demo.configure args cfg)) <> 0 ->
   Py.find (Demo.PRETRAINED_MODEL (Demo.TEST (Demo.configure args cfg)))
     ".ckpt" <> -1 ->
   1 <= Demo.BATCH_SIZE (Demo.TEST (Demo.configure args cfg)) ->
   (length (Py.readlines content) < fuel)%nat ->
   Forall (fun t => Py.search_alpha t = false)
     (normalize <$> Py.readlines content) ->
   exists w' : World T R,
     Demo.main fuel disk args cfg w = (Ok tt, w') /\
     written w' = written w).
Proof.
  intros Hpath Hmp Hdisk. split.
  - intros ->. unfold Demo.main. rewrite Hpath, Hmp.
    destruct (embed_text_spec disk path mp "" w Hdisk)
      as (embeddings & w1 & Hembed & _ & Hw1).
    erewrite bind_Ok by exact Hembed. by exists w1.
  - intros Hcontent Hgan Hlr Hckpt Hbatch Hfuel Hnone.
    destruct (main_run fuel disk args cfg path mp content w)
      as (w' & new & Hrun & Hnew & Hpaths); try done.
    exists w'. split; [done|].
    destruct new as [|[p pic] new]; [by rewrite Hnew, app_nil_r|].
    assert (p ∈ ((p, pic) :: new).*1) as Hp by (simpl; left).
    apply Hpaths in Hp as (_ & i & t & Ht & Ha & _).
    apply list_elem_of_lookup_2 in Ht.
    rewrite Forall_forall in Hnone. apply Hnone in Ht. congruence.
Qed.
End Outputs.

Lemma images_match_alphabetic_lines_witness :
  exists (w' : World unit unit) (new : list (string * Picture unit)),
    Demo.main 4 {[ "data/captions.txt" := captions ]}
      (args0 "data/captions.txt" None) (cfg0 "models/model.ckpt" 2) world1
    = (Ok tt, w') /\
    written w' = written world1 ++ new /\
    if Py.truthy (Demo.output_dir (args0 "data/captions.txt" None)) then
      size (list_to_set new.*1 : gset string)
      = length (filter (fun t => Py.search_alpha t = true)
                  (normalize <$> Py.readlines captions)) /\
      forall (i : nat) t,
        (normalize <$> Py.readlines captions) !! i = Some t ->
        (Demo.image_path (Demo.output_dir (args0 "data/captions.txt" None))
           (Z.of_nat i) ∈ new.*1
         <-> Py.search_alpha t = true)
    else new = [].
Proof.
  apply (images_match_alphabetic_lines 4 {[ "data/captions.txt" := captions ]}
           (args0 "data/captions.txt" None) (cfg0 "models/model.ckpt" 2)
           "data/captions.txt" "models" captions world1).
  - exact batch_preserving_unit.
  - reflexivity.
  - reflexivity.
  - reflexivity.
  - discriminate.
  - vm_compute; discriminate.
  - vm_compute; discriminate.
  - vm_compute; discriminate.
  - vm_compute; lia.
Defined.

(** C3.  The claim fails on this run: the captions file "captions.txt" is
    given without a directory and without [--save_dir], so the output
    directory of lines 264-265 is the empty string; the run ends normally
    and writes no file, although two of the three lines have letters. *)
Theorem no_image_without_output_dir :
  Demo.output_dir (args0 "captions.txt" None) = Some "" /\
  (run 4 {[ "captions.txt" := captions ]} (args0 "captions.txt" None)
     (cfg0 "models/model.ckpt" 2)).1 = Ok tt /\
  written (run 4 {[ "captions.txt" := captions ]} (args0 "captions.txt" None)
             (cfg0 "models/model.ckpt" 2)).2 = [] /\
  length (filter (fun t => Py.search_alpha t = true)
            (normalize <$> Py.readlines captions)) = 2%nat.
Proof. repeat split; vm_compute; reflexivity. Qed.

Lemma main_requires_a_line_witness :
  (exists w' : World unit unit,
     Demo.main 1 {[ "data/captions.txt" := "" ]}
       (args0 "data/captions.txt" None) (cfg0 "models/model.ckpt" 2) world1
     = (Raise (ValueError "At least one embedding required"), w') /\
     written w' = written world1) /\
  (exists w' : World unit unit,
     Demo.main 2 {[ "data/captions.txt" := digits ]}
       (args0 "data/captions.txt" None) (cfg0 "models/model.ckpt" 2) world1
     = (Ok tt, w') /\
     written w' = written world1).
Proof.
  split.
  - apply (main_requires_a_line 1 {[ "data/captions.txt" := "" ]}
             (args0 "data/captions.txt" None) (cfg0 "models/model.ckpt" 2)
             "data/captions.txt" "models" "" world1);
      reflexivity.
  - apply (main_requires_a_line 2 {[ "data/captions.txt" := digits ]}
             (args0 "data/captions.txt" None) (cfg0 "models/model.ckpt" 2)
             "data/captions.txt" "models" digits world1).
    + reflexivity.
    + reflexivity.
    + reflexivity.
    + discriminate.
    + exact batch_preserving_unit.
    + vm_compute; discriminate.
    + vm_compute; discriminate.
    + vm_compute; discriminate.
    + vm_compute; lia.
    + repeat constructor.
Defined.

(** C4, as stated, fails: the file holds the single line "12345", which
    yields no image, and the run ends normally instead of raising. *)
Lemma digits_only_file_is_accepted :
  Forall (fun t => Py.search_alpha t = false)
    (normalize <$> Py.readlines digits) /\
  (Demo.main 2 {[ "data/captions.txt" := digits ]}
     (args0 "data/captions.txt" None) (cfg0 "models/model.ckpt" 2) world1).1
  = Ok tt /\
  written (Demo.main 2 {[ "data/captions.txt" := digits ]}
             (args0 "data/captions.txt" None) (cfg0 "models/model.ckpt" 2)
             world1).2 = [].
Proof. split; [repeat constructor|]. split; vm_compute; reflexivity. Qed.

(** * Further properties of the demo *)

(** ** The loop as a walk over its batches *)

Lemma batching_loop_step {S} (body : Z -> Z -> M S unit) (fuel : nat)
    (n bs count : Z) (s : S) :
  Demo.batching_loop body (Datatypes.S fuel) n bs count s
  = if count <? n then
      let b := if count + bs >? n then (n - bs, n) else (count, count + bs) in
      bind (body b.1 b.2)
        (fun _ => Demo.batching_loop body fuel n bs (b.1 + bs)) s
    else (Ok tt, s).
Proof. simpl. destruct (count <? n); [|done]. by destruct (count + bs >? n). Qed.

Lemma note_loop_prefix (n bs : Z) (fuel : nat) :
  forall (count : Z) (seen : list (Z * Z)),
    Demo.batching_loop Demo.note_batch fuel n bs count seen
    = ((Demo.batching_loop Demo.note_batch fuel n bs count []).1,
       seen ++ (Demo.batching_loop Demo.note_batch fuel n bs count []).2).
Proof.
  induction fuel as [|fuel IH]; intros count seen.
  - simpl. by rewrite app_nil_r.
  - rewrite !batching_loop_step. destruct (count <? n); [|by rewrite app_nil_r].
    cbv zeta. unfold bind, Demo.note_batch at 1 3 5.
    rewrite IH, (IH _ ([] ++ _)). simpl. by rewrite <- app_assoc.
Qed.

(** The loop treats the batches of its schedule one after the other: it is
    a [for] loop over them, whatever the treatment does. *)
Lemma batching_loop_schedule {S} (body : Z -> Z -> M S unit) (n bs : Z) :
  forall (fuel : nat) (count : Z) (rest : list (Z * Z)) (s : S),
    Demo.batching_loop Demo.note_batch fuel n bs count [] = (Ok tt, rest) ->
    Demo.batching_loop body fuel n bs count s
    = for_each rest (fun b => body b.1 b.2) s.
Proof.
  induction fuel as [|fuel IH]; intros count rest s; [done|].
  rewrite !batching_loop_step. destruct (count <? n); [|by intros [= <-]].
  cbv zeta. set (b := if count + bs >? n then _ else _).
  unfold bind at 1, Demo.note_batch at 1. rewrite note_loop_prefix.
  intros [= Hok <-]. simpl. unfold bind.
  destruct (body b.1 b.2 s) as [[[]| |] s']; [|done..].
  apply IH. destruct b.
  by destruct (Demo.batching_loop _ _ _ _ _ _) as [[[]| |] ?].
Qed.

Lemma batching_loop_batches {S} (body : Z -> Z -> M S unit) (n bs : Z)
    (fuel : nat) (s : S) :
  1 <= bs <= n -> n < Z.of_nat fuel ->
  Demo.batching_loop body fuel n bs 0 s
  = for_each (((fun k => (k * bs, k * bs + bs)) <$> Py.range ((n - 1) / bs))
                ++ [(n - bs, n)])
      (fun b => body b.1 b.2) s.
Proof.
  intros Hbs Hfuel. apply batching_loop_schedule.
  by apply batches_closed_form.
Qed.

(** How many of the regular batches hold the sentence [i]. *)
Lemma regular_batches_holding (bs i : Z) (q : nat) :
  1 <= bs -> 0 <= i ->
  length (filter (fun b : Z * Z => b.1 <= i < b.2)
            ((fun k => (k * bs, k * bs + bs)) <$> Py.range (Z.of_nat q)))
  = if i <? Z.of_nat q * bs then 1%nat else 0%nat.
Proof.
  intros Hbs Hi. induction q as [|q IH].
  - simpl. destruct (Z.ltb_spec i (Z.of_nat 0 * bs)); [lia|done].
  - replace (Z.of_nat (S q)) with (Z.of_nat q + 1) by lia.
    rewrite range_snoc, fmap_app, filter_app, length_app, IH by lia. simpl.
    rewrite filter_cons, filter_nil. simpl.
    destruct (decide (Z.of_nat q * bs <= i < Z.of_nat q * bs + bs));
      destruct (Z.ltb_spec i (Z.of_nat q * bs));
      destruct (Z.ltb_spec i ((Z.of_nat q + 1) * bs)); simpl; lia.
Qed.

(** X9.  Every sentence is generated: with at least one sentence and a
    configured batch size of at least 1, the batches of the loop together
    hold every position of the input.  A position lies in one batch, or in
    two when it belongs both to the last regular batch and to the
    realigned final batch, which reaches back over
    [num_embeddings - batch_size .. num_embeddings). *)
Theorem every_sentence_in_a_batch (num_embeddings configured i : Z)
    (fuel : nat) :
  1 <= num_embeddings -> 1 <= configured ->
  num_embeddings < Z.of_nat fuel ->
  0 <= i < num_embeddings ->
  let batch_size := Z.min num_embeddings configured in
  let regular := (num_embeddings - 1) / batch_size in
  exists seen : list (Z * Z),
    Demo.batches fuel num_embeddings batch_size = (Ok tt, seen) /\
    Py.len seen = regular + 1 /\
    length (filter (fun b : Z * Z => b.1 <= i < b.2) seen)
    = (if decide (num_embeddings - batch_size <= i < regular * batch_size)
       then 2%nat else 1%nat).
Proof.
  intros Hn Hcfg Hfuel Hi batch_size regular.
  assert (Hbs : 1 <= batch_size <= num_embeddings) by (unfold batch_size; lia).
  assert (Hq : 0 <= regular) by (apply Z.div_pos; lia).
  pose proof (Z.mul_div_le (num_embeddings - 1) batch_size ltac:(lia)) as Hlo.
  pose proof (Z.mul_succ_div_gt (num_embeddings - 1) batch_size ltac:(lia)) as Hhi.
  fold regular in Hlo, Hhi.
  eexists. split; [by apply batches_closed_form|]. fold regular. split.
  - unfold Py.len. rewrite length_app, length_fmap, range_length. simpl. lia.
  - rewrite filter_app, length_app.
    rewrite <- (Z2Nat.id regular) at 1 by done.
    rewrite regular_batches_holding by lia. rewrite Z2Nat.id by done.
    rewrite filter_cons, filter_nil. simpl.
    destruct (decide (num_embeddings - batch_size <= i < num_embeddings));
      destruct (Z.ltb_spec i (regular * batch_size));
      destruct (decide (num_embeddings - batch_size <= i
                        < regular * batch_size)); simpl; nia.
Qed.

Lemma every_sentence_in_a_batch_witness :
  exists seen : list (Z * Z),
    Demo.batches 8 7 (Z.min 7 3) = (Ok tt, seen) /\
    Py.len seen = (7 - 1) / Z.min 7 3 + 1 /\
    length (filter (fun b : Z * Z => b.1 <= 5 < b.2) seen)
    = (if decide (7 - Z.min 7 3 <= 5 < (7 - 1) / Z.min 7 3 * Z.min 7 3)
       then 2%nat else 1%nat).
Proof. apply (every_sentence_in_a_batch 7 3 5 8); lia. Defined.

(** ** The output directory *)

Lemma str_nil_iff (l : list ascii) : Py.str l = "" <-> l = [].
Proof.
  split; [|by intros ->]. intros Hl.
  by rewrite <- (chars_str l), Hl.
Qed.

Lemma drop_to_slash_nil (l : list ascii) :
  Py.drop_to_slash l = [] <-> Forall (fun c => Py.is_slash c = false) l.
Proof.
  induction l as [|c l IH]; simpl; [done|].
  destruct (Py.is_slash c) eqn:Hc.
  - split; [done|]. intros Hall. apply Forall_cons in Hall as [? _]. congruence.
  - rewrite IH. split; [by constructor | by intros [_ ?]%Forall_cons].
Qed.

Lemma drop_to_slash_head (l : list ascii) c tl :
  Py.drop_to_slash l = c :: tl -> Py.is_slash c = true.
Proof.
  induction l as [|d l IH]; simpl; [done|].
  destruct (Py.is_slash d) eqn:Hd; [by intros [= <- _] | done].
Qed.

Lemma lstrip_slash_nil (l : list ascii) :
  Py.lstrip_slash l = [] <-> Forall (fun c => Py.is_slash c = true) l.
Proof.
  induction l as [|c l IH]; simpl; [done|].
  destruct (Py.is_slash c) eqn:Hc.
  - rewrite IH. split; [by constructor | by intros [_ ?]%Forall_cons].
  - split; [done|]. intros [? _]%Forall_cons. congruence.
Qed.

Lemma forallb_Forall {A} (f : A -> bool) (l : list A) :
  forallb f l = true <-> Forall (fun x => f x = true) l.
Proof.
  induction l as [|x l IH]; simpl; [done|].
  rewrite andb_true_iff, IH, Forall_cons. done.
Qed.

Lemma Forall_rev {A} (P : A -> Prop) (l : list A) :
  Forall P (rev l) <-> Forall P l.
Proof.
  rewrite !Forall_forall. split; intros Hall x Hx; apply Hall;
    apply list_elem_of_In; apply list_elem_of_In in Hx;
    first [by apply (proj1 (in_rev _ _)) | by apply (proj2 (in_rev _ _))].
Qed.

Lemma dirname_empty (p : string) :
  Py.dirname p = "" <-> "/"%char ∉ Py.chars p.
Proof.
  assert (Hslash : forall c, Py.is_slash c = true <-> c = "/"%char).
  { intros c. unfold Py.is_slash. apply Ascii.eqb_eq. }
  assert (Hno : "/"%char ∉ Py.chars p
                <-> Forall (fun c => Py.is_slash c = false) (rev (Py.chars p))).
  { rewrite Forall_rev, Forall_forall. split.
    - intros Hp c Hc. destruct (Py.is_slash c) eqn:Heq; [|done].
      apply Hslash in Heq as ->. done.
    - intros Hall Hin. apply Hall in Hin. by rewrite (proj2 (Hslash _)) in Hin. }
  rewrite Hno, <- drop_to_slash_nil. unfold Py.dirname.
  destruct (Py.drop_to_slash (rev (Py.chars p))) as [|c tl] eqn:Hdrop.
  - simpl. done.
  - pose proof (drop_to_slash_head _ _ _ Hdrop) as Hc.
    split; [|done]. intros Hempty. exfalso.
    destruct (forallb Py.is_slash (rev (c :: tl))) eqn:Hall.
    + apply str_nil_iff in Hempty. simpl in Hempty.
      by apply app_eq_nil in Hempty as [_ ?].
    + apply str_nil_iff in Hempty.
      apply (f_equal (@rev ascii)) in Hempty.
      rewrite (rev_involutive (Py.lstrip_slash _)) in Hempty.
      change (rev []) with (@nil ascii) in Hempty.
      apply lstrip_slash_nil in Hempty.
      apply (proj1 (Forall_rev _ _)), forallb_Forall in Hempty. congruence.
Qed.

(** X10.  Without [--save_dir] the images go to the directory part of the
    captions path; the output directory is a non-empty string, and images
    are written at all, exactly when [--save_dir] is given and not empty or
    the captions path contains a slash. *)
Theorem output_dir_given (args : Demo.Args) :
  Py.truthy (Demo.output_dir args) = true
  <-> Py.truthy (Demo.save_dir args) = true \/
      exists path, Demo.caption_path args = Some path /\
                   "/"%char ∈ Py.chars path.
Proof.
  unfold Demo.output_dir.
  destruct (Py.truthy (Demo.save_dir args)) eqn:Hsave.
  - rewrite Hsave. split; [by left | done].
  - destruct (Demo.caption_path args) as [path|]; simpl.
    + rewrite negb_true_iff. rewrite <- not_true_iff_false.
      rewrite String.eqb_eq, dirname_empty. split.
      * intros Hin. right. exists path. split; [done|].
        by destruct (decide ("/"%char ∈ Py.chars path)).
      * intros [? | (? & [= <-] & Hin)]; [done|]. by intros Hnot.
    + split; [done|]. by intros [? | (? & ? & _)].
Qed.

(** ** One call of save_super_images, in full *)

Lemma with_written_id {T R} (w : World T R) : with_written w (written w) = w.
Proof. by destruct w. Qed.

Lemma lettered_snoc (texts : list string) (t : string) :
  lettered (texts ++ [t])
  = lettered texts
      ++ (if Py.search_alpha t then [(length texts, t)] else []).
Proof.
  unfold lettered. rewrite imap_app, filter_app. f_equal. simpl.
  rewrite filter_cons, filter_nil. simpl. rewrite Nat.add_0_r.
  destruct (Py.search_alpha t); by rewrite decide_bool_decide.
Qed.

Section SavingFull.
Context {T R : Type} `{Numpy T}.

Lemma save_super_images_full (lr hr : list T) (texts_batch : list string)
    (batch_size startID : Z) (save_dir : option string) (w : World T R) :
  Py.len lr = Py.len hr -> 1 <= Py.len hr ->
  Py.len texts_batch = batch_size ->
  Forall (fun a => holds_images a batch_size) lr ->
  Forall (fun a => holds_images a (Z.max 1 batch_size)) hr ->
  exists out : list (nat * string * T),
    out.*1 = lettered texts_batch /\
    Demo.save_super_images lr hr texts_batch batch_size startID save_dir w
    = (Ok (pictures out),
       with_written (prepare_dir save_dir w)
         (written w ++ (if Py.truthy save_dir
                        then saved_as save_dir startID out else []))).
Proof.
  intros Hlen Hhr Htexts Hlrs Hhrs1. unfold Demo.save_super_images.
  match goal with
  | |- context [mbind _ ?m] =>
      match m with
      | (if Py.truthy save_dir then _ else _) =>
          assert (m w = (Ok tt, prepare_dir save_dir w)) as Hdir
      end
  end.
  { unfold prepare_dir. destruct (Py.truthy save_dir); [|done].
    unfold isdir. erewrite bind_Ok by reflexivity. simpl.
    destruct (bool_decide _); [done|]. simpl.
    erewrite bind_Ok by reflexivity. done. }
  erewrite bind_Ok by exact Hdir.
  set (w1 := prepare_dir save_dir w).
  assert (Hw1 : written w1 = written w).
  { unfold w1, prepare_dir. by destruct (_ && _). }
  destruct (index_in_range hr 0 ltac:(lia)) as (Hi0 & [hr0 Hhr0]).
  rewrite Hi0, Hhr0. erewrite bind_Ok by reflexivity.
  destruct (holds_images_first hr batch_size hr0 Hhrs1 Hhr0)
    as ([hr00 Hhr00] & Hhrs).
  rewrite Hhr00. erewrite bind_Ok by reflexivity.
  match goal with
  | |- context [for_fold _ ?acc ?body] =>
      destruct (for_fold_inv
        (fun k (imgs : list (Picture T)) w' =>
           exists out, out.*1 = lettered (take k texts_batch) /\
             imgs = pictures out /\
             w' = with_written w1
                    (written w ++ (if Py.truthy save_dir
                                   then saved_as save_dir startID out else [])))
        (Py.range batch_size) body) with acc w1
        as (imgs & w' & Hrun & out & Hout & -> & ->)
  end.
  - intros k j imgs w0 Hj (out & Hout & -> & ->).
    apply range_lookup in Hj as [-> Hk].
    destruct (index_in_range texts_batch (Z.of_nat k) ltac:(lia))
      as (Hik & [t Ht]).
    rewrite Nat2Z.id in Hik, Ht. rewrite Hik, Ht.
    erewrite bind_Ok by reflexivity.
    rewrite (take_S_r _ _ _ Ht), lettered_snoc, length_take_le
      by (apply lookup_lt_Some in Ht; lia).
    destruct (Py.search_alpha t) eqn:Halpha; cbn [negb].
    + match goal with
      | |- context [Demo.super_image lr hr ?j ?sh] =>
          destruct (super_image_pure (R:=R) lr hr j batch_size sh
                      (with_written w1
                         (written w ++ (if Py.truthy save_dir
                                        then saved_as save_dir startID out
                                        else []))) Hlen Hlrs Hhrs)
            as [x Hx]; [lia|]
      end.
      erewrite bind_Ok by exact Hx.
      destruct (Py.truthy save_dir) eqn:Hsave.
      * erewrite bind_Ok by reflexivity.
        eexists _, _. split; [reflexivity|].
        exists (out ++ [(k, t, np_uint8 x)]). rewrite fmap_app, Hout.
        split; [done|].
        unfold pictures, saved_as. rewrite !fmap_app. split; [done|].
        unfold with_written. simpl. by rewrite <- app_assoc.
      * erewrite bind_Ok by reflexivity.
        eexists _, _. split; [reflexivity|].
        exists (out ++ [(k, t, np_uint8 x)]). rewrite fmap_app, Hout.
        split; [done|].
        unfold pictures. rewrite !fmap_app. by split.
    + eexists _, _. split; [reflexivity|]. exists out.
      by rewrite app_nil_r.
  - exists []. split; [done|]. split; [done|].
    destruct (Py.truthy save_dir); simpl; rewrite app_nil_r, <- Hw1;
      by rewrite with_written_id.
  - exists out. rewrite range_length in Hout.
    rewrite take_ge in Hout by (unfold Py.len in Htexts; lia).
    split; [done|]. exact Hrun.
Qed.
End SavingFull.

Lemma lettered_elem (texts : list string) (j : nat) (t : string) :
  (j, t) ∈ lettered texts <-> texts !! j = Some t /\ Py.search_alpha t = true.
Proof.
  unfold lettered. rewrite list_elem_of_filter, elem_of_lookup_imap. simpl.
  split.
  - intros (Ha & i & x & [= -> ->] & Hx). done.
  - intros (Hj & Ha). split; [done|]. by exists j, t.
Qed.

Section BatchFull.
Context {T R : Type}.
Context `{Tensorflow T R} `{StageII T} `{Numpy T} `{Embedding T}.
Context `{Demo.MiscConfig}.

Lemma prepare_dir_fields (save_dir : option string) (w : World T R) :
  let fresh := Py.truthy save_dir
               && negb (bool_decide (Py.fmt_s save_dir ∈ dirs w)) in
  stdout (prepare_dir save_dir w)
  = stdout w ++ (if fresh
                 then ["Make a new folder:  " +:+ Py.fmt_s save_dir] else []) /\
  dirs (prepare_dir save_dir w)
  = (if Py.truthy save_dir then {[ Py.fmt_s save_dir ]} ∪ dirs w else dirs w) /\
  written (prepare_dir save_dir w) = written w /\
  rng (prepare_dir save_dir w) = rng w /\
  restored (prepare_dir save_dir w) = restored w /\
  runs (prepare_dir save_dir w) = runs w.
Proof.
  unfold prepare_dir. destruct (Py.truthy save_dir); simpl.
  - destruct (bool_decide _) eqn:Hin; simpl.
    + rewrite app_nil_r. repeat split.
      apply bool_decide_eq_true in Hin. symmetry.
      by apply subseteq_union_1_L, singleton_subseteq_l.
    + done.
  - by rewrite app_nil_r.
Qed.

Lemma process_batch_full (self : Demo.GenerativeModel) (model : CondGAN)
    (z_dim : Z) (embeddings : list T) (texts : list string)
    (save_dir : option string) (bs count iend : Z) (w : World T R) :
  batch_preserving (T:=T) (R:=R) ->
  Demo.ops self = Demo.generator_graph model (Demo.batch_size self) z_dim ->
  Demo.batch_size self = bs ->
  restored w <> None ->
  0 <= count <= iend -> iend <= Py.len texts -> iend - count = bs -> 1 <= bs ->
  exists (w' : World T R) (out : list (nat * string * T)),
    Demo.process_batch self embeddings texts bs save_dir count iend w
    = (Ok tt, w') /\
    out.*1 = lettered (Py.slice texts count iend) /\
    stdout w' = stdout (prepare_dir save_dir w) /\
    dirs w' = dirs (prepare_dir save_dir w) /\
    written w' = written w ++ (if Py.truthy save_dir
                               then saved_as save_dir count out else []) /\
    restored w' = restored w /\
    runs w' = (runs w + 8)%nat.
Proof.
  intros Hgan Hops Hself Hres Hcount Hiend <- Hbs. unfold Demo.process_batch.
  destruct (generate_n_spec self model z_dim
              (np_stack (Py.slice embeddings count iend)) 8 w
              (fun lr hr => holds_images lr (iend - count) /\
                            holds_images hr (iend - count)) Hops Hres)
    as (hr & lr & w1 & Hgen & Hhr & Hlr & (Hso & Hdi & Hwr & Hre & Hru)
        & Himgs).
  { intros w0 w1 lr hr Hg. rewrite Hself in Hg. by eapply Hgan. }
  erewrite bind_Ok by exact Hgen.
  destruct (save_super_images_full (R:=R) lr hr (Py.slice texts count iend)
              (iend - count) count save_dir w1)
    as (out & Hout & Hsave).
  { unfold Py.len. lia. }
  { unfold Py.len. rewrite Hhr. lia. }
  { by apply slice_len. }
  { eapply Forall2_Forall_l; [exact Himgs|].
    apply Forall_true. by intros a b [Ha _]. }
  { rewrite Z.max_r by lia. eapply Forall2_Forall_r; [exact Himgs|].
    apply Forall_true. by intros a b [_ Hb]. }
  erewrite bind_Ok by exact Hsave.
  eexists _, out. split; [reflexivity|]. split; [done|].
  destruct (prepare_dir_fields save_dir w1) as (Hs1 & Hd1 & _ & _ & Hr1 & Hn1).
  destruct (prepare_dir_fields save_dir w) as (Hs0 & Hd0 & _).
  cbv zeta in *. simpl.
  rewrite Hs1, Hd1, Hr1, Hn1, Hs0, Hd0, Hso, Hdi, Hwr, Hre, Hru.
  repeat split; try done.
Qed.
End BatchFull.

Section SaveProperties.
Context {T R : Type} `{Numpy T}.

Lemma zip_fmap_same {A B C} (f : A -> B) (g : A -> C) (l : list A) :
  zip (f <$> l) (g <$> l) = (fun a => (f a, g a)) <$> l.
Proof. induction l as [|a l IH]; csimpl; [done | by f_equal]. Qed.

(** X7.  One call of [save_super_images], given as many low-resolution as
    high-resolution batches (at least one), a text for every position of
    the batch, and sample batches that hold an image for every position of
    the batch (the high-resolution ones at least one image, which line 128
    reads): it returns one picture for each text that has a letter, in the
    order of the batch and with that text as caption, whether or not it
    saves; with an output directory it writes exactly these pictures, the
    one of position [j] as "sentence<startID + j>.jpg"; with none ([None]
    or the empty string) it leaves everything as it was. *)
Theorem save_super_images_returns (lr hr : list T) (texts_batch : list string)
    (batch_size startID : Z) (save_dir : option string) (w : World T R) :
  Py.len lr = Py.len hr -> 1 <= Py.len hr ->
  Py.len texts_batch = batch_size ->
  Forall (fun a => holds_images a batch_size) lr ->
  Forall (fun a => holds_images a (Z.max 1 batch_size)) hr ->
  let named := lettered texts_batch in
  exists (imgs : list (Picture T)) (w' : World T R),
    Demo.save_super_images lr hr texts_batch batch_size startID save_dir w
    = (Ok imgs, w') /\
    Forall2 (fun pic '(j, t) => pic = Demo.drawCaption (canvas pic) t)
      imgs named /\
    written w'
    = written w ++
      (if Py.truthy save_dir
       then zip ((fun '(j, _) =>
                    Demo.image_path save_dir (startID + Z.of_nat j))
                 <$> named) imgs
       else []) /\
    rng w' = rng w /\ restored w' = restored w /\ runs w' = runs w /\
    (Py.truthy save_dir = false -> w' = w).
Proof.
  intros Hlen Hhr Htexts Hlrs Hhrs named.
  destruct (save_super_images_full (R:=R) lr hr texts_batch batch_size startID
              save_dir w Hlen Hhr Htexts Hlrs Hhrs) as (out & Hout & Hrun).
  eexists _, _. split; [exact Hrun|]. fold named in Hout.
  destruct (prepare_dir_fields save_dir w) as (_ & _ & _ & Hrng & Hres & Hruns).
  split; [|split; [|split; [done|split; [done|split; [done|]]]]].
  - rewrite <- Hout. unfold pictures. apply Forall2_fmap, Forall_Forall2_diag.
    apply Forall_forall. by intros [[j t] x] _.
  - simpl. f_equal. destruct (Py.truthy save_dir); [|done].
    rewrite <- Hout, <- list_fmap_compose. unfold pictures, saved_as.
    rewrite zip_fmap_same. apply list_fmap_ext. by intros _ [[j t] x] _.
  - intros Hnone. rewrite Hnone. unfold prepare_dir. rewrite Hnone. simpl.
    rewrite app_nil_r. apply with_written_id.
Qed.

(** X8.  With no sample batch at all, [save_super_images] raises
    IndexError on its first look at the samples: the output directory has
    been prepared by then, and nothing is written. *)
Theorem save_super_images_no_samples (lr : list T) (texts_batch : list string)
    (batch_size startID : Z) (save_dir : option string) (w : World T R) :
  exists w' : World T R,
    Demo.save_super_images lr [] texts_batch batch_size startID save_dir w
    = (Raise IndexError, w') /\
    written w' = written w /\
    dirs w' = (if Py.truthy save_dir then {[ Py.fmt_s save_dir ]} ∪ dirs w
               else dirs w).
Proof.
  exists (prepare_dir save_dir w).
  destruct (prepare_dir_fields save_dir w) as (_ & Hdirs & Hwr & _).
  split; [|done]. unfold Demo.save_super_images.
  erewrite bind_Ok.
  - erewrite bind_Raise by reflexivity. reflexivity.
  - unfold prepare_dir. destruct (Py.truthy save_dir); [|done].
    unfold isdir. erewrite bind_Ok by reflexivity. simpl.
    destruct (bool_decide _); [done|]. simpl.
    erewrite bind_Ok by reflexivity. done.
Qed.
End SaveProperties.

Lemma save_super_images_returns_witness :
  exists (imgs : list (Picture unit)) (w' : World unit unit),
    Demo.save_super_images [tt] [tt] ["a small bird"; "12345"] 2 4
      (Some "out") world0
    = (Ok imgs, w') /\
    Forall2 (fun pic '(j, t) => pic = Demo.drawCaption (canvas pic) t)
      imgs (lettered ["a small bird"; "12345"]) /\
    written w'
    = written world0 ++
      zip ((fun '(j, _) => Demo.image_path (Some "out") (4 + Z.of_nat j))
           <$> lettered ["a small bird"; "12345"]) imgs /\
    rng w' = rng world0 /\ restored w' = restored world0 /\
    runs w' = runs world0 /\
    (Py.truthy (Some "out") = false -> w' = world0).
Proof.
  apply (save_super_images_returns (R:=unit) [tt] [tt]
           ["a small bird"; "12345"] 2 4 (Some "out") world0).
  - reflexivity.
  - vm_compute; discriminate.
  - reflexivity.
  - repeat constructor. intros j _. by eexists.
  - repeat constructor. intros j _. by eexists.
Defined.

(** ** The run, field by field *)

Section MainFull.
Context {T R : Type}.
Context `{Tensorflow T R} `{StageII T} `{Numpy T} `{Embedding T}.
Context `{Demo.MiscConfig}.

Lemma embed_text_full (disk : gmap string string) (path mp content : string)
    (w : World T R) :
  disk !! path = Some content ->
  let texts := normalize <$> Py.readlines content in
  let tokens := load_tokenizer (Py.path_join mp "tokenizer.pickle") in
  let network := load_graph (Py.path_join mp "frozen_model.pb") in
  let embeddings :=
    (fun t => network (take 400 (tokens t)
                         ++ replicate (400 - length (tokens t)) 0))
    <$> texts in
  Demo.embed_text disk (Some path) (Some mp) w
  = (Ok (embeddings, Py.len texts, texts),
     with_stdout w
       (stdout w ++
        ["Loading texts"; "Loading embedding model"; "Loading the graph";
         "Successfully load sentences from:  " +:+ path;
         "Total number of sentences: " +:+ Py.fmt_d (Py.len texts);
         "num_embeddings: " +:+ Py.fmt_d (Py.len texts) +:+ " "
           +:+ Py.repr_tuple (np_shape (np_stack embeddings))])).
Proof.
  intros Hdisk texts tokens network embeddings. unfold Demo.embed_text.
  erewrite bind_Ok by reflexivity. simpl or_raise.
  erewrite bind_Ok by reflexivity. rewrite Hdisk. simpl or_raise.
  erewrite bind_Ok by reflexivity.
  erewrite bind_Ok by reflexivity.
  erewrite bind_Ok by reflexivity.
  unfold GraphLoad.Model_init.
  erewrite bind_Ok by (erewrite bind_Ok by reflexivity; reflexivity).
  fold texts.
  match goal with
  | |- context [GraphLoad.embed ?m (GraphLoad.Many texts)] =>
      destruct (token_matrix_spec m texts) as (Hx & _); [done|];
      assert (GraphLoad.embed m (GraphLoad.Many texts) = Ok embeddings) as He
  end.
  { unfold GraphLoad.embed. rewrite Hx. simpl. f_equal.
    unfold embeddings. by rewrite <- list_fmap_compose. }
  erewrite bind_Ok by (rewrite He; reflexivity).
  erewrite bind_Ok by reflexivity.
  erewrite bind_Ok by reflexivity.
  erewrite bind_Ok by reflexivity.
  unfold mret, M_ret, ret, with_stdout. simpl. rewrite <- !app_assoc. done.
Qed.

Lemma GenerativeModel_init_full (cfg : Demo.Cfg) (bs dim : Z) (w : World T R) :
  Demo.LR_IMSIZE (Demo.TEST cfg) <> 0 ->
  let ckt_path := Demo.PRETRAINED_MODEL (Demo.TEST cfg) in
  let valid := negb (Py.find ckt_path ".ckpt" =? -1) in
  exists self model,
    Demo.GenerativeModel_init cfg bs dim w
    = (Ok self,
       {| stdout := stdout w ++
            [if valid then "Reading model parameters from " +:+ ckt_path
             else "Input a valid model path. " +:+ ckt_path +:+ " is not valid"];
          dirs := dirs w; written := written w; rng := rng w;
          restored := if valid then Some ckt_path else restored w;
          runs := runs w |}) /\
    Demo.batch_size self = bs /\
    Demo.ops self
    = Demo.generator_graph model bs (Demo.Z_DIM cfg).
Proof.
  intros Hlr ckt_path valid.
  unfold Demo.GenerativeModel_init, Demo.build_model.
  destruct (Demo.LR_IMSIZE (Demo.TEST cfg) =? 0) eqn:Hz; [lia|].
  fold ckt_path. fold valid. destruct valid.
  - erewrite bind_Ok.
    2:{ erewrite bind_Ok by reflexivity.
        erewrite bind_Ok by (erewrite bind_Ok by reflexivity; reflexivity).
        reflexivity. }
    eexists _, _. split; [reflexivity|]. by split.
  - erewrite bind_Ok.
    2:{ erewrite bind_Ok by reflexivity.
        erewrite bind_Ok by reflexivity. reflexivity. }
    eexists _, _. split; [reflexivity|]. by split.
Qed.
End MainFull.

Lemma schedule_bounds (n bs : Z) (b : Z * Z) :
  1 <= bs <= n ->
  b ∈ ((fun k => (k * bs, k * bs + bs)) <$> Py.range ((n - 1) / bs))
        ++ [(n - bs, n)] ->
  0 <= b.1 /\ b.2 = b.1 + bs /\ b.2 <= n.
Proof.
  intros Hbs Hb. apply elem_of_app in Hb as [Hb | Hb].
  - apply list_elem_of_fmap in Hb as (k & -> & Hk). apply range_elem in Hk.
    pose proof (Z.mul_div_le (n - 1) bs ltac:(lia)). simpl. nia.
  - apply list_elem_of_singleton in Hb as ->. simpl. lia.
Qed.

Lemma schedule_length (n bs : Z) :
  1 <= bs <= n ->
  length (((fun k => (k * bs, k * bs + bs)) <$> Py.range ((n - 1) / bs))
            ++ [(n - bs, n)])
  = Z.to_nat ((n - 1) / bs + 1).
Proof.
  intros Hbs. rewrite length_app, length_fmap, range_length. simpl.
  pose proof (Z.div_pos (n - 1) bs ltac:(lia) ltac:(lia)). lia.
Qed.

Section MainWhole.
Context {T R : Type}.
Context `{Tensorflow T R} `{StageII T} `{Numpy T} `{Embedding T}.
Context `{Demo.MiscConfig}.

(** What a run with a usable configuration leaves behind, field by
    field. *)
Lemma main_full (fuel : nat) (disk : gmap string string) (args : Demo.Args)
    (cfg : Demo.Cfg) (path mp content : string) (w : World T R) :
  batch_preserving (T:=T) (R:=R) ->
  Demo.caption_path args = Some path ->
  Demo.caption_model args = Some mp ->
  disk !! path = Some content ->
  content <> "" ->
  Demo.LR_IMSIZE (Demo.TEST (Demo.configure args cfg)) <> 0 ->
  Py.find (Demo.PRETRAINED_MODEL (Demo.TEST (Demo.configure args cfg)))
    ".ckpt" <> -1 ->
  1 <= Demo.BATCH_SIZE (Demo.TEST (Demo.configure args cfg)) ->
  (length (Py.readlines content) < fuel)%nat ->
  let texts := normalize <$> Py.readlines content in
  let n := Py.len texts in
  let bs := Z.min n (Demo.BATCH_SIZE (Demo.TEST (Demo.configure args cfg))) in
  let sd := Demo.output_dir args in
  let ckt_path := Demo.PRETRAINED_MODEL (Demo.TEST (Demo.configure args cfg)) in
  let fresh := Py.truthy sd && negb (bool_decide (Py.fmt_s sd ∈ dirs w)) in
  exists (w' : World T R) (shape : list Z) (new : list (string * Picture T)),
    Demo.main fuel disk args cfg w = (Ok tt, w') /\
    stdout w'
    = stdout w ++
      ["Loading texts"; "Loading embedding model"; "Loading the graph";
       "Successfully load sentences from:  " +:+ path;
       "Total number of sentences: " +:+ Py.fmt_d n;
       "num_embeddings: " +:+ Py.fmt_d n +:+ " " +:+ Py.repr_tuple shape;
       "Reading model parameters from " +:+ ckt_path]
      ++ (if fresh then ["Make a new folder:  " +:+ Py.fmt_s sd] else [])
      ++ ["Finish generating samples for " +:+ Py.fmt_d n +:+ " sentences:";
          "Example sentences:"]
      ++ imap (fun i t => "Sentence " +:+ Py.fmt_d (Z.of_nat i) +:+ ": " +:+ t)
           (take 10 texts) /\
    dirs w' = (if Py.truthy sd then {[ Py.fmt_s sd ]} ∪ dirs w else dirs w) /\
    restored w' = Some ckt_path /\
    runs w' = (runs w + 8 * Z.to_nat ((n - 1) / bs + 1))%nat /\
    written w' = written w ++ new /\
    Forall (fun '(p, pic) =>
              exists (i : nat) t x, texts !! i = Some t /\
                Py.search_alpha t = true /\
                p = Demo.image_path sd (Z.of_nat i) /\
                pic = Demo.drawCaption x t) new /\
    new.*1
    = (if Py.truthy sd
       then concat
              ((fun b : Z * Z =>
                  (fun p : nat * string =>
                     Demo.image_path sd (b.1 + Z.of_nat p.1))
                  <$> lettered (Py.slice texts b.1 b.2))
               <$> (((fun k => (k * bs, k * bs + bs))
                     <$> Py.range ((n - 1) / bs)) ++ [(n - bs, n)]))
       else []).
Proof.
  intros Hgan Hpath Hmp Hdisk Hcontent Hlr Hckpt Hbatch Hfuel texts n bs sd
    ckt_path fresh.
  set (valid := negb (Py.find ckt_path ".ckpt" =? -1)).
  assert (Hv : valid = true).
  { unfold valid, ckt_path. by destruct (Z.eqb_spec (Py.find
      (Demo.PRETRAINED_MODEL (Demo.TEST (Demo.configure args cfg))) ".ckpt")
      (-1)). }
  assert (Hn : 1 <= n).
  { pose proof (readlines_nonempty content Hcontent) as Hne.
    unfold n, texts, Py.len. rewrite length_fmap.
    destruct (Py.readlines content); [done | simpl; lia]. }
  assert (Hbs : 1 <= bs <= n) by (unfold bs; lia).
  unfold Demo.main. rewrite Hpath, Hmp.
  erewrite bind_Ok by (by apply embed_text_full).
  cbn beta iota. fold texts. fold n.
  destruct (n <=? 0) eqn:Hn0; [lia|].
  set (cfg' := Demo.configure args cfg) in *. fold bs.
  match goal with
  | |- context [Demo.GenerativeModel_init cfg' bs ?dim ≫= _] =>
      match goal with
      | |- context [(_ ≫= _) ?w1] =>
          destruct (GenerativeModel_init_full cfg' bs dim w1 Hlr)
            as (self & model & Hinit & Hself & Hops)
      end
  end.
  fold ckt_path in Hinit. fold valid in Hinit. rewrite <- Hself in Hops.
  erewrite bind_Ok by exact Hinit. fold sd.
  match type of Hinit with
  | _ = (_, ?w2') =>
      set (w2 := w2') in *;
      assert (Hw2 : stdout w2 = stdout w ++
                ["Loading texts"; "Loading embedding model";
                 "Loading the graph";
                 "Successfully load sentences from:  " +:+ path;
                 "Total number of sentences: " +:+ Py.fmt_d n;
                 "num_embeddings: " +:+ Py.fmt_d n +:+ " " +:+ Py.repr_tuple
                    (np_shape (np_stack
                       ((fun t =>
                           load_graph (Py.path_join mp "frozen_model.pb")
                             (take 400 (load_tokenizer
                                          (Py.path_join mp "tokenizer.pickle") t)
                                ++ replicate
                                     (400 - length
                                        (load_tokenizer
                                           (Py.path_join mp "tokenizer.pickle") t))
                                     0)) <$> texts)));
                 if valid then "Reading model parameters from " +:+ ckt_path
                 else "Input a valid model path. " +:+ ckt_path
                        +:+ " is not valid"] /\
              dirs w2 = dirs w /\ written w2 = written w /\
              restored w2 = (if valid then Some ckt_path else restored w) /\
              runs w2 = runs w)
        by (unfold w2; simpl; rewrite <- app_assoc; done);
      clearbody w2
  end.
  destruct Hw2 as (Hw2s & Hw2d & Hw2w & Hw2r & Hw2n).
  rewrite Hv in Hw2s, Hw2r.
  set (seen := ((fun k => (k * bs, k * bs + bs)) <$> Py.range ((n - 1) / bs))
                 ++ [(n - bs, n)]).
  set (D := if Py.truthy sd then {[ Py.fmt_s sd ]} ∪ dirs w else dirs w).
  match goal with
  | |- context [Demo.process_batch self ?embs texts bs sd] =>
      set (embs0 := embs);
      set (body := fun b : Z * Z =>
                     Demo.process_batch self embs0 texts bs sd b.1 b.2)
  end.
  destruct (for_each_inv
    (fun k (w' : World T R) =>
       stdout w' = stdout w2 ++
         (if decide (k = 0%nat) then []
          else if fresh then ["Make a new folder:  " +:+ Py.fmt_s sd]
               else []) /\
       dirs w' = (if decide (k = 0%nat) then dirs w else D) /\
       restored w' = restored w2 /\
       runs w' = (runs w + 8 * k)%nat /\
       exists new, written w' = written w ++ new /\
         Forall (fun '(p, pic) =>
                   exists (i : nat) t x, texts !! i = Some t /\
                     Py.search_alpha t = true /\
                     p = Demo.image_path sd (Z.of_nat i) /\
                     pic = Demo.drawCaption x t) new /\
         new.*1
         = (if Py.truthy sd
            then concat
                   ((fun b : Z * Z =>
                       (fun p : nat * string =>
                          Demo.image_path sd (b.1 + Z.of_nat p.1))
                       <$> lettered (Py.slice texts b.1 b.2))
                    <$> take k seen)
            else []))
    seen body) with w2
    as (w3 & Hloop & Hso & Hdi & Hre & Hru & new & Hnew & Hcap & Hnames).
  - intros k [c e] w0 Hk (Hso & Hdi & Hre & Hru & new & Hnew & Hcap & Hnames).
    destruct (schedule_bounds n bs (c, e) Hbs) as (Hc & He & Hen);
      [by eapply list_elem_of_lookup_2|]. simpl in Hc, He, Hen.
    destruct (process_batch_full self model _ embs0 texts sd bs c e w0
                Hgan Hops Hself)
      as (w' & out & Hrun & Hout & Hso' & Hdi' & Hwr' & Hre' & Hru');
      [by rewrite Hre, Hw2r | lia | by fold n | lia | lia |].
    exists w'. split; [exact Hrun|].
    destruct (prepare_dir_fields sd w0) as (Hs0 & Hd0 & _). cbv zeta in Hs0.
    rewrite Hso', Hs0, Hdi', Hd0, Hre', Hru', Hwr', Hso, Hdi, Hre, Hru, Hnew.
    destruct (decide (Datatypes.S k = 0%nat)) as [|_]; [lia|].
    split; [|split; [|split; [done|split; [lia|]]]].
    + destruct (decide (k = 0%nat)); [by rewrite app_nil_r|].
      rewrite <- app_assoc. f_equal. unfold D, fresh.
      destruct (Py.truthy sd); simpl; [|done].
      rewrite (bool_decide_eq_true_2 (_ ∈ _ ∪ _))
        by (by apply elem_of_union_l, elem_of_singleton). simpl.
      by rewrite app_nil_r.
    + unfold D. destruct (decide (k = 0%nat)); [done|].
      destruct (Py.truthy sd); [|done].
      by rewrite (assoc_L (∪)), union_idemp_L.
    + eexists. split; [by rewrite <- app_assoc|]. split.
      2:{ rewrite fmap_app, Hnames, (take_S_r _ _ _ Hk).
          destruct (Py.truthy sd); [|done].
          rewrite fmap_app, concat_app. f_equal. simpl.
          rewrite app_nil_r, <- Hout. unfold saved_as.
          rewrite <- !list_fmap_compose.
          apply list_fmap_ext. by intros _ [[j t] x] _. }
      apply Forall_app. split; [done|].
      destruct (Py.truthy sd); [|done].
      unfold saved_as. apply Forall_fmap, Forall_forall.
      intros [[j t] x] Hjtx. simpl.
      assert ((j, t) ∈ lettered (Py.slice texts c e)) as Hjt.
      { rewrite <- Hout. apply list_elem_of_fmap. by exists (j, t, x). }
      apply lettered_elem in Hjt as (Hj & Ha).
      rewrite slice_in_range in Hj by (try done; lia).
      apply lookup_take_Some in Hj as [Hj _]. rewrite lookup_drop in Hj.
      exists (Z.to_nat c + j)%nat, t, x. split; [done|]. split; [done|].
      split; [|done]. f_equal. lia.
  - simpl. rewrite app_nil_r. split; [done|]. split; [done|]. split; [done|].
    split; [lia|]. exists []. rewrite app_nil_r, Hw2w.
    split; [done|]. split; [done|]. by destruct (Py.truthy sd).
  - erewrite bind_Ok.
    2:{ rewrite batching_loop_batches
          by (try done; unfold n, texts, Py.len; rewrite length_fmap; lia).
        exact Hloop. }
    erewrite bind_Ok by reflexivity.
    erewrite bind_Ok by reflexivity.
    unfold seen in Hso, Hdi, Hru.
    rewrite schedule_length in Hso, Hdi, Hru by done.
    assert (Hpos : Z.to_nat ((n - 1) / bs + 1) <> 0%nat).
    { pose proof (Z.div_pos (n - 1) bs ltac:(lia) ltac:(lia)). lia. }
    destruct (decide (Z.to_nat ((n - 1) / bs + 1) = 0%nat)) as [|_]; [done|].
    match goal with
    | |- context [for_each ?xs ?body ?s] =>
        destruct (for_each_inv
          (fun k (w' : World T R) =>
             w' = with_stdout s
                    (stdout s ++
                     imap (fun i t => "Sentence " +:+ Py.fmt_d (Z.of_nat i)
                                        +:+ ": " +:+ t) (take k texts)))
          xs body) with s as (w4 & Hprint & ->)
    end.
    + intros k i w0 Hi ->. apply range_lookup in Hi as [-> Hk].
      destruct (index_in_range texts (Z.of_nat k)) as (Hik & [t Ht]);
        [fold n; lia|].
      rewrite Hik, Ht. erewrite bind_Ok by reflexivity.
      eexists. split; [reflexivity|].
      rewrite Nat2Z.id in Ht. rewrite (take_S_r _ _ _ Ht), imap_app.
      unfold with_stdout. simpl. rewrite length_take_le
        by (apply lookup_lt_Some in Ht; lia).
      rewrite Nat.add_0_r, <- !app_assoc. done.
    + unfold with_stdout. simpl. by rewrite app_nil_r.
    + eexists _, _, new. split; [exact Hprint|].
      rewrite range_length. simpl.
      assert (take (Z.to_nat (Z.min 10 n)) texts = take 10 texts) as ->.
      { destruct (Z_le_gt_dec 10 n).
        - by rewrite Z.min_l by done.
        - rewrite Z.min_r by lia. unfold n, Py.len in *.
          rewrite !take_ge by lia. done. }
      rewrite Hso, Hdi, Hre, Hru, Hnew, Hw2s, Hw2r.
      split; [by rewrite <- !app_assoc|]. unfold D.
      rewrite take_ge in Hnames by lia.
      done.
Qed.
End MainWhole.

Section RunProperties.
Context {T R : Type}.
Context `{Tensorflow T R} `{StageII T} `{Numpy T} `{Embedding T}.
Context `{Demo.MiscConfig}.

(** X1.  What a run prints.  On a captions file with at least one line and
    a usable configuration (a checkpoint path with ".ckpt" in it, a
    low-resolution size other than 0, a batch size of at least 1), the
    output is, in this order: the three loading lines, the path and the two
    counts, "Reading model parameters from <path>", "Make a new folder:
    <dir>" once if the output directory is a non-empty string and did not
    exist, the closing line with the count, "Example sentences:", and the
    first [min(10, n)] normalized sentences, numbered from 0. *)
Theorem main_transcript (fuel : nat) (disk : gmap string string)
    (args : Demo.Args) (cfg : Demo.Cfg) (path mp content : string)
    (w : World T R) :
  batch_preserving (T:=T) (R:=R) ->
  Demo.caption_path args = Some path ->
  Demo.caption_model args = Some mp ->
  disk !! path = Some content ->
  content <> "" ->
  Demo.LR_IMSIZE (Demo.TEST (Demo.configure args cfg)) <> 0 ->
  Py.find (Demo.PRETRAINED_MODEL (Demo.TEST (Demo.configure args cfg)))
    ".ckpt" <> -1 ->
  1 <= Demo.BATCH_SIZE (Demo.TEST (Demo.configure args cfg)) ->
  (length (Py.readlines content) < fuel)%nat ->
  let texts := normalize <$> Py.readlines content in
  let n := Py.len texts in
  let sd := Demo.output_dir args in
  let ckt_path := Demo.PRETRAINED_MODEL (Demo.TEST (Demo.configure args cfg)) in
  exists (w' : World T R) (shape : list Z),
    Demo.main fuel disk args cfg w = (Ok tt, w') /\
    stdout w'
    = stdout w ++
      ["Loading texts"; "Loading embedding model"; "Loading the graph";
       "Successfully load sentences from:  " +:+ path;
       "Total number of sentences: " +:+ Py.fmt_d n;
       "num_embeddings: " +:+ Py.fmt_d n +:+ " " +:+ Py.repr_tuple shape;
       "Reading model parameters from " +:+ ckt_path]
      ++ (if Py.truthy sd && negb (bool_decide (Py.fmt_s sd ∈ dirs w))
          then ["Make a new folder:  " +:+ Py.fmt_s sd] else [])
      ++ ["Finish generating samples for " +:+ Py.fmt_d n +:+ " sentences:";
          "Example sentences:"]
      ++ imap (fun i t => "Sentence " +:+ Py.fmt_d (Z.of_nat i) +:+ ": " +:+ t)
           (take 10 texts).
Proof.
  intros Hgan Hpath Hmp Hdisk Hcontent Hlr Hckpt Hbatch Hfuel texts n sd
    ckt_path.
  destruct (main_full fuel disk args cfg path mp content w)
    as (w' & shape & new & Hrun & Hout & _); try done.
  by exists w', shape.
Qed.

(** X2.  What a run with a usable configuration does to the session and
    to the directories.  The generator graph is fetched 8 times for each
    batch, that is [8 * ((n - 1) / batch_size + 1)] times; the session
    holds the checkpoint of the configuration; no directory is lost; with
    an output directory that is a non-empty string, that directory exists
    afterwards, and without one the directories are as they were. *)
Theorem main_session (fuel : nat) (disk : gmap string string)
    (args : Demo.Args) (cfg : Demo.Cfg) (path mp content : string)
    (w : World T R) :
  batch_preserving (T:=T) (R:=R) ->
  Demo.caption_path args = Some path ->
  Demo.caption_model args = Some mp ->
  disk !! path = Some content ->
  content <> "" ->
  Demo.LR_IMSIZE (Demo.TEST (Demo.configure args cfg)) <> 0 ->
  Py.find (Demo.PRETRAINED_MODEL (Demo.TEST (Demo.configure args cfg)))
    ".ckpt" <> -1 ->
  1 <= Demo.BATCH_SIZE (Demo.TEST (Demo.configure args cfg)) ->
  (length (Py.readlines content) < fuel)%nat ->
  let n := Py.len (Py.readlines content) in
  let batch_size :=
    Z.min n (Demo.BATCH_SIZE (Demo.TEST (Demo.configure args cfg))) in
  let sd := Demo.output_dir args in
  let ckt_path := Demo.PRETRAINED_MODEL (Demo.TEST (Demo.configure args cfg)) in
  exists w' : World T R,
    Demo.main fuel disk args cfg w = (Ok tt, w') /\
    Z.of_nat (runs w') = Z.of_nat (runs w) + 8 * ((n - 1) / batch_size + 1) /\
    restored w' = Some ckt_path /\
    dirs w ⊆ dirs w' /\
    (if Py.truthy sd then Py.fmt_s sd ∈ dirs w' else dirs w' = dirs w).
Proof.
  intros Hgan Hpath Hmp Hdisk Hcontent Hlr Hckpt Hbatch Hfuel n batch_size sd
    ckt_path.
  destruct (main_full fuel disk args cfg path mp content w)
    as (w' & shape & new & Hrun & _ & Hdirs & Hrest & Hruns & _); try done.
  assert (Hn : Py.len (normalize <$> Py.readlines content) = n)
    by (unfold n, Py.len; by rewrite length_fmap).
  rewrite Hn in Hruns. fold batch_size in Hruns.
  assert (1 <= n).
  { pose proof (readlines_nonempty content Hcontent).
    unfold n, Py.len. destruct (Py.readlines content); [done | simpl; lia]. }
  pose proof (Z.div_pos (n - 1) batch_size ltac:(lia)
                ltac:(unfold batch_size; lia)).
  exists w'. split; [done|]. split; [lia|]. split; [done|].
  rewrite Hdirs. fold sd. destruct (Py.truthy sd).
  - split; [apply union_subseteq_r|]. by apply elem_of_union_l, elem_of_singleton.
  - done.
Qed.

(** X3.  Every image a run with a usable configuration writes is the image
    of one of the sentences that have a letter, stored under the number of
    that sentence and carrying the caption of that very sentence; this
    holds also for the last, realigned batch. *)
Theorem images_carry_their_caption (fuel : nat) (disk : gmap string string)
    (args : Demo.Args) (cfg : Demo.Cfg) (path mp content : string)
    (w : World T R) :
  batch_preserving (T:=T) (R:=R) ->
  Demo.caption_path args = Some path ->
  Demo.caption_model args = Some mp ->
  disk !! path = Some content ->
  content <> "" ->
  Demo.LR_IMSIZE (Demo.TEST (Demo.configure args cfg)) <> 0 ->
  Py.find (Demo.PRETRAINED_MODEL (Demo.TEST (Demo.configure args cfg)))
    ".ckpt" <> -1 ->
  1 <= Demo.BATCH_SIZE (Demo.TEST (Demo.configure args cfg)) ->
  (length (Py.readlines content) < fuel)%nat ->
  let texts := normalize <$> Py.readlines content in
  exists (w' : World T R) (new : list (string * Picture T)),
    Demo.main fuel disk args cfg w = (Ok tt, w') /\
    written w' = written w ++ new /\
    Forall (fun '(p, pic) =>
              exists (i : nat) (t : string) (x : T),
                texts !! i = Some t /\ Py.search_alpha t = true /\
                p = Demo.image_path (Demo.output_dir args) (Z.of_nat i) /\
                pic = Demo.drawCaption x t) new.
Proof.
  intros Hgan Hpath Hmp Hdisk Hcontent Hlr Hckpt Hbatch Hfuel texts.
  destruct (main_full fuel disk args cfg path mp content w)
    as (w' & shape & new & Hrun & _ & _ & _ & _ & Hnew & Hcap & _); try done.
  exists w', new. split; [done|]. split; [done|].
  done.
Qed.

(** X22.  The files of a run with a usable configuration, in the order in
    which they are written.  The batches are treated one after the other,
    and within a batch the sentences that have a letter are written in the
    order of the file, the sentence at position [j] of the batch that
    starts at [count] as "sentence<count + j>.jpg".  A sentence that lies
    both in a regular batch and in the realigned final batch is therefore
    written twice, under the same name. *)
Theorem written_file_names (fuel : nat) (disk : gmap string string)
    (args : Demo.Args) (cfg : Demo.Cfg) (path mp content : string)
    (w : World T R) :
  batch_preserving (T:=T) (R:=R) ->
  Demo.caption_path args = Some path ->
  Demo.caption_model args = Some mp ->
  disk !! path = Some content ->
  content <> "" ->
  Demo.LR_IMSIZE (Demo.TEST (Demo.configure args cfg)) <> 0 ->
  Py.find (Demo.PRETRAINED_MODEL (Demo.TEST (Demo.configure args cfg)))
    ".ckpt" <> -1 ->
  1 <= Demo.BATCH_SIZE (Demo.TEST (Demo.configure args cfg)) ->
  (length (Py.readlines content) < fuel)%nat ->
  let texts := normalize <$> Py.readlines content in
  let n := Py.len texts in
  let batch_size :=
    Z.min n (Demo.BATCH_SIZE (Demo.TEST (Demo.configure args cfg))) in
  let batches :=
    ((fun k => (k * batch_size, k * batch_size + batch_size))
     <$> Py.range ((n - 1) / batch_size)) ++ [(n - batch_size, n)] in
  let sd := Demo.output_dir args in
  exists (w' : World T R) (new : list (string * Picture T)),
    Demo.main fuel disk args cfg w = (Ok tt, w') /\
    written w' = written w ++ new /\
    new.*1
    = (if Py.truthy sd
       then concat
              ((fun b : Z * Z =>
                  (fun p : nat * string =>
                     Demo.image_path sd (b.1 + Z.of_nat p.1))
                  <$> lettered (Py.slice texts b.1 b.2))
               <$> batches)
       else []).
Proof.
  intros Hgan Hpath Hmp Hdisk Hcontent Hlr Hckpt Hbatch Hfuel texts n
    batch_size batches sd.
  destruct (main_full fuel disk args cfg path mp content w)
    as (w' & shape & new & Hrun & _ & _ & _ & _ & Hnew & _ & Hnames);
    try done.
  by exists w', new.
Qed.
End RunProperties.

Lemma main_transcript_witness :
  exists (w' : World unit unit) (shape : list Z),
    Demo.main 4 {[ "data/captions.txt" := captions ]}
      (args0 "data/captions.txt" (Some "out")) (cfg0 "models/model.ckpt" 2)
      world1
    = (Ok tt, w') /\
    stdout w'
    = stdout world1 ++
      ["Loading texts"; "Loading embedding model"; "Loading the graph";
       "Successfully load sentences from:  " +:+ "data/captions.txt";
       "Total number of sentences: "
         +:+ Py.fmt_d (Py.len (normalize <$> Py.readlines captions));
       "num_embeddings: "
         +:+ Py.fmt_d (Py.len (normalize <$> Py.readlines captions)) +:+ " "
         +:+ Py.repr_tuple shape;
       "Reading model parameters from " +:+ "models/model.ckpt"]
      ++ ["Make a new folder:  " +:+ "out"]
      ++ ["Finish generating samples for "
            +:+ Py.fmt_d (Py.len (normalize <$> Py.readlines captions))
            +:+ " sentences:";
          "Example sentences:"]
      ++ imap (fun i t => "Sentence " +:+ Py.fmt_d (Z.of_nat i) +:+ ": " +:+ t)
           (take 10 (normalize <$> Py.readlines captions)).
Proof.
  apply (main_transcript 4 {[ "data/captions.txt" := captions ]}
           (args0 "data/captions.txt" (Some "out"))
           (cfg0 "models/model.ckpt" 2)
           "data/captions.txt" "models" captions world1).
  - exact batch_preserving_unit.
  - reflexivity.
  - reflexivity.
  - reflexivity.
  - discriminate.
  - vm_compute; discriminate.
  - vm_compute; discriminate.
  - vm_compute; discriminate.
  - vm_compute; lia.
Defined.

Lemma main_session_witness :
  exists w' : World unit unit,
    Demo.main 4 {[ "data/captions.txt" := captions ]}
      (args0 "data/captions.txt" (Some "out")) (cfg0 "models/model.ckpt" 2)
      world1
    = (Ok tt, w') /\
    Z.of_nat (runs w') = Z.of_nat (runs world1) + 8 * ((3 - 1) / 2 + 1) /\
    restored w' = Some "models/model.ckpt" /\
    dirs world1 ⊆ dirs w' /\
    "out" ∈ dirs w'.
Proof.
  apply (main_session 4 {[ "data/captions.txt" := captions ]}
           (args0 "data/captions.txt" (Some "out"))
           (cfg0 "models/model.ckpt" 2)
           "data/captions.txt" "models" captions world1).
  - exact batch_preserving_unit.
  - reflexivity.
  - reflexivity.
  - reflexivity.
  - discriminate.
  - vm_compute; discriminate.
  - vm_compute; discriminate.
  - vm_compute; discriminate.
  - vm_compute; lia.
Defined.

Lemma images_carry_their_caption_witness :
  exists (w' : World unit unit) (new : list (string * Picture unit)),
    Demo.main 4 {[ "data/captions.txt" := captions ]}
      (args0 "data/captions.txt" None) (cfg0 "models/model.ckpt" 2) world1
    = (Ok tt, w') /\
    written w' = written world1 ++ new /\
    Forall (fun '(p, pic) =>
              exists (i : nat) (t : string) (x : unit),
                (normalize <$> Py.readlines captions) !! i = Some t /\
                Py.search_alpha t = true /\
                p = Demo.image_path
                      (Demo.output_dir (args0 "data/captions.txt" None))
                      (Z.of_nat i) /\
                pic = Demo.drawCaption x t) new.
Proof.
  apply (images_carry_their_caption 4 {[ "data/captions.txt" := captions ]}
           (args0 "data/captions.txt" None) (cfg0 "models/model.ckpt" 2)
           "data/captions.txt" "models" captions world1).
  - exact batch_preserving_unit.
  - reflexivity.
  - reflexivity.
  - reflexivity.
  - discriminate.
  - vm_compute; discriminate.
  - vm_compute; discriminate.
  - vm_compute; discriminate.
  - vm_compute; lia.
Defined.

Lemma written_file_names_witness :
  exists (w' : World unit unit) (new : list (string * Picture unit)),
    Demo.main 4 {[ "data/birds.txt" := three_birds ]}
      (args0 "data/birds.txt" None) (cfg0 "models/model.ckpt" 2) world1
    = (Ok tt, w') /\
    written w' = written world1 ++ new /\
    new.*1 = ["data/sentence0.jpg"; "data/sentence1.jpg";
              "data/sentence1.jpg"; "data/sentence2.jpg"].
Proof.
  destruct (written_file_names 4 {[ "data/birds.txt" := three_birds ]}
              (args0 "data/birds.txt" None) (cfg0 "models/model.ckpt" 2)
              "data/birds.txt" "models" three_birds world1)
    as (w' & new & Hrun & Hnew & Hnames).
  - exact batch_preserving_unit.
  - reflexivity.
  - reflexivity.
  - reflexivity.
  - discriminate.
  - vm_compute; discriminate.
  - vm_compute; discriminate.
  - vm_compute; discriminate.
  - vm_compute; lia.
  - exists w', new. split; [exact Hrun|]. split; [exact Hnew|].
    rewrite Hnames. vm_compute. reflexivity.
Defined.

Section InputErrors.
Context {T R : Type}.
Context `{Tensorflow T R} `{StageII T} `{Numpy T} `{Embedding T}.
Context `{Demo.MiscConfig}.

(** X4.  What the run does when its inputs are missing.  Without
    [--caption_path] it raises TypeError right after "Loading texts"; with
    a captions path that cannot be opened it raises IOError at the same
    point; with the captions read but no [--caption_model] it raises
    AttributeError after "Loading embedding model" (the script is
    Python 2, where [os.path.join(None, ...)] fails on [None.endswith]).
    In each case nothing but these lines has happened: no image, no
    checkpoint, no generator run. *)
Theorem main_input_errors (fuel : nat) (disk : gmap string string)
    (args : Demo.Args) (cfg : Demo.Cfg) (w : World T R) :
  match Demo.caption_path args with
  | None =>
      Demo.main fuel disk args cfg w
      = (Raise TypeError, with_stdout w (stdout w ++ ["Loading texts"]))
  | Some path =>
      match disk !! path, Demo.caption_model args with
      | None, _ =>
          Demo.main fuel disk args cfg w
          = (Raise (IOError path),
             with_stdout w (stdout w ++ ["Loading texts"]))
      | Some _, None =>
          Demo.main fuel disk args cfg w
          = (Raise AttributeError,
             with_stdout w
               (stdout w ++ ["Loading texts"; "Loading embedding model"]))
      | Some _, Some _ => True
      end
  end.
Proof.
  unfold Demo.main, Demo.embed_text.
  destruct (Demo.caption_path args) as [path|].
  - destruct (disk !! path) as [content|] eqn:Hdisk.
    + destruct (Demo.caption_model args) as [mp|]; [done|].
      erewrite bind_Raise; [reflexivity|].
      erewrite bind_Ok by reflexivity.
      erewrite bind_Ok by reflexivity. rewrite Hdisk.
      erewrite bind_Ok by reflexivity.
      erewrite bind_Ok by reflexivity.
      erewrite bind_Raise by reflexivity.
      unfold with_stdout. simpl. by rewrite <- app_assoc.
    + erewrite bind_Raise; [reflexivity|].
      erewrite bind_Ok by reflexivity.
      erewrite bind_Ok by reflexivity. rewrite Hdisk.
      erewrite bind_Raise by reflexivity. done.
  - erewrite bind_Raise; [reflexivity|].
    erewrite bind_Ok by reflexivity.
    erewrite bind_Raise by reflexivity. done.
Qed.

(** X5.  A low-resolution size of 0 is found out late: the captions are
    read and embedded first, then the run raises ZeroDivisionError, before
    the checkpoint is looked at and before any generation. *)
Theorem main_zero_lr_imsize (fuel : nat) (disk : gmap string string)
    (args : Demo.Args) (cfg : Demo.Cfg) (path mp content : string)
    (w : World T R) :
  Demo.caption_path args = Some path ->
  Demo.caption_model args = Some mp ->
  disk !! path = Some content ->
  content <> "" ->
  Demo.LR_IMSIZE (Demo.TEST (Demo.configure args cfg)) = 0 ->
  let n := Py.len (Py.readlines content) in
  exists (w' : World T R) (shape : list Z),
    Demo.main fuel disk args cfg w = (Raise ZeroDivisionError, w') /\
    stdout w'
    = stdout w ++
      ["Loading texts"; "Loading embedding model"; "Loading the graph";
       "Successfully load sentences from:  " +:+ path;
       "Total number of sentences: " +:+ Py.fmt_d n;
       "num_embeddings: " +:+ Py.fmt_d n +:+ " " +:+ Py.repr_tuple shape] /\
    written w' = written w /\ restored w' = restored w /\ runs w' = runs w.
Proof.
  intros Hpath Hmp Hdisk Hcontent Hlr n.
  assert (Hn : Py.len (normalize <$> Py.readlines content) = n)
    by (unfold n, Py.len; by rewrite length_fmap).
  assert (1 <= n).
  { pose proof (readlines_nonempty content Hcontent).
    unfold n, Py.len. destruct (Py.readlines content); [done | simpl; lia]. }
  unfold Demo.main. rewrite Hpath, Hmp.
  erewrite bind_Ok by (by apply embed_text_full).
  cbn beta iota. rewrite Hn.
  destruct (n <=? 0) eqn:Hn0; [lia|].
  eexists _, _. split.
  - erewrite bind_Raise; [reflexivity|].
    unfold Demo.GenerativeModel_init, Demo.build_model. rewrite Hlr. simpl.
    erewrite bind_Raise; [reflexivity|].
    erewrite bind_Raise by reflexivity. reflexivity.
  - done.
Qed.

(** X6.  The embeddings of the captions: [embed_text] returns one
    normalized text and one embedding per line of the file, blank lines
    included and in the order of the file; the embedding of a line is the
    network applied to the tokens of the normalized line, cut after 400
    tokens and filled with zeros up to 400. *)
Theorem embed_text_pipeline (disk : gmap string string)
    (path mp content : string) (w : World T R) :
  disk !! path = Some content ->
  let lines := Py.readlines content in
  let tokens := load_tokenizer (Py.path_join mp "tokenizer.pickle") in
  let network := load_graph (Py.path_join mp "frozen_model.pb") in
  exists (embeddings : list T) (w' : World T R),
    Demo.embed_text disk (Some path) (Some mp) w
    = (Ok (embeddings, Py.len lines, normalize <$> lines), w') /\
    Py.len embeddings = Py.len lines /\
    (forall (i : nat) line, lines !! i = Some line ->
       embeddings !! i
       = Some (network (take 400 (tokens (normalize line))
                          ++ replicate
                               (400 - length (tokens (normalize line))) 0))) /\
    written w' = written w /\ restored w' = restored w /\ runs w' = runs w.
Proof.
  intros Hdisk lines tokens network.
  pose proof (embed_text_full disk path mp content w Hdisk) as Hrun.
  cbv zeta in Hrun. fold lines tokens network in Hrun.
  assert (Hn : Py.len (normalize <$> lines) = Py.len lines)
    by (unfold Py.len; by rewrite length_fmap).
  rewrite Hn in Hrun.
  eexists _, _. split; [exact Hrun|]. split.
  - unfold Py.len. by rewrite !length_fmap.
  - split; [|done]. intros i line Hline.
    rewrite !list_lookup_fmap, Hline. done.
Qed.
End InputErrors.

Lemma main_zero_lr_imsize_witness :
  exists (w' : World unit unit) (shape : list Z),
    Demo.main 4 {[ "data/captions.txt" := captions ]}
      (args0 "data/captions.txt" None) cfg_zero_lr world0
    = (Raise ZeroDivisionError, w') /\
    stdout w'
    = stdout world0 ++
      ["Loading texts"; "Loading embedding model"; "Loading the graph";
       "Successfully load sentences from:  " +:+ "data/captions.txt";
       "Total number of sentences: "
         +:+ Py.fmt_d (Py.len (Py.readlines captions));
       "num_embeddings: " +:+ Py.fmt_d (Py.len (Py.readlines captions))
         +:+ " " +:+ Py.repr_tuple shape] /\
    written w' = written world0 /\ restored w' = restored world0 /\
    runs w' = runs world0.
Proof.
  apply (main_zero_lr_imsize 4 {[ "data/captions.txt" := captions ]}
           (args0 "data/captions.txt" None) cfg_zero_lr
           "data/captions.txt" "models" captions world0).
  - reflexivity.
  - reflexivity.
  - reflexivity.
  - discriminate.
  - reflexivity.
Defined.

Lemma embed_text_pipeline_witness :
  exists (embeddings : list unit) (w' : World unit unit),
    Demo.embed_text {[ "data/captions.txt" := captions ]}
      (Some "data/captions.txt") (Some "models") world0
    = (Ok (embeddings, Py.len (Py.readlines captions),
           normalize <$> Py.readlines captions), w') /\
    Py.len embeddings = Py.len (Py.readlines captions) /\
    (forall (i : nat) line, Py.readlines captions !! i = Some line ->
       embeddings !! i
       = Some (load_graph (Py.path_join "models" "frozen_model.pb")
                 (take 400 (load_tokenizer
                              (Py.path_join "models" "tokenizer.pickle")
                              (normalize line))
                    ++ replicate
                         (400 - length
                            (load_tokenizer
                               (Py.path_join "models" "tokenizer.pickle")
                               (normalize line))) 0))) /\
    written w' = written world0 /\ restored w' = restored world0 /\
    runs w' = runs world0.
Proof.
  apply (embed_text_pipeline {[ "data/captions.txt" := captions ]}
           "data/captions.txt" "models" captions world0).
  reflexivity.
Defined.

Section UnrestoredSession.
Context {T R : Type}.
Context `{Tensorflow T R} `{StageII T} `{Numpy T} `{Embedding T}.
Context `{Demo.MiscConfig}.

(** X24.  The error of a run whose checkpoint path has no ".ckpt" in it,
    on inputs that are usable otherwise: the captions are read and
    embedded, the constructor prints "Input a valid model path. <path> is
    not valid" and returns, and the first fetch of the first batch raises
    FailedPreconditionError.  By then no directory has been made, no image
    written and no fetch completed; the closing lines are not printed. *)
Theorem first_fetch_fails_unrestored (fuel : nat) (disk : gmap string string)
    (args : Demo.Args) (cfg : Demo.Cfg) (path mp content : string)
    (w : World T R) :
  Demo.caption_path args = Some path ->
  Demo.caption_model args = Some mp ->
  disk !! path = Some content ->
  content <> "" ->
  Demo.LR_IMSIZE (Demo.TEST (Demo.configure args cfg)) <> 0 ->
  1 <= Demo.BATCH_SIZE (Demo.TEST (Demo.configure args cfg)) ->
  Py.find (Demo.PRETRAINED_MODEL (Demo.TEST (Demo.configure args cfg)))
    ".ckpt" = -1 ->
  restored w = None ->
  (0 < fuel)%nat ->
  let n := Py.len (Py.readlines content) in
  let ckt_path := Demo.PRETRAINED_MODEL (Demo.TEST (Demo.configure args cfg)) in
  exists (w' : World T R) (shape : list Z),
    Demo.main fuel disk args cfg w = (Raise FailedPreconditionError, w') /\
    stdout w'
    = stdout w ++
      ["Loading texts"; "Loading embedding model"; "Loading the graph";
       "Successfully load sentences from:  " +:+ path;
       "Total number of sentences: " +:+ Py.fmt_d n;
       "num_embeddings: " +:+ Py.fmt_d n +:+ " " +:+ Py.repr_tuple shape;
       "Input a valid model path. " +:+ ckt_path +:+ " is not valid"] /\
    dirs w' = dirs w /\ written w' = written w /\
    restored w' = None /\ runs w' = runs w.
Proof.
  intros Hpath Hmp Hdisk Hcontent Hlr Hbatch Hckpt Hres Hfuel n ckt_path.
  assert (Hn : Py.len (normalize <$> Py.readlines content) = n)
    by (unfold n, Py.len; by rewrite length_fmap).
  assert (1 <= n).
  { pose proof (readlines_nonempty content Hcontent).
    unfold n, Py.len. destruct (Py.readlines content); [done | simpl; lia]. }
  unfold Demo.main. rewrite Hpath, Hmp.
  erewrite bind_Ok by (by apply embed_text_full).
  cbn beta iota. rewrite Hn.
  destruct (n <=? 0) eqn:Hn0; [lia|].
  set (cfg' := Demo.configure args cfg) in *.
  set (bs := Z.min n (Demo.BATCH_SIZE (Demo.TEST cfg'))).
  match goal with
  | |- context [Demo.GenerativeModel_init cfg' bs ?dim ≫= _] =>
      match goal with
      | |- context [(_ ≫= _) ?w1] =>
          destruct (GenerativeModel_init_invalid cfg' bs dim w1 Hlr Hckpt)
            as (self & w2 & Hinit & Hs2 & Hr2 & Hd2 & Hw2 & Hn2)
      end
  end.
  erewrite bind_Ok by exact Hinit.
  exists w2. eexists. split.
  - erewrite bind_Raise; [reflexivity|].
    destruct fuel as [|fuel]; [lia|]. simpl.
    destruct (0 <? n) eqn:Hpos; [|lia].
    destruct (0 + bs >? n);
      (erewrite bind_Raise; [reflexivity|];
       apply process_batch_unrestored; by rewrite Hr2).
  - rewrite Hs2, Hr2, Hd2, Hw2, Hn2. simpl. rewrite <- app_assoc.
    repeat split; done.
Qed.

End UnrestoredSession.

Lemma first_fetch_fails_unrestored_witness :
  exists (w' : World unit unit) (shape : list Z),
    Demo.main 4 {[ "data/captions.txt" := captions ]}
      (args0 "data/captions.txt" None) (cfg0 "models/stageII" 2) world1
    = (Raise FailedPreconditionError, w') /\
    stdout w'
    = stdout world1 ++
      ["Loading texts"; "Loading embedding model"; "Loading the graph";
       "Successfully load sentences from:  " +:+ "data/captions.txt";
       "Total number of sentences: "
         +:+ Py.fmt_d (Py.len (Py.readlines captions));
       "num_embeddings: " +:+ Py.fmt_d (Py.len (Py.readlines captions))
         +:+ " " +:+ Py.repr_tuple shape;
       "Input a valid model path. " +:+ "models/stageII" +:+ " is not valid"] /\
    dirs w' = dirs world1 /\ written w' = written world1 /\
    restored w' = None /\ runs w' = runs world1.
Proof.
  apply (first_fetch_fails_unrestored 4 {[ "data/captions.txt" := captions ]}
           (args0 "data/captions.txt" None) (cfg0 "models/stageII" 2)
           "data/captions.txt" "models" captions world1).
  - reflexivity.
  - reflexivity.
  - reflexivity.
  - discriminate.
  - vm_compute; discriminate.
  - vm_compute; discriminate.
  - reflexivity.
  - reflexivity.
  - lia.
Defined.

(** * Properties of the training script *)

(** ** List comprehensions and the counter *)

Lemma comprehension_Returns {X Y} (f : X -> Train.outcome Y) (l : list X)
    (ys : list Y) :
  Train.comprehension f l = Train.Returns ys
  <-> Forall2 (fun x y => f x = Train.Returns y) l ys.
Proof.
  revert ys. induction l as [|x l IH]; intros ys; simpl.
  - split; [by intros [= <-]; constructor | by intros ->%Forall2_nil_inv_l].
  - destruct (f x) as [y|e] eqn:Hfx.
    + destruct (Train.comprehension f l) as [ys'|e] eqn:Hl.
      * split.
        -- intros [= <-]. constructor; [done|]. by apply IH.
        -- intros (y' & ys'' & Hy & Hys & ->)%Forall2_cons_inv_l.
           apply IH in Hys. congruence.
      * split; [done|].
        intros (y' & ys'' & Hy & Hys & ->)%Forall2_cons_inv_l.
        apply IH in Hys. congruence.
    + split; [done|].
      intros (y' & ys'' & Hy & Hys & ->)%Forall2_cons_inv_l. congruence.
Qed.

Lemma comprehension_Raises {X Y} (f : X -> Train.outcome Y) (l : list X)
    (x : X) (e : Train.error) :
  x ∈ l -> f x = Train.Raises e ->
  (forall x' e', f x' = Train.Raises e' -> e' = e) ->
  Train.comprehension f l = Train.Raises e.
Proof.
  intros Hx Hfx Hone. induction l as [|x' l IH]; [by apply elem_of_nil in Hx|].
  simpl. destruct (f x') as [y|e'] eqn:Hfx'.
  - apply elem_of_cons in Hx as [->|Hx]; [congruence|]. by rewrite IH.
  - f_equal. by eapply Hone.
Qed.

Section CounterProperties.
Context {K : Type} `{EqDecision K}.

Lemma count_of_count_one (c k : K) (counter : list (K * Z)) :
  Train.count_of (Train.count_one c counter) k
  = Train.count_of counter k + (if decide (k = c) then 1 else 0).
Proof.
  induction counter as [|[k' n] counter IH]; simpl.
  - destruct (decide (c = k)), (decide (k = c)); congruence || lia.
  - destruct (decide (k' = c)) as [->|Hk']; simpl.
    + destruct (decide (c = k)), (decide (k = c)); congruence || lia.
    + destruct (decide (k' = k)) as [->|]; [|done].
      destruct (decide (k = c)); [done | lia].
Qed.

Lemma count_one_keys (c : K) (counter : list (K * Z)) :
  (Train.count_one c counter).*1
  = if decide (c ∈ counter.*1) then counter.*1 else counter.*1 ++ [c].
Proof.
  induction counter as [|[k' n] counter IH].
  - cbn [Train.count_one]. destruct (decide (c ∈ _)) as [Hin|_]; [|done].
    by apply elem_of_nil in Hin.
  - cbn [Train.count_one]. rewrite (fmap_cons _ _ counter). cbn [fst].
    destruct (decide (k' = c)) as [->|Hk'].
    + rewrite fmap_cons. cbn [fst].
      destruct (decide (c ∈ c :: counter.*1)) as [_|Hout]; [done|].
      exfalso. apply Hout. left.
    + rewrite fmap_cons, IH. cbn [fst].
      destruct (decide (c ∈ counter.*1)) as [Hin|Hin];
        destruct (decide (c ∈ k' :: counter.*1)) as [Hin'|Hin']; try done.
      * exfalso. apply Hin'. by right.
      * apply elem_of_cons in Hin' as [?|?]; congruence.
Qed.

Lemma Counter_snoc (l : list K) (c : K) :
  Train.Counter (l ++ [c]) = Train.count_one c (Train.Counter l).
Proof. unfold Train.Counter. by rewrite foldl_app. Qed.

Lemma occurrences_snoc (l : list K) (c k : K) :
  occurrences k (l ++ [c])
  = occurrences k l + (if decide (k = c) then 1 else 0).
Proof.
  unfold occurrences, Py.len. rewrite filter_app, length_app.
  rewrite filter_cons, filter_nil.
  destruct (decide (c = k)), (decide (k = c)); simpl; congruence || lia.
Qed.

Lemma occurrences_pos (l : list K) (k : K) : 0 < occurrences k l <-> k ∈ l.
Proof.
  unfold occurrences, Py.len. split.
  - intros Hpos. destruct (filter _ l) as [|x xs] eqn:Hf; [simpl in Hpos; lia|].
    assert (x ∈ filter (fun y => y = k) l) as Hx by (rewrite Hf; left).
    by apply list_elem_of_filter in Hx as [-> ?].
  - intros Hin. assert (k ∈ filter (fun y => y = k) l) as Hk
      by (by apply list_elem_of_filter).
    destruct (filter _ l); [by apply elem_of_nil in Hk | simpl; lia].
Qed.

(** The counter of a list holds every element once, with the number of its
    occurrences. *)
Lemma Counter_spec (l : list K) :
  NoDup (Train.Counter l).*1 /\
  (forall k, k ∈ (Train.Counter l).*1 <-> k ∈ l) /\
  (forall k, Train.count_of (Train.Counter l) k = occurrences k l).
Proof.
  induction l as [|c l (Hnd & Hkeys & Hcount)] using rev_ind.
  - split; [constructor|]. split; [done|]. done.
  - rewrite Counter_snoc, count_one_keys. split; [|split].
    + destruct (decide _) as [|Hnew]; [done|].
      apply NoDup_app. split; [done|]. split; [|apply NoDup_singleton].
      by intros k Hk ->%list_elem_of_singleton.
    + intros k. rewrite elem_of_app, list_elem_of_singleton, <- Hkeys.
      destruct (decide _) as [Hold|]; [|by rewrite elem_of_app, list_elem_of_singleton].
      split; [by left|]. by intros [?| ->].
    + intros k. by rewrite count_of_count_one, occurrences_snoc, Hcount.
Qed.

Lemma count_of_elem (counter : list (K * Z)) (k : K) (n : Z) :
  NoDup counter.*1 ->
  (k, n) ∈ counter <-> k ∈ counter.*1 /\ Train.count_of counter k = n.
Proof.
  induction counter as [|[k' n'] counter IH]; simpl; intros Hnd.
  - split; [by intros ?%elem_of_nil | by intros [?%elem_of_nil _]].
  - apply NoDup_cons in Hnd as [Hk' Hnd]. rewrite !elem_of_cons, (IH Hnd).
    destruct (decide (k' = k)) as [->|Hne].
    + split.
      * intros [[= -> ] | [? _]]; [by split; [left|] | done].
      * intros [_ ->]. by left.
    + split.
      * intros [[= ? ?] | [? ?]]; [congruence|]. by split; [right|].
      * intros [[?|?] ?]; [congruence|]. by right.
Qed.

(** A dictionary comprehension over the items of a counter. *)
Lemma comprehension_lookup {V} (g : Z -> V) (counter : list (K * Z))
    `{Countable K} (d : gmap K V) (k : K) :
  NoDup counter.*1 ->
  foldl (fun d '(cls, count) => <[cls := g count]> d) d counter !! k
  = if decide (k ∈ counter.*1) then Some (g (Train.count_of counter k))
    else d !! k.
Proof.
  revert d. induction counter as [|[k' n'] counter IH]; intros d Hnd.
  - destruct (decide (k ∈ _)) as [Hin|_]; [|done].
    by apply elem_of_nil in Hin.
  - rewrite fmap_cons in Hnd |- *. cbn [fst foldl Train.count_of] in *.
    apply NoDup_cons in Hnd as [Hk' Hnd]. rewrite (IH _ Hnd).
    destruct (decide (k' = k)) as [->|Hne].
    + destruct (decide (k ∈ counter.*1)) as [|_]; [done|].
      destruct (decide (k ∈ k :: counter.*1)) as [_|Hout].
      * by rewrite lookup_insert_eq.
      * exfalso. apply Hout. left.
    + rewrite lookup_insert_ne by done.
      destruct (decide (k ∈ counter.*1)) as [Hin|Hin];
        destruct (decide (k ∈ k' :: counter.*1)) as [Hin'|Hin']; try done.
      * exfalso. apply Hin'. by right.
      * apply elem_of_cons in Hin' as [?|?]; congruence.
Qed.

End CounterProperties.

Lemma max_of_spec (l : list Z) :
  match Train.max_of l with
  | Train.Returns m => m ∈ l /\ Forall (fun x => x <= m) l
  | Train.Raises e => l = [] /\ e = Train.ValueError
  end.
Proof.
  destruct l as [|x l]; simpl; [done|].
  revert x. induction l as [|y l IH]; intros x; simpl.
  - split; [left | by constructor].
  - destruct (IH (Z.max x y)) as [Hin Hall].
    apply Forall_cons in Hall as [Hxy Hall]. split.
    + apply elem_of_cons in Hin as [Hm|Hin]; [|by right; right].
      rewrite Hm. destruct (Z.max_spec x y) as [[_ ->]|[_ ->]];
        [right; left | left].
    + constructor; [lia|]. constructor; [lia|done].
Qed.

(** [math.ceil(a / b)] on whole numbers. *)
Lemma ceiling_quotient (a b : Z) :
  0 < b ->
  let w := Qceiling (inject_Z a / inject_Z b) in
  a <= w * b /\ (w - 1) * b < a.
Proof.
  intros Hb w. assert (w = - ((- a) / b)) as ->.
  { unfold w, Qceiling. f_equal. rewrite Zdiv_Qdiv. apply Qfloor_comp.
    rewrite inject_Z_opp. unfold Qdiv. ring. }
  pose proof (Z.mul_div_le (- a) b Hb).
  pose proof (Z.mul_succ_div_gt (- a) b Hb). nia.
Qed.

(** ** get_class_weights *)

Lemma argmax_rows_Returns (y : list (list Q)) :
  Forall (fun row => row <> []) y ->
  exists classes : list Z,
    Train.argmax_rows y = Train.Returns classes /\
    Forall2 (fun row c => Train.argmax row = Some c) y classes.
Proof.
  intros Hrows.
  assert (exists classes,
            Forall2 (fun row c => Train.argmax row = Some c) y classes)
    as [classes Hcl].
  { induction Hrows as [|row y Hrow _ [classes IH]]; [by exists []|].
    destruct row as [|x row]; [done|].
    eexists (_ :: classes). constructor; [reflexivity | done]. }
  exists classes. split; [|done].
  apply comprehension_Returns. eapply Forall2_impl; [exact Hcl|].
  intros row c Hc. simpl in Hc. by rewrite Hc.
Qed.

Lemma occurrences_argmax (y : list (list Q)) (classes : list Z) (c : Z) :
  Forall2 (fun row c => Train.argmax row = Some c) y classes ->
  Py.len (filter (fun row => Train.argmax row = Some c) y)
  = occurrences c classes.
Proof.
  unfold occurrences, Py.len. intros Hcl. f_equal.
  induction Hcl as [|row c' y classes Hc _ IH]; [done|].
  rewrite !filter_cons, Hc.
  destruct (decide (Some c' = Some c)) as [[= ->]|Hne].
  - rewrite decide_True by done. simpl. by rewrite IH.
  - rewrite decide_False by congruence. done.
Qed.

(** What [get_class_weights] computes from the counts: the classes are
    the positions of the greatest entry of the rows, and [majority] is
    the count of the most frequent class. *)
Lemma get_class_weights_counts (y : list (list Q)) :
  y <> [] -> Forall (fun row => row <> []) y ->
  exists (classes : list Z) (majority : Z) (weights : gmap Z Z),
    Forall2 (fun row c => Train.argmax row = Some c) y classes /\
    Train.get_class_weights y = Train.Returns weights /\
    (exists c, occurrences c classes = majority) /\
    (forall c, occurrences c classes <= majority) /\
    (forall c, weights !! c
               = if decide (c ∈ classes)
                 then Some (Qceiling (inject_Z majority
                                      / inject_Z (occurrences c classes)))
                 else None).
Proof.
  intros Hy Hrows.
  destruct (argmax_rows_Returns y Hrows) as (classes & Hrun & Hcl).
  destruct (Counter_spec classes) as (Hnd & Hkeys & Hcount).
  unfold Train.get_class_weights. rewrite Hrun.
  pose proof (max_of_spec (Train.Counter classes).*2) as Hmax.
  destruct (Train.max_of _) as [majority|e].
  - destruct Hmax as [Hin Hall]. exists classes, majority. eexists.
    split; [done|]. split; [reflexivity|].
    assert (Hval : forall c, c ∈ classes ->
                     occurrences c classes ∈ (Train.Counter classes).*2).
    { intros c Hc. apply list_elem_of_fmap. exists (c, occurrences c classes).
      split; [done|]. apply count_of_elem; [done|]. by rewrite Hkeys, Hcount. }
    split; [|split].
    + apply list_elem_of_fmap in Hin as ([c n] & -> & Hcn).
      apply count_of_elem in Hcn as [_ <-]; [|done]. exists c. by rewrite Hcount.
    + intros c. rewrite Forall_forall in Hall.
      destruct (decide (c ∈ classes)) as [Hc|Hc]; [by apply Hall, Hval|].
      destruct classes as [|c0 classes'] eqn:Heq.
      { apply Forall2_nil_inv_r in Hcl. done. }
      rewrite <- Heq in *.
      assert (c0 ∈ classes) as Hc0 by (rewrite Heq; left).
      pose proof (Hall _ (Hval _ Hc0)) as Hle.
      apply occurrences_pos in Hc0.
      assert (~ 0 < occurrences c classes) by (by rewrite occurrences_pos).
      lia.
    + intros c. rewrite comprehension_lookup by done.
      rewrite lookup_empty, Hcount.
      destruct (decide (c ∈ classes)) as [Hc|Hc];
        destruct (decide (c ∈ (Train.Counter classes).*1)) as [Hc'|Hc'];
        try done.
      * exfalso. by apply Hc', Hkeys.
      * exfalso. by apply Hc, Hkeys.
  - destruct Hmax as [Hnil _]. exfalso.
    destruct classes as [|c0 classes'] eqn:Heq.
    { apply Forall2_nil_inv_r in Hcl. done. }
    assert (c0 ∈ (Train.Counter (c0 :: classes')).*1) as Hc0
      by (apply Hkeys; left).
    apply (f_equal length) in Hnil. rewrite length_fmap in Hnil.
    rewrite <- (length_fmap fst) in Hnil.
    destruct ((Train.Counter (c0 :: classes')).*1); [|done].
    by apply elem_of_nil in Hc0.
Qed.

(** X11.  The weight of a class is the count of the most frequent class divided
    by its own count, rounded up: the least whole number of times the
    class has to be counted to make up for the most frequent one.  Every
    class that occurs gets a weight, no other does, and the most frequent
    classes get the weight 1. *)
Theorem get_class_weights_spec (y : list (list Q)) :
  y <> [] -> Forall (fun row => row <> []) y ->
  let count := fun c : Z =>
    Py.len (filter (fun row => Train.argmax row = Some c) y) in
  exists weights : gmap Z Z,
    Train.get_class_weights y = Train.Returns weights /\
    (forall c, is_Some (weights !! c) <-> 0 < count c) /\
    (forall c w, weights !! c = Some w ->
       1 <= w /\
       (forall c', count c' <= w * count c) /\
       (exists c', (w - 1) * count c < count c')) /\
    (forall c, 0 < count c -> (forall c', count c' <= count c) ->
       weights !! c = Some 1).
Proof.
  intros Hy Hrows count.
  destruct (get_class_weights_counts y Hy Hrows)
    as (classes & majority & weights & Hcl & Hrun & [cm Hcm] & Hle & Hlook).
  assert (Hcount : forall c, count c = occurrences c classes)
    by (intros c; by apply occurrences_argmax).
  assert (Hw : forall c w, weights !! c = Some w ->
            0 < count c /\ majority <= w * count c /\
            (w - 1) * count c < majority).
  { intros c w. rewrite Hlook, Hcount.
    destruct (decide (c ∈ classes)) as [Hc|]; [|done]. intros [= <-].
    apply occurrences_pos in Hc. split; [done|].
    by apply ceiling_quotient. }
  exists weights. split; [done|]. split; [|split].
  - intros c. rewrite Hlook, Hcount, occurrences_pos.
    destruct (decide (c ∈ classes)); split; done.
  - intros c w Hcw. destruct (Hw c w Hcw) as (Hpos & Hup & Hlow).
    split; [|split].
    + pose proof (Hle c) as Hc. rewrite <- Hcount in Hc. nia.
    + intros c'. rewrite (Hcount c'). pose proof (Hle c'). lia.
    + exists cm. by rewrite (Hcount cm), Hcm.
  - intros c Hpos Hmost.
    assert (is_Some (weights !! c)) as [w Hcw].
    { rewrite Hlook. rewrite Hcount, occurrences_pos in Hpos.
      by rewrite decide_True. }
    rewrite Hcw. f_equal. destruct (Hw c w Hcw) as (_ & Hup & Hlow).
    pose proof (Hmost cm) as Hm. rewrite (Hcount cm), Hcm in Hm.
    pose proof (Hle c) as Hc. rewrite <- Hcount in Hc. nia.
Qed.

(** X12.  Without a row, or with rows of width 0, [get_class_weights] raises
    ValueError. *)
Theorem get_class_weights_empty (y : list (list Q)) :
  y = [] \/ [] ∈ y ->
  Train.get_class_weights y = Train.Raises Train.ValueError.
Proof.
  intros [-> | Hin]; [done|]. unfold Train.get_class_weights, Train.argmax_rows.
  erewrite comprehension_Raises; [done | exact Hin | done |].
  intros row e. by destruct (Train.argmax row); [|intros [= <-]].
Qed.

(** ** Lines, columns and class numbers *)

Lemma split1_spec (line : string) :
  ((" "%char ∉ Py.chars line) /\ Train.split1 line = [line]) \/
  (exists cls text : string,
     line = cls +:+ " " +:+ text /\ (" "%char ∉ Py.chars cls) /\
     Train.split1 line = [cls; text]).
Proof.
  unfold Train.split1, Py.find.
  destruct (find_from_cases line " "%char 0 ltac:(lia)) as [[Hidx Hno] | Hyes].
  - left. change (String " " "") with " " in Hidx. rewrite Hidx. simpl.
    split; [|done]. intros Hin. apply list_elem_of_lookup in Hin as [i Hi].
    by apply (Hno i ltac:(lia)).
  - right. change (String " " "") with " " in Hyes.
    set (idx := Py.find_from line " " 0) in *.
    destruct Hyes as (Hrange & Hat & Hbefore).
    destruct (idx =? -1) eqn:Hm; [lia|].
    exists (Py.prefix line idx), (Py.suffix line (idx + 1)).
    pose proof (split_at_char line " "%char (Z.to_nat idx) Hat) as Hsplit.
    rewrite Z2Nat.id in Hsplit by lia. split; [done|]. split; [|done].
    intros Hin. apply list_elem_of_lookup in Hin as [i Hi].
    unfold Py.prefix, Py.substr in Hi. rewrite chars_str in Hi.
    rewrite slice_prefix in Hi
      by (unfold Py.len, Py.slen in *; rewrite chars_length; lia).
    apply lookup_take_Some in Hi as [Hi Hlt].
    by apply (Hbefore i ltac:(lia)).
Qed.

Lemma split1_head (cls text : string) :
  " "%char ∉ Py.chars cls ->
  Train.split1 (cls +:+ " " +:+ text) = [cls; text].
Proof.
  intros Hcls.
  destruct (split1_spec (cls +:+ " " +:+ text))
    as [[Hno _] | (cls' & text' & Heq & Hcls' & ->)].
  - exfalso. apply Hno. rewrite !chars_app. apply elem_of_app. right. left.
  - apply (f_equal Py.chars) in Heq. rewrite !chars_app in Heq.
    change (Py.chars " ") with [" "%char] in Heq.
    assert (Py.chars cls = Py.chars cls' /\ Py.chars text = Py.chars text')
      as [H1 H2].
    { revert Heq Hcls Hcls'. generalize (Py.chars cls) (Py.chars cls')
        (Py.chars text) (Py.chars text'). clear.
      intros l1. induction l1 as [|a l1 IH]; intros l1' l2 l2' Heq H1 H1'.
      - destruct l1' as [|b l1']; simpl in Heq.
        + by injection Heq as ->.
        + injection Heq as <- _. exfalso. apply H1'. left.
      - destruct l1' as [|b l1']; simpl in Heq.
        + injection Heq as -> _. exfalso. apply H1. left.
        + injection Heq as -> Heq. apply IH in Heq as [-> ->]; [done| |].
          * intros ?. apply H1. by right.
          * intros ?. apply H1'. by right. }
    by rewrite (chars_inj _ _ H1), (chars_inj _ _ H2).
Qed.

Lemma zip_star_cons {A} (row : list A) (rows : list (list A)) :
  rows <> [] ->
  Train.zip_star (row :: rows) = zip_with cons row (Train.zip_star rows).
Proof. by destruct rows. Qed.

(** The columns of rows that are pairs. *)
Lemma zip_star_pairs {A} (ps : list (A * A)) :
  ps <> [] ->
  Train.zip_star ((fun p => [p.1; p.2]) <$> ps) = [ps.*1; ps.*2].
Proof.
  induction ps as [|p ps IH]; [done|]. intros _.
  destruct ps as [|q ps]; [done|].
  rewrite fmap_cons, zip_star_cons by done. rewrite IH by done. done.
Qed.

Lemma zip_star_nonempty {A} (rows : list (list A)) :
  rows <> [] -> Forall (fun row => row <> []) rows ->
  Train.zip_star rows <> [].
Proof.
  intros Hne Hall. induction Hall as [|row rows Hrow Hall IH]; [done|].
  destruct rows as [|row' rows].
  - simpl. by destruct row.
  - rewrite zip_star_cons by done. destruct row; [done|].
    destruct (Train.zip_star (row' :: rows)); [by apply IH | done].
Qed.

(** Rows of one or two entries of which one has a single entry leave a
    single column. *)
Lemma zip_star_short {A} (rows : list (list A)) (x : A) :
  Forall (fun row => length row = 1 \/ length row = 2)%nat rows ->
  [x] ∈ rows ->
  length (Train.zip_star rows) = 1%nat.
Proof.
  intros Hall. induction Hall as [|row rows Hrow Hall IH]; intros Hin.
  - by apply elem_of_nil in Hin.
  - destruct rows as [|row' rows].
    + apply list_elem_of_singleton in Hin as <-. reflexivity.
    + rewrite zip_star_cons by done. rewrite length_zip_with.
      assert (Train.zip_star (row' :: rows) <> []) as Hz.
      { apply zip_star_nonempty; [done|]. eapply Forall_impl; [exact Hall|].
        intros r Hr. destruct r; [simpl in Hr; lia | done]. }
      apply elem_of_cons in Hin as [<- | Hin].
      * destruct (Train.zip_star (row' :: rows)); [done | simpl; lia].
      * rewrite (IH Hin). destruct Hrow as [-> | ->]; simpl; lia.
Qed.

Section MostCommon.
Context {K : Type} `{EqDecision K}.

Lemma insert_desc_perm (x : K * Z) (sorted : list (K * Z)) :
  Train.insert_desc x sorted ≡ₚ x :: sorted.
Proof.
  induction sorted as [|y sorted IH]; simpl; [done|].
  destruct (y.2 <? x.2); [done|]. rewrite IH. apply Permutation_swap.
Qed.

Lemma insert_desc_sorted (x : K * Z) (sorted : list (K * Z)) :
  StronglySorted (fun a b => b.2 <= a.2) sorted ->
  StronglySorted (fun a b => b.2 <= a.2) (Train.insert_desc x sorted).
Proof.
  induction 1 as [|y sorted Hsorted IH Hy]; simpl.
  - constructor; [constructor | constructor].
  - destruct (Z.ltb_spec y.2 x.2).
    + constructor; [by constructor|]. constructor; [lia|].
      eapply Forall_impl; [exact Hy|]. simpl. lia.
    + constructor; [done|]. rewrite insert_desc_perm. by constructor.
Qed.

Lemma most_common_spec (counter : list (K * Z)) :
  Train.most_common counter ≡ₚ counter /\
  StronglySorted (fun a b => b.2 <= a.2) (Train.most_common counter).
Proof.
  unfold Train.most_common.
  induction counter as [|x counter [IHp IHs]] using rev_ind.
  - split; [done | constructor].
  - rewrite foldl_app. simpl. split.
    + rewrite insert_desc_perm, IHp. by rewrite Permutation_app_comm.
    + by apply insert_desc_sorted.
Qed.

End MostCommon.

(** The dictionary of the class numbers: the class at position [i] of the
    statistics has the number [i]. *)
Lemma index_classes_from (stats : list (string * Z)) :
  forall (off : nat) (d : gmap string Z),
    NoDup stats.*1 ->
    let d' := foldl (fun d '(index, (key, value)) => <[key := Z.of_nat index]> d)
                d (imap (fun i x => ((off + i)%nat, x)) stats) in
    (forall i kn, stats !! i = Some kn ->
       d' !! kn.1 = Some (Z.of_nat (off + i))) /\
    (forall k, k ∉ stats.*1 -> d' !! k = d !! k).
Proof.
  induction stats as [|[k0 n0] stats IH]; intros off d Hnd.
  - split; [done|]. done.
  - rewrite fmap_cons in Hnd. apply NoDup_cons in Hnd as [Hk0 Hnd].
    rewrite imap_cons. cbn [foldl].
    rewrite (imap_ext _ (fun i x => ((S off + i)%nat, x)) stats)
      by (intros; unfold compose; f_equal; lia).
    destruct (IH (S off) (<[k0 := Z.of_nat (off + 0)]> d) Hnd) as [Ha Hb].
    cbv zeta. split.
    + intros [|i] kn Hi.
      * injection Hi as <-. cbn [fst]. rewrite Hb by done.
        by rewrite lookup_insert_eq.
      * cbn [lookup list_lookup] in Hi. rewrite (Ha i kn Hi). f_equal. lia.
    + intros k Hk. rewrite fmap_cons in Hk.
      apply not_elem_of_cons in Hk as [Hne Hk].
      rewrite (Hb k Hk). by rewrite lookup_insert_ne.
Qed.

Lemma index_classes_spec (stats : list (string * Z)) :
  NoDup stats.*1 ->
  (forall (k : string) (v : Z),
     Train.index_classes stats !! k = Some v
     <-> exists i : nat, stats.*1 !! i = Some k /\ v = Z.of_nat i) /\
  size (Train.index_classes stats) = length stats.
Proof.
  intros Hnd. unfold Train.index_classes.
  destruct (index_classes_from stats 0 ∅ Hnd) as [Ha Hb]. simpl in Ha, Hb.
  change (imap pair stats) with (imap (fun i x => ((0 + i)%nat, x)) stats).
  set (d := foldl _ _ _) in *.
  assert (Hlook : forall k v, d !! k = Some v
            <-> exists i : nat, stats.*1 !! i = Some k /\ v = Z.of_nat i).
  { intros k v. split.
    - intros Hk. destruct (decide (k ∈ stats.*1)) as [Hin|Hout].
      + apply list_elem_of_lookup in Hin as [i Hi]. exists i. split; [done|].
        rewrite list_lookup_fmap in Hi.
        destruct (stats !! i) as [kn|] eqn:Hs; [|done]. injection Hi as <-.
        rewrite (Ha i kn Hs) in Hk. by injection Hk.
      + rewrite (Hb k Hout), lookup_empty in Hk. done.
    - intros (i & Hi & ->). rewrite list_lookup_fmap in Hi.
      destruct (stats !! i) as [kn|] eqn:Hs; [|done]. injection Hi as <-.
      by apply Ha. }
  split; [done|].
  rewrite <- size_dom.
  assert (dom d = list_to_set stats.*1) as ->.
  { apply set_eq. intros k. rewrite elem_of_dom, elem_of_list_to_set. split.
    - intros [v Hv]. apply Hlook in Hv as (i & Hi & _).
      by eapply list_elem_of_lookup_2.
    - intros Hin. apply list_elem_of_lookup in Hin as [i Hi].
      exists (Z.of_nat i). apply Hlook. by exists i. }
  rewrite size_list_to_set by done. by rewrite length_fmap.
Qed.

(** ** One-hot rows *)

Lemma one_hot_length (k i : Z) : Py.len (Train.one_hot k i) = Z.max 0 k.
Proof. unfold Train.one_hot, Py.len. rewrite length_fmap, range_length. lia. Qed.

Lemma argmax_from_hot (i ib : Z) (n : nat) :
  forall s : nat,
    Train.argmax_from 1 ib (Z.of_nat s)
      ((fun j => if j =? i then 1%Q else 0%Q) <$> (Z.of_nat <$> seq s n))
    = ib.
Proof.
  induction n as [|n IH]; intros s; [done|].
  cbn [seq fmap list_fmap Train.argmax_from].
  replace (Z.of_nat s + 1) with (Z.of_nat (S s)) by lia.
  destruct (Z.of_nat s =? i).
  - change (Qle_bool 1 1) with true. apply IH.
  - change (Qle_bool 0 1) with true. apply IH.
Qed.

Lemma argmax_from_cold (i ib : Z) (n : nat) :
  forall s : nat,
    Z.of_nat s <= i ->
    Train.argmax_from 0 ib (Z.of_nat s)
      ((fun j => if j =? i then 1%Q else 0%Q) <$> (Z.of_nat <$> seq s n))
    = if decide (i < Z.of_nat (s + n)) then i else ib.
Proof.
  induction n as [|n IH]; intros s Hs.
  - simpl. rewrite decide_False by lia. done.
  - cbn [seq fmap list_fmap Train.argmax_from].
    replace (Z.of_nat s + 1) with (Z.of_nat (S s)) by lia.
    destruct (Z.eqb_spec (Z.of_nat s) i) as [<-|Hne].
    + change (Qle_bool 1 0) with false. cbv iota.
      rewrite argmax_from_hot. rewrite decide_True by lia. done.
    + change (Qle_bool 0 0) with true. cbv iota.
      rewrite IH by lia. replace (S s + n)%nat with (s + S n)%nat by lia. done.
Qed.

(** The greatest entry of a one-hot row is where the one is. *)
Lemma argmax_one_hot (k i : Z) :
  0 <= i < k -> Train.argmax (Train.one_hot k i) = Some i.
Proof.
  intros Hi. unfold Train.one_hot, Py.range.
  destruct (Z.to_nat k) as [|n] eqn:Hk; [lia|].
  cbn [seq fmap list_fmap Train.argmax]. f_equal.
  change (Z.of_nat 0) with 0.
  destruct (Z.eqb_spec 0 i) as [<-|Hne].
  - apply (argmax_from_hot 0 0 n 1%nat).
  - pose proof (argmax_from_cold i 0 n 1%nat ltac:(lia)) as Hcold.
    rewrite decide_True in Hcold by lia. exact Hcold.
Qed.

(** [to_categorical] on class numbers that are within the width. *)
Lemma to_categorical_in_range (y : list Z) (k : Z) :
  0 < k -> Forall (fun i => 0 <= i < k) y ->
  Train.to_categorical y k = Train.Returns (Train.one_hot k <$> y).
Proof.
  intros Hk Hy. unfold Train.to_categorical.
  destruct (Z.eqb_spec k 0); [lia|]. destruct (Z.ltb_spec k 0); [lia|].
  apply comprehension_Returns. apply Forall2_fmap_r, Forall_Forall2_diag.
  eapply Forall_impl; [exact Hy|]. intros i Hi. simpl in Hi |- *.
  destruct (Z.leb_spec (- k) i); [|lia]. destruct (Z.ltb_spec i k); [|lia].
  simpl. by rewrite Z.mod_small.
Qed.

(** ** load_data *)

Lemma logged_bind_lift_Returns {X Y} (x : X) (k : X -> Train.Logged Y) :
  Train.lift (Train.Returns x) ≫= k = k x.
Proof.
  unfold mbind, Train.Logged_bind, Train.logged_bind, Train.lift.
  by destruct (k x).
Qed.

Lemma logged_bind_Returns {X Y} (x : X) (log : list string)
    (k : X -> Train.Logged Y) :
  (Train.Returns x, log) ≫= k = ((k x).1, log ++ (k x).2).
Proof.
  unfold mbind, Train.Logged_bind, Train.logged_bind. by destruct (k x).
Qed.

Lemma logged_bind_lift_Raises {X Y} (e : Train.error)
    (k : X -> Train.Logged Y) :
  Train.lift (Train.Raises e) ≫= k = (Train.Raises e, []).
Proof. done. Qed.

Lemma logged_bind_ret {X Y} (x : X) (k : X -> Train.Logged Y) :
  mret x ≫= k = k x.
Proof. apply logged_bind_lift_Returns. Qed.

Lemma logged_bind_info {Y} (msg : string) (k : unit -> Train.Logged Y) :
  Train.logger_info msg ≫= k = ((k tt).1, msg :: (k tt).2).
Proof.
  unfold mbind, Train.Logged_bind, Train.logged_bind, Train.logger_info.
  by destruct (k tt).
Qed.

Lemma StronglySorted_lookup {A} (R : A -> A -> Prop) (l : list A) :
  StronglySorted R l ->
  forall (i j : nat) (a b : A),
    (i < j)%nat -> l !! i = Some a -> l !! j = Some b -> R a b.
Proof.
  induction 1 as [|x l Hl IH Hx]; intros i j a b Hij Hi Hj; [done|].
  destruct j as [|j]; [lia|]. simpl in Hj. destruct i as [|i].
  - injection Hi as <-. rewrite Forall_forall in Hx. apply Hx.
    by eapply list_elem_of_lookup_2.
  - simpl in Hi. apply (IH i j); [lia | done | done].
Qed.

(** The two columns of a file in which every line has a space: the class
    is what stands before the first space of the line, the text is all
    that follows it. *)
Lemma load_data_columns (content : string) :
  content <> "" ->
  Forall (fun line => " "%char ∈ Py.chars line) (Py.readlines content) ->
  exists pairs : list (string * string),
    pairs <> [] /\
    Forall2 (fun line '(cls, text) =>
               line = cls +:+ " " +:+ text /\ (" "%char ∉ Py.chars cls))
      (Py.readlines content) pairs /\
    Train.unpack2 (Train.zip_star (Train.split1 <$> Py.readlines content))
    = Train.Returns (pairs.*1, pairs.*2).
Proof.
  intros Hcontent Hall.
  pose proof (readlines_nonempty content Hcontent) as Hne.
  revert Hne Hall. generalize (Py.readlines content). intros lines Hne Hall.
  assert (exists pairs : list (string * string),
            Forall2 (fun line '(cls, text) =>
                       line = cls +:+ " " +:+ text /\
                       (" "%char ∉ Py.chars cls))
              lines pairs /\
            Train.split1 <$> lines
            = (fun p => [p.1; p.2]) <$> pairs) as (pairs & Hrel & Hsplit).
  { clear Hne. induction Hall as [|line lines' Hline Hall' IH].
    - by exists [].
    - destruct IH as (pairs & Hrel & Hsplit). destruct (split1_spec line) as [[Hno _] | (cls & text & -> & Hcls & Hs)];
        [done|].
      exists ((cls, text) :: pairs). split; [by constructor|].
      by rewrite !fmap_cons, Hs, Hsplit. }
  exists pairs. assert (pairs <> []) as Hpairs.
  { intros ->. apply Forall2_nil_inv_r in Hrel. done. }
  split; [done|]. split; [done|].
  by rewrite Hsplit, zip_star_pairs.
Qed.

Lemma load_data_lookups (d : gmap string Z) (classes : list string) :
  Forall (fun cls => is_Some (d !! cls)) classes ->
  exists y : list Z,
    Train.comprehension
      (fun cls => Train.or_raises (Train.KeyError cls) (d !! cls)) classes
    = Train.Returns y /\
    Forall2 (fun cls i => d !! cls = Some i) classes y.
Proof.
  intros Hall.
  assert (exists y, Forall2 (fun cls i => d !! cls = Some i) classes y)
    as [y Hy].
  { induction Hall as [|cls classes' [i Hi] Hall' IH]; [by exists []|].
    destruct IH as [y IH]. exists (i :: y). by constructor. }
  exists y. split; [|done]. apply comprehension_Returns.
  eapply Forall2_impl; [exact Hy|]. intros cls i Hi. simpl in Hi.
  by rewrite Hi.
Qed.

(** The log of a verbose call. *)
Lemma load_data_verbose_log (verbose : bool) (d : gmap string Z)
    (labels : list (list Q)) :
  (if verbose then
     _ ← Train.logger_info "Class statistics";
     _ ← Train.logger_info ("Found " +:+ Py.fmt_d (Z.of_nat (size d))
                              +:+ " classes");
     Train.logger_info ("Labels shape: (" +:+ Py.fmt_d (Train.shape2 labels).1
                          +:+ ", " +:+ Py.fmt_d (Train.shape2 labels).2 +:+ ")")
   else mret tt)
  = (Train.Returns tt,
     if verbose then
       ["Class statistics";
        "Found " +:+ Py.fmt_d (Z.of_nat (size d)) +:+ " classes";
        "Labels shape: (" +:+ Py.fmt_d (Train.shape2 labels).1
          +:+ ", " +:+ Py.fmt_d (Train.shape2 labels).2 +:+ ")"]
     else []).
Proof. by destruct verbose. Qed.

(** The class statistics of a list of classes, and the numbers given to
    the classes. *)
Lemma class_statistics (classes : list string) :
  let stats := Train.most_common (Train.Counter classes) in
  let d := Train.index_classes stats in
  NoDup stats.*1 /\
  (forall cls n, (cls, n) ∈ stats
                 <-> cls ∈ classes /\ n = occurrences cls classes) /\
  StronglySorted (fun a b => b.2 <= a.2) stats /\
  (forall cls v, d !! cls = Some v
                 <-> exists i : nat, stats.*1 !! i = Some cls /\ v = Z.of_nat i) /\
  size d = length stats /\
  (forall cls, is_Some (d !! cls) <-> cls ∈ classes).
Proof.
  intros stats d.
  destruct (most_common_spec (Train.Counter classes)) as [Hperm Hsorted].
  fold stats in Hperm, Hsorted.
  destruct (Counter_spec classes) as (Hnd & Hkeys & Hcount).
  assert (Hnd' : NoDup stats.*1) by (by rewrite Hperm).
  destruct (index_classes_spec stats Hnd') as [Hlook Hsize]. fold d in Hlook, Hsize.
  split; [done|]. split; [|split; [done|split; [done|split; [done|]]]].
  - intros cls n. rewrite Hperm, (count_of_elem _ _ _ Hnd), Hkeys, Hcount.
    split; intros [? ?]; by split.
  - intros cls. rewrite <- Hkeys, <- Hperm. split.
    + intros [v Hv]. apply Hlook in Hv as (i & Hi & _).
      by eapply list_elem_of_lookup_2.
    + intros Hin. apply list_elem_of_lookup in Hin as [i Hi].
      exists (Z.of_nat i). apply Hlook. by exists i.
Qed.

Lemma load_data_train_full (files : gmap string string)
    (data_path content : string) (verbose : bool) :
  files !! data_path = Some content ->
  content <> "" ->
  Forall (fun line => " "%char ∈ Py.chars line) (Py.readlines content) ->
  exists (pairs : list (string * string)) (y : list Z),
    let stats := Train.most_common (Train.Counter pairs.*1) in
    let d := Train.index_classes stats in
    pairs <> [] /\
    Forall2 (fun line '(cls, text) =>
               line = cls +:+ " " +:+ text /\ (" "%char ∉ Py.chars cls))
      (Py.readlines content) pairs /\
    Forall2 (fun cls i => d !! cls = Some i) pairs.*1 y /\
    Train.load_data files data_path verbose None
    = (Train.Returns (pairs.*2, Train.one_hot (Z.of_nat (size d)) <$> y, d),
       "Filtering classes" ::
       (if verbose then
          ["Class statistics";
           "Found " +:+ Py.fmt_d (Z.of_nat (size d)) +:+ " classes";
           "Labels shape: (" +:+ Py.fmt_d (Py.len pairs) +:+ ", "
             +:+ Py.fmt_d (Z.of_nat (size d)) +:+ ")"]
        else [])).
Proof.
  intros Hfile Hcontent Hall.
  destruct (load_data_columns content Hcontent Hall)
    as (pairs & Hpairs & Hrel & Hcols).
  destruct (class_statistics pairs.*1)
    as (Hnd & Hstats & Hsorted & Hlook & Hsize & Hdom).
  set (stats := Train.most_common (Train.Counter pairs.*1)) in *.
  set (d := Train.index_classes stats) in *.
  destruct (load_data_lookups d pairs.*1) as (y & Hy & Hids).
  { apply Forall_forall. intros cls Hcls. by apply Hdom. }
  assert (Hrange : Forall (fun i => 0 <= i < Z.of_nat (size d)) y).
  { apply Forall_forall. intros i Hi.
    apply list_elem_of_lookup in Hi as [j Hj].
    destruct (Forall2_lookup_r _ _ _ _ _ Hids Hj) as (cls & _ & Hcls).
    apply Hlook in Hcls as (m & Hm & ->).
    apply lookup_lt_Some in Hm. rewrite length_fmap in Hm. lia. }
  assert (Hk : 0 < Z.of_nat (size d)).
  { destruct pairs as [|[cls text] pairs']; [done|].
    assert (is_Some (d !! cls)) as [v Hv] by (apply Hdom; left).
    apply Hlook in Hv as (m & Hm & _).
    apply lookup_lt_Some in Hm. rewrite length_fmap in Hm. lia. }
  exists pairs, y. split; [done|]. split; [done|]. split; [done|].
  unfold Train.load_data. rewrite Hfile. cbn [Train.or_raises].
  rewrite logged_bind_lift_Returns, Hcols, logged_bind_lift_Returns.
  rewrite logged_bind_info.
  cbn [mret Train.Logged_ret Train.logged_ret fst snd].
  rewrite logged_bind_Returns. fold stats. fold d.
  rewrite Hy, logged_bind_lift_Returns.
  rewrite (to_categorical_in_range _ _ Hk Hrange), logged_bind_lift_Returns.
  rewrite load_data_verbose_log.
  unfold mbind, Train.Logged_bind, Train.logged_bind.
  cbn [mret Train.Logged_ret Train.logged_ret fst snd app].
  f_equal. f_equal.
  assert (Hshape : Train.shape2 (Train.one_hot (Z.of_nat (size d)) <$> y)
                   = (Py.len pairs, Z.of_nat (size d))).
  { unfold Train.shape2. f_equal.
    - unfold Py.len. rewrite length_fmap.
      apply Forall2_length in Hids. rewrite length_fmap in Hids. lia.
    - destruct y as [|i y'].
      + apply Forall2_nil_inv_r in Hids. by destruct pairs.
      + rewrite fmap_cons, one_hot_length. lia. }
  rewrite Hshape. by destruct verbose.
Qed.

Lemma load_data_test_full (files : gmap string string)
    (data_path content : string) (verbose : bool) (d : gmap string Z) :
  files !! data_path = Some content ->
  content <> "" ->
  Forall (fun line => " "%char ∈ Py.chars line) (Py.readlines content) ->
  (forall cls i, d !! cls = Some i -> 0 <= i < Z.of_nat (size d)) ->
  exists pairs : list (string * string),
    let kept := filter (fun '(cls, text) => is_Some (d !! cls)) pairs in
    Forall2 (fun line '(cls, text) =>
               line = cls +:+ " " +:+ text /\ (" "%char ∉ Py.chars cls))
      (Py.readlines content) pairs /\
    if decide (kept = []) then
      Train.load_data files data_path verbose (Some d)
      = (Train.Raises Train.ValueError, [])
    else
      exists y : list Z,
        Forall2 (fun '(cls, text) i => d !! cls = Some i) kept y /\
        Train.load_data files data_path verbose (Some d)
        = (Train.Returns
             (kept.*2, Train.one_hot (Z.of_nat (size d)) <$> y, d),
           if verbose then
             ["Class statistics";
              "Found " +:+ Py.fmt_d (Z.of_nat (size d)) +:+ " classes";
              "Labels shape: (" +:+ Py.fmt_d (Py.len kept) +:+ ", "
                +:+ Py.fmt_d (Z.of_nat (size d)) +:+ ")"]
           else []).
Proof.
  intros Hfile Hcontent Hall Hrange.
  destruct (load_data_columns content Hcontent Hall)
    as (pairs & Hpairs & Hrel & Hcols).
  exists pairs. intros kept. split; [done|].
  assert (Hstart :
    Train.load_data files data_path verbose (Some d)
    = ('(classes, texts) ←
         Train.lift (Train.unpack2 (Train.zip_star
           ((fun p : string * string => [p.1; p.2]) <$> kept)));
       y ← Train.lift (Train.comprehension
              (fun cls => Train.or_raises (Train.KeyError cls) (d !! cls))
              classes);
       labels ← Train.lift (Train.to_categorical y (Z.of_nat (size d)));
       _ ← (if verbose then
              _ ← Train.logger_info "Class statistics";
              _ ← Train.logger_info
                    ("Found " +:+ Py.fmt_d (Z.of_nat (size d)) +:+ " classes");
              Train.logger_info
                ("Labels shape: (" +:+ Py.fmt_d (Train.shape2 labels).1
                   +:+ ", " +:+ Py.fmt_d (Train.shape2 labels).2 +:+ ")")
            else mret tt);
       mret (texts, labels, d))).
  { unfold Train.load_data. rewrite Hfile. cbn [Train.or_raises].
    rewrite logged_bind_lift_Returns, Hcols, logged_bind_lift_Returns.
    rewrite zip_fst_snd. fold kept.
    assert ((fun '(cls, text) => [cls; text]) <$> kept
            = (fun p : string * string => [p.1; p.2]) <$> kept) as ->
      by (apply list_fmap_ext; by intros _ [cls text] _).
    destruct (Train.unpack2 (Train.zip_star
                ((fun p : string * string => [p.1; p.2]) <$> kept)))
      as [[classes texts]|e].
    - rewrite !logged_bind_lift_Returns. by rewrite logged_bind_ret.
    - by rewrite !logged_bind_lift_Raises. }
  rewrite Hstart. clear Hstart.
  destruct (decide (kept = [])) as [Hnil|Hkept].
  - rewrite Hnil. done.
  - rewrite zip_star_pairs by done. cbn [Train.unpack2].
    rewrite logged_bind_lift_Returns.
    destruct (load_data_lookups d kept.*1) as (y & Hy & Hids).
    { apply Forall_fmap, Forall_forall. intros [cls text] Hin.
      by apply list_elem_of_filter in Hin as [? _]. }
    assert (Hin_range : Forall (fun i => 0 <= i < Z.of_nat (size d)) y).
    { apply Forall_forall. intros i Hi.
      apply list_elem_of_lookup in Hi as [j Hj].
      destruct (Forall2_lookup_r _ _ _ _ _ Hids Hj) as (cls & _ & Hcls).
      by eapply Hrange. }
    assert (Hk : 0 < Z.of_nat (size d)).
    { destruct kept as [|[cls text] kept'] eqn:Heq; [done|].
      apply Forall2_cons_inv_l in Hids as (i & y' & Hi & _ & ->).
      apply Hrange in Hi. lia. }
    exists y. split.
    { apply Forall2_fmap_l in Hids. eapply Forall2_impl; [exact Hids|].
      by intros [cls text] i. }
    rewrite Hy, logged_bind_lift_Returns.
    rewrite (to_categorical_in_range _ _ Hk Hin_range), logged_bind_lift_Returns.
    rewrite load_data_verbose_log.
    unfold mbind, Train.Logged_bind, Train.logged_bind.
    cbn [mret Train.Logged_ret Train.logged_ret fst snd app].
    f_equal.
    assert (Hshape : Train.shape2 (Train.one_hot (Z.of_nat (size d)) <$> y)
                     = (Py.len kept, Z.of_nat (size d))).
    { unfold Train.shape2. f_equal.
      - unfold Py.len. rewrite length_fmap.
        apply Forall2_length in Hids. rewrite length_fmap in Hids. lia.
      - destruct y as [|i y'].
        + apply Forall2_nil_inv_r in Hids. by destruct kept.
        + rewrite fmap_cons, one_hot_length. lia. }
    rewrite Hshape. destruct verbose; by rewrite ?app_nil_r.
Qed.

(** X13.  Reading the training file.  When every line of the file has a space,
    [load_data] without a class dictionary cuts each line at its first
    space into the class and the text (which keeps its newline), returns
    the texts in the order of the file, gives a number to exactly the
    classes that occur, and labels each line with the one-hot row of the
    number of its class, as wide as there are classes.  It logs
    "Filtering classes" and, when verbose, the number of classes and the
    shape of the labels. *)
Theorem load_data_train (files : gmap string string)
    (data_path content : string) (verbose : bool) :
  files !! data_path = Some content ->
  content <> "" ->
  Forall (fun line => " "%char ∈ Py.chars line) (Py.readlines content) ->
  exists (pairs : list (string * string)) (labels : list (list Q))
         (class_to_id : gmap string Z),
    let k := Z.of_nat (size class_to_id) in
    Train.load_data files data_path verbose None
    = (Train.Returns (pairs.*2, labels, class_to_id),
       "Filtering classes" ::
       (if verbose then
          ["Class statistics";
           "Found " +:+ Py.fmt_d k +:+ " classes";
           "Labels shape: (" +:+ Py.fmt_d (Py.len (Py.readlines content))
             +:+ ", " +:+ Py.fmt_d k +:+ ")"]
        else [])) /\
    Forall2 (fun line '(cls, text) =>
               line = cls +:+ " " +:+ text /\ (" "%char ∉ Py.chars cls))
      (Py.readlines content) pairs /\
    (forall cls, is_Some (class_to_id !! cls) <-> cls ∈ pairs.*1) /\
    Forall2 (fun '(cls, text) row =>
               exists i, class_to_id !! cls = Some i /\
                         row = Train.one_hot k i)
      pairs labels.
Proof.
  intros Hfile Hcontent Hall.
  destruct (load_data_train_full files data_path content verbose
              Hfile Hcontent Hall) as (pairs & y & Hrun).
  cbv zeta in Hrun. destruct Hrun as (Hpairs & Hrel & Hids & Hrun).
  destruct (class_statistics pairs.*1) as (_ & _ & _ & _ & _ & Hdom).
  eexists pairs, _, _. split; [|split; [done|split; [done|]]].
  - rewrite Hrun. do 4 f_equal.
    apply Forall2_length in Hrel. unfold Py.len. by rewrite Hrel.
  - apply Forall2_fmap_l in Hids. apply Forall2_fmap_r.
    eapply Forall2_impl; [exact Hids|]. intros [cls text] i Hi.
    by exists i.
Qed.

(** X14.  The numbers of the classes.  The classes of the training file are
    numbered 0, 1, ..., one number for each class, and a class with a
    smaller number occurs at least as often as one with a greater
    number. *)
Theorem class_ids_by_frequency (files : gmap string string)
    (data_path content : string) (verbose : bool) :
  files !! data_path = Some content ->
  content <> "" ->
  Forall (fun line => " "%char ∈ Py.chars line) (Py.readlines content) ->
  exists (pairs : list (string * string)) (labels : list (list Q))
         (class_to_id : gmap string Z) (log : list string),
    Train.load_data files data_path verbose None
    = (Train.Returns (pairs.*2, labels, class_to_id), log) /\
    Forall2 (fun line '(cls, text) =>
               line = cls +:+ " " +:+ text /\ (" "%char ∉ Py.chars cls))
      (Py.readlines content) pairs /\
    (forall i, (exists cls, class_to_id !! cls = Some i)
               <-> 0 <= i < Z.of_nat (size class_to_id)) /\
    (forall cls cls' i,
       class_to_id !! cls = Some i -> class_to_id !! cls' = Some i ->
       cls = cls') /\
    (forall cls cls' i j,
       class_to_id !! cls = Some i -> class_to_id !! cls' = Some j ->
       i < j ->
       occurrences cls' pairs.*1 <= occurrences cls pairs.*1).
Proof.
  intros Hfile Hcontent Hall.
  destruct (load_data_train_full files data_path content verbose
              Hfile Hcontent Hall) as (pairs & y & Hrun).
  cbv zeta in Hrun. destruct Hrun as (Hpairs & Hrel & Hids & Hrun).
  destruct (class_statistics pairs.*1)
    as (Hnd & Hstats & Hsorted & Hlook & Hsize & Hdom).
  set (stats := Train.most_common (Train.Counter pairs.*1)) in *.
  set (d := Train.index_classes stats) in *.
  exists pairs. eexists _, d, _. split; [exact Hrun|]. split; [done|].
  split; [|split].
  - intros i. rewrite Hsize. split.
    + intros (cls & Hcls). apply Hlook in Hcls as (m & Hm & ->).
      apply lookup_lt_Some in Hm. rewrite length_fmap in Hm. lia.
    + intros Hi. destruct (lookup_lt_is_Some_2 stats.*1 (Z.to_nat i))
        as [cls Hcls]; [rewrite length_fmap; lia|].
      exists cls. apply Hlook. exists (Z.to_nat i). split; [done | lia].
  - intros cls cls' i Hcls Hcls'.
    apply Hlook in Hcls as (m & Hm & ->).
    apply Hlook in Hcls' as (m' & Hm' & Heq).
    assert (m = m') as -> by lia. congruence.
  - intros cls cls' i j Hcls Hcls' Hij.
    apply Hlook in Hcls as (m & Hm & ->).
    apply Hlook in Hcls' as (m' & Hm' & ->).
    rewrite list_lookup_fmap in Hm, Hm'.
    destruct (stats !! m) as [[c n]|] eqn:Hsm; [|done].
    destruct (stats !! m') as [[c' n']|] eqn:Hsm'; [|done].
    injection Hm as ->. injection Hm' as ->.
    pose proof (StronglySorted_lookup _ _ Hsorted m m' _ _ ltac:(lia) Hsm Hsm')
      as Hle. simpl in Hle.
    apply list_elem_of_lookup_2, Hstats in Hsm as [_ ->].
    apply list_elem_of_lookup_2, Hstats in Hsm' as [_ ->]. done.
Qed.

(** X15.  Reading the test file.  With the class dictionary of the training
    data, [load_data] keeps the lines whose class the dictionary knows, in
    the order of the file, and labels each with the one-hot row of the
    number the dictionary gives its class, as wide as the dictionary is
    large; the dictionary is returned as it was.  When the dictionary
    knows the class of no line, the call raises ValueError. *)
Theorem load_data_test (files : gmap string string)
    (data_path content : string) (verbose : bool)
    (class_to_id : gmap string Z) :
  files !! data_path = Some content ->
  content <> "" ->
  Forall (fun line => " "%char ∈ Py.chars line) (Py.readlines content) ->
  (forall cls i, class_to_id !! cls = Some i ->
                 0 <= i < Z.of_nat (size class_to_id)) ->
  exists pairs : list (string * string),
    let kept := filter (fun '(cls, text) => is_Some (class_to_id !! cls))
                  pairs in
    Forall2 (fun line '(cls, text) =>
               line = cls +:+ " " +:+ text /\ (" "%char ∉ Py.chars cls))
      (Py.readlines content) pairs /\
    match kept with
    | [] =>
        Train.load_data files data_path verbose (Some class_to_id)
        = (Train.Raises Train.ValueError, [])
    | _ :: _ =>
        exists (labels : list (list Q)) (log : list string),
          Train.load_data files data_path verbose (Some class_to_id)
          = (Train.Returns (kept.*2, labels, class_to_id), log) /\
          Forall2 (fun '(cls, text) row =>
                     exists i, class_to_id !! cls = Some i /\
                       row = Train.one_hot (Z.of_nat (size class_to_id)) i)
            kept labels
    end.
Proof.
  intros Hfile Hcontent Hall Hrange.
  destruct (load_data_test_full files data_path content verbose class_to_id
              Hfile Hcontent Hall Hrange) as (pairs & Hrun).
  cbv zeta in Hrun. destruct Hrun as [Hrel Hrun].
  exists pairs. split; [done|].
  destruct (filter _ pairs) as [|p kept'] eqn:Hkept.
  - by rewrite decide_True in Hrun.
  - rewrite decide_False in Hrun by done.
    destruct Hrun as (y & Hids & Hrun).
    eexists _, _. split; [exact Hrun|].
    apply Forall2_fmap_r. eapply Forall2_impl; [exact Hids|].
    intros [cls text] i Hi. by exists i.
Qed.

(** X16.  A file that cannot be cut into two columns.  An empty file, or a file
    with a line that has no space, makes [load_data] raise ValueError,
    whatever the other arguments are, and nothing is logged. *)
Theorem load_data_rejects (files : gmap string string)
    (data_path content : string) (verbose : bool)
    (class_to_id : option (gmap string Z)) :
  files !! data_path = Some content ->
  content = "" \/
  Exists (fun line => " "%char ∉ Py.chars line) (Py.readlines content) ->
  Train.load_data files data_path verbose class_to_id
  = (Train.Raises Train.ValueError, []).
Proof.
  intros Hfile Hbad. unfold Train.load_data. rewrite Hfile.
  cbn [Train.or_raises]. rewrite logged_bind_lift_Returns.
  assert (Train.unpack2 (Train.zip_star (Train.split1 <$> Py.readlines content))
          = Train.Raises Train.ValueError) as ->; [|done].
  destruct Hbad as [-> | Hbad]; [done|].
  apply Exists_exists in Hbad as (line & Hline & Hno).
  assert (length (Train.zip_star (Train.split1 <$> Py.readlines content))
          = 1%nat) as Hlen.
  { apply (zip_star_short _ line).
    - apply Forall_fmap, Forall_forall. intros l _. simpl.
      destruct (split1_spec l) as [[_ ->] | (? & ? & _ & _ & ->)]; auto.
    - apply list_elem_of_fmap. exists line. split; [|done].
      destruct (split1_spec line) as [[_ ->] | (cls & text & -> & _ & _)];
        [done|].
      exfalso. apply Hno. rewrite !chars_app. apply elem_of_app. right. left. }
  by destruct (Train.zip_star _) as [|? [|? ?]].
Qed.

(** ** The class weights of the training labels *)

Lemma occurrences_ids (d : gmap string Z) (classes : list string)
    (y : list Z) (cls : string) (i : Z) :
  Forall2 (fun cls i => d !! cls = Some i) classes y ->
  (forall c c' j, d !! c = Some j -> d !! c' = Some j -> c = c') ->
  d !! cls = Some i ->
  occurrences i y = occurrences cls classes.
Proof.
  intros Hids Hinj Hcls. unfold occurrences, Py.len. f_equal.
  induction Hids as [|c j classes y Hc _ IH]; [done|].
  rewrite !filter_cons.
  destruct (decide (j = i)) as [->|Hne].
  - rewrite decide_True by (by eapply Hinj). simpl. by rewrite IH.
  - rewrite decide_False by congruence. done.
Qed.

Lemma ids_elem (d : gmap string Z) (classes : list string) (y : list Z)
    (i : Z) :
  Forall2 (fun cls i => d !! cls = Some i) classes y ->
  i ∈ y <-> exists cls, cls ∈ classes /\ d !! cls = Some i.
Proof.
  intros Hids. split.
  - intros Hi. apply list_elem_of_lookup in Hi as [m Hm].
    destruct (Forall2_lookup_r _ _ _ _ _ Hids Hm) as (cls & Hcls & Hd).
    exists cls. split; [by eapply list_elem_of_lookup_2 | done].
  - intros (cls & Hin & Hd). apply list_elem_of_lookup in Hin as [m Hm].
    destruct (Forall2_lookup_l _ _ _ _ _ Hids Hm) as (j & Hj & Hd').
    assert (j = i) as -> by congruence. by eapply list_elem_of_lookup_2.
Qed.

Lemma argmax_one_hot_rows (k : Z) (y y' : list Z) :
  Forall (fun i => 0 <= i < k) y ->
  Forall2 (fun row c => Train.argmax row = Some c) (Train.one_hot k <$> y) y' ->
  y' = y.
Proof.
  intros Hrange. revert y'.
  induction Hrange as [|i y Hi _ IH]; intros y' Hcl.
  - by apply Forall2_nil_inv_l in Hcl.
  - rewrite fmap_cons in Hcl.
    apply Forall2_cons_inv_l in Hcl as (c & y'' & Hc & Hcl & ->).
    rewrite argmax_one_hot in Hc by done. injection Hc as <-.
    by rewrite (IH _ Hcl).
Qed.

(** X17.  The weights [main] computes from the labels of the training file when
    [--class-weight] is given: there is one weight for each class number,
    and the weight of a class is the least whole number of times the
    class has to be counted to reach the class with the most lines. *)
Theorem class_weights_of_training_labels (files : gmap string string)
    (data_path content : string) (verbose : bool) :
  files !! data_path = Some content ->
  content <> "" ->
  Forall (fun line => " "%char ∈ Py.chars line) (Py.readlines content) ->
  exists (pairs : list (string * string)) (labels : list (list Q))
         (class_to_id : gmap string Z) (log : list string)
         (weights : gmap Z Z),
    let lines_of := fun cls => occurrences cls pairs.*1 in
    Train.load_data files data_path verbose None
    = (Train.Returns (pairs.*2, labels, class_to_id), log) /\
    Forall2 (fun line '(cls, text) =>
               line = cls +:+ " " +:+ text /\ (" "%char ∉ Py.chars cls))
      (Py.readlines content) pairs /\
    Train.get_class_weights labels = Train.Returns weights /\
    (forall i, is_Some (weights !! i)
               <-> exists cls, class_to_id !! cls = Some i) /\
    (forall cls i, class_to_id !! cls = Some i ->
       exists w, weights !! i = Some w /\
         (forall cls', lines_of cls' <= w * lines_of cls) /\
         (exists cls', (w - 1) * lines_of cls < lines_of cls')).
Proof.
  intros Hfile Hcontent Hall.
  destruct (load_data_train_full files data_path content verbose
              Hfile Hcontent Hall) as (pairs & y & Hrun).
  cbv zeta in Hrun. destruct Hrun as (Hpairs & Hrel & Hids & Hrun).
  destruct (class_statistics pairs.*1)
    as (Hnd & Hstats & Hsorted & Hlook & Hsize & Hdom).
  set (stats := Train.most_common (Train.Counter pairs.*1)) in *.
  set (d := Train.index_classes stats) in *.
  set (k := Z.of_nat (size d)) in *.
  assert (Hinj : forall c c' j, d !! c = Some j -> d !! c' = Some j -> c = c').
  { intros c c' j Hc Hc'. apply Hlook in Hc as (m & Hm & ->).
    apply Hlook in Hc' as (m' & Hm' & Heq).
    assert (m = m') as -> by lia. congruence. }
  assert (Hrange : Forall (fun i => 0 <= i < k) y).
  { apply Forall_forall. intros i Hi.
    apply (ids_elem d _ _ _ Hids) in Hi as (cls & _ & Hcls).
    apply Hlook in Hcls as (m & Hm & ->).
    apply lookup_lt_Some in Hm. rewrite length_fmap in Hm. unfold k. lia. }
  assert (Hy : y <> []).
  { intros ->. apply Forall2_nil_inv_r in Hids. by destruct pairs. }
  destruct (get_class_weights_counts (Train.one_hot k <$> y))
    as (y' & majority & weights & Hcl & Hw & [im Him] & Hle & Hweights).
  { by destruct y. }
  { apply Forall_fmap. eapply Forall_impl; [exact Hrange|].
    intros i Hi. simpl in Hi |- *. intros Hnil.
    apply (f_equal Py.len) in Hnil. rewrite one_hot_length in Hnil.
    unfold Py.len in Hnil. simpl in Hnil. lia. }
  apply argmax_one_hot_rows in Hcl as ->; [|done].
  exists pairs, (Train.one_hot k <$> y), d. eexists _, weights.
  split; [exact Hrun|]. split; [done|]. split; [done|].
  assert (Hocc : forall cls i, d !! cls = Some i ->
            occurrences i y = occurrences cls pairs.*1)
    by (intros cls i; by apply occurrences_ids).
  assert (Hmaj : exists cm, occurrences cm pairs.*1 = majority).
  { assert (im ∈ y) as Hin.
    { apply occurrences_pos. destruct y as [|i0 y0]; [done|].
      assert (0 < occurrences i0 (i0 :: y0))
        by (apply occurrences_pos; left).
      pose proof (Hle i0). lia. }
    apply (ids_elem d _ _ _ Hids) in Hin as (cm & _ & Hcm).
    exists cm. by rewrite <- (Hocc cm im Hcm). }
  assert (Hall_le : forall cls, occurrences cls pairs.*1 <= majority).
  { intros cls. destruct (decide (cls ∈ pairs.*1)) as [Hin|Hout].
    - apply Hdom in Hin as [j Hj]. rewrite <- (Hocc cls j Hj). apply Hle.
    - assert (~ 0 < occurrences cls pairs.*1) by (by rewrite occurrences_pos).
      destruct Hmaj as [cm <-].
      assert (0 <= occurrences cm pairs.*1) by (unfold occurrences, Py.len; lia).
      lia. }
  split.
  - intros i. rewrite Hweights. destruct (decide (i ∈ y)) as [Hin|Hout].
    + split; [|by intros _; eexists]. intros _.
      apply (ids_elem d _ _ _ Hids) in Hin as (cls & _ & Hcls). by exists cls.
    + split; [by intros [? ?]|]. intros [cls Hcls]. exfalso. apply Hout.
      apply (ids_elem d _ _ _ Hids). exists cls. split; [|done].
      apply Hdom. by eexists.
  - intros cls i Hcls. rewrite Hweights.
    assert (i ∈ y) as Hin.
    { apply (ids_elem d _ _ _ Hids). exists cls. split; [|done].
      apply Hdom. by eexists. }
    rewrite decide_True by done. eexists. split; [reflexivity|].
    pose proof (proj2 (occurrences_pos y i) Hin) as Hpos.
    destruct (ceiling_quotient majority (occurrences i y) Hpos) as [Hup Hlow].
    rewrite (Hocc cls i Hcls) in *. split.
    + intros cls'. pose proof (Hall_le cls'). lia.
    + destruct Hmaj as [cm Hcm]. exists cm. by rewrite Hcm.
Qed.

(** ** process_data *)

Section ProcessData.
Context {Tok : Type} `{Train.Keras Tok}.

(** X18.  The token matrix of the training script: one row for each text, all of
    width [maxlen], holding the first [maxlen] tokens of the text and
    filled with zeros at the end.  The tokenizer returned is the one given,
    or else one fitted on these very texts. *)
Theorem process_data_rows (texts : list string) (num_words maxlen : Z)
    (tokenizer : option Tok) :
  0 <= maxlen ->
  let tok := default (Train.fit_on_texts num_words texts) tokenizer in
  exists data : list (list Z),
    Train.process_data texts num_words maxlen tokenizer
    = Train.Returns (data, tok) /\
    Py.len data = Py.len texts /\
    forall (i : nat) (text : string),
      texts !! i = Some text ->
      exists row : list Z,
        data !! i = Some row /\ Py.len row = maxlen /\
        row = take (Z.to_nat maxlen) (Train.text_to_sequence tok text)
              ++ replicate
                   (Z.to_nat maxlen
                    - length (Train.text_to_sequence tok text)) 0.
Proof.
  intros Hm tok. unfold Train.process_data.
  destruct (Z.ltb_spec maxlen 0); [lia|].
  assert ((match tokenizer with
           | Some tokenizer => tokenizer
           | None => Train.fit_on_texts num_words texts
           end) = tok) as -> by (by destruct tokenizer).
  eexists. split; [reflexivity|]. unfold GraphLoad.pad_sequences, Py.len.
  split; [by rewrite !length_fmap|].
  intros i text Hi. rewrite !list_lookup_fmap, Hi. simpl.
  eexists. split; [reflexivity|].
  split; [rewrite pad_post_length by done; lia | by apply pad_post_spec].
Qed.

End ProcessData.

(** X19.  Training and inference build the same rows: for a tokenizer and a
    positive length, the token matrix [Model.embed] feeds the network is
    the matrix [process_data] makes of the same texts. *)
Theorem process_data_as_embed {T} `{Embedding T} {Tok} `{Train.Keras Tok}
    (network : list Z -> T) (tok : Tok) (texts : list string)
    (num_words maxlen : Z) :
  0 < maxlen ->
  exists data : list (list Z),
    Train.process_data texts num_words maxlen (Some tok)
    = Train.Returns (data, tok) /\
    GraphLoad.token_matrix
      {| GraphLoad.Y := network;
         GraphLoad.tokenizer := Train.text_to_sequence tok;
         GraphLoad.maxlen := maxlen |}
      (GraphLoad.Many texts)
    = Ok data.
Proof.
  intros Hm. unfold Train.process_data.
  destruct (Z.ltb_spec maxlen 0); [lia|].
  eexists. split; [reflexivity|].
  unfold GraphLoad.token_matrix. cbn [GraphLoad.tokenizer GraphLoad.maxlen].
  apply reshape_rows_id; [done|].
  unfold GraphLoad.pad_sequences. rewrite Forall_fmap.
  apply Forall_true. intros s. simpl. apply pad_post_length. lia.
Qed.

(** ** load_glove_embeddings *)

Section Glove.
Context `{Train.Glove}.

(** The vector the file lists last for a word. *)
Lemma last_listing (entries : list (string * list Q))
    (index : gmap string (list Q)) (word : string) :
  foldl (fun index '(w, v) => <[w := v]> index) index entries !! word
  = match last (filter (fun e => e.1 = word) entries) with
    | Some e => Some e.2
    | None => index !! word
    end.
Proof.
  revert index. induction entries as [|[w v] entries IH] using rev_ind;
    intros index.
  - by rewrite filter_nil.
  - rewrite foldl_app, filter_app. cbn [foldl].
    rewrite filter_cons, filter_nil. cbn [fst].
    destruct (decide (w = word)) as [->|Hne].
    + rewrite last_snoc. cbn [snd]. by rewrite lookup_insert_eq.
    + rewrite app_nil_r, lookup_insert_ne by done. apply IH.
Qed.

Lemma read_vectors_spec (lines : list string)
    (entries : list (string * list Q)) :
  Forall2 (fun line '(word, v) =>
             exists rest, Train.split1 line = [word; rest] /\
                          Train.coefficients rest = Some v) lines entries ->
  forall (index : gmap string (list Q)) (coefs : option (list Q)),
    Train.read_vectors lines index coefs
    = Train.Returns
        (foldl (fun index '(w, v) => <[w := v]> index) index entries,
         match last entries with Some e => Some e.2 | None => coefs end).
Proof.
  induction 1 as [|line [word v] lines entries (rest & Hsplit & Hv) _ IH];
    intros index coefs; [done|].
  cbn [Train.read_vectors]. rewrite Hsplit. cbn [Train.unpack2].
  rewrite Hv, IH. cbn [foldl]. do 2 f_equal.
  clear. destruct entries as [|e entries']; [reflexivity|].
  rewrite last_cons_cons.
  destruct (last (e :: entries')) eqn:Hlast; [done|].
  by apply last_None in Hlast.
Qed.

Lemma set_row_fits (matrix : list (list Q)) (ncols i : Z) (v : list Q) :
  0 <= i < Py.len matrix -> Py.len v = ncols ->
  Train.set_row matrix ncols i v
  = Train.Returns (<[Z.to_nat i := v]> matrix).
Proof.
  intros Hi Hv. unfold Train.set_row.
  destruct (Z.leb_spec (- Py.len matrix) i); [|lia].
  destruct (Z.ltb_spec i (Py.len matrix)); [|lia]. cbn [andb].
  destruct (Z.eqb_spec (Py.len v) ncols); [|done].
  by rewrite Z.mod_small.
Qed.

Lemma fill_matrix_spec (index : gmap string (list Q)) (ncols : Z)
    (items : list (string * Z)) :
  NoDup items.*2 ->
  (forall word v, index !! word = Some v -> Py.len v = ncols) ->
  forall matrix : list (list Q),
    Forall (fun '(word, i) => 0 <= i < Py.len matrix) items ->
    exists matrix' : list (list Q),
      Train.fill_matrix items index ncols matrix = Train.Returns matrix' /\
      length matrix' = length matrix /\
      (forall word i row,
         (word, i) ∈ items -> matrix !! Z.to_nat i = Some row ->
         matrix' !! Z.to_nat i = Some (default row (index !! word))) /\
      (forall j : nat,
         (forall word i, (word, i) ∈ items -> Z.to_nat i <> j) ->
         matrix' !! j = matrix !! j).
Proof.
  intros Hnd Hwidth. induction items as [|[word i] items IH];
    intros matrix Hrange.
  - exists matrix. split; [done|]. split; [done|]. split; [|done].
    by intros ? ? ? ?%elem_of_nil.
  - rewrite fmap_cons in Hnd. apply NoDup_cons in Hnd as [Hi Hnd].
    apply Forall_cons in Hrange as [Hirange Hrange].
    cbn [Train.fill_matrix].
    set (matrix1 := match index !! word with
                    | Some v => <[Z.to_nat i := v]> matrix
                    | None => matrix
                    end).
    assert (Hlen1 : length matrix1 = length matrix).
    { unfold matrix1. destruct (index !! word); [|done].
      by rewrite length_insert. }
    destruct (IH Hnd matrix1) as (matrix' & Hrun & Hlen & Hitems & Hother).
    { eapply Forall_impl; [exact Hrange|]. intros [w j]. unfold Py.len.
      by rewrite Hlen1. }
    exists matrix'. split; [|split; [congruence|split]].
    + unfold matrix1 in Hrun. destruct (index !! word) as [v|] eqn:Hword;
        [|done].
      rewrite set_row_fits by (try done; by eapply Hwidth). done.
    + intros w j row Hin Hrow. apply elem_of_cons in Hin as [[= -> ->] | Hin].
      * rewrite Hother.
        -- unfold matrix1. destruct (index !! word) as [v|]; [|done].
           rewrite list_lookup_insert_eq; [done|].
           by apply lookup_lt_Some in Hrow.
        -- intros w' j' Hin' Heq. apply Hi.
           apply list_elem_of_fmap. exists (w', j'). split; [|done].
           assert (0 <= j' < Py.len matrix) as Hj'.
           { rewrite Forall_forall in Hrange. by apply (Hrange (w', j')). }
           simpl. lia.
      * apply Hitems; [done|]. unfold matrix1.
        destruct (index !! word) as [v|]; [|done].
        rewrite list_lookup_insert_ne; [done|].
        intros Heq. apply Hi. apply list_elem_of_fmap. exists (w, j).
        split; [|done].
        assert (0 <= j < Py.len matrix) as Hj.
        { rewrite Forall_forall in Hrange. by apply (Hrange (w, j)). }
        simpl. lia.
    + intros j Hj. rewrite Hother.
      * unfold matrix1. destruct (index !! word) as [v|]; [|done].
        rewrite list_lookup_insert_ne; [done|].
        apply (Hj word i). left.
      * intros w' j' Hin'. apply (Hj w' j'). by right.
Qed.

(** X20.  The embedding matrix.  When every line of the GloVe file is a word, a
    space and [ncols] numbers, and the words of the vocabulary are numbered
    1, 2, ... without repetition, the layer has one row more than there
    are words and [ncols] columns; the row of a word is the vector the
    file lists for it, the last one if it lists several, and all zeros if
    it lists none; row 0 is all zeros. *)
Theorem load_glove_matrix (files : gmap string string)
    (embedding_path content : string) (entries : list (string * list Q))
    (ncols : Z) (word_index : list (string * Z)) (max_sequence : Z)
    (trainable : bool) :
  files !! embedding_path = Some content ->
  entries <> [] ->
  Forall2 (fun line '(word, v) =>
             exists rest, line = word +:+ " " +:+ rest /\
               (" "%char ∉ Py.chars word) /\
               Train.coefficients rest = Some v /\ Py.len v = ncols)
    (Py.readlines content) entries ->
  NoDup word_index.*2 ->
  Forall (fun '(word, i) => 1 <= i <= Py.len word_index) word_index ->
  let zeros := replicate (Z.to_nat ncols) 0%Q in
  let listed := fun word =>
    snd <$> last (filter (fun e => e.1 = word) entries) in
  exists layer : Train.EmbeddingLayer,
    Train.load_glove_embeddings files embedding_path word_index max_sequence
      trainable = Train.Returns layer /\
    Train.input_dim layer = Py.len word_index + 1 /\
    Train.output_dim layer = ncols /\
    Train.input_length layer = max_sequence /\
    Train.trainable layer = trainable /\
    Py.len (Train.weights layer) = Py.len word_index + 1 /\
    Train.weights layer !! 0%nat = Some zeros /\
    (forall word i, (word, i) ∈ word_index ->
       Train.weights layer !! Z.to_nat i
       = Some (default zeros (listed word))).
Proof.
  intros Hfile Hne Hlines Hnd Hrange zeros listed.
  unfold Train.load_glove_embeddings. rewrite Hfile.
  rewrite (read_vectors_spec _ entries).
  2:{ eapply Forall2_impl; [exact Hlines|].
      intros line [word v] (rest & -> & Hword & Hv & _). exists rest.
      split; [by apply split1_head | done]. }
  set (index := foldl _ ∅ entries).
  assert (Hindex : forall word, index !! word = listed word).
  { intros word. unfold index, listed. rewrite last_listing, lookup_empty.
    by destruct (last _). }
  assert (Hwidth : forall word v, index !! word = Some v -> Py.len v = ncols).
  { intros word v. rewrite Hindex. unfold listed.
    destruct (last _) as [[w v']|] eqn:Hlast; [|done]. intros [= <-].
    apply last_Some_elem_of, list_elem_of_filter in Hlast as [_ Hin].
    apply list_elem_of_lookup in Hin as [m Hm].
    destruct (Forall2_lookup_r _ _ _ _ _ Hlines Hm)
      as (line & _ & rest & _ & _ & _ & Hlen). done. }
  destruct (last entries) as [[w coefs]|] eqn:Hlast.
  2:{ apply last_None in Hlast. done. }
  cbn [snd].
  assert (Hcoefs : Py.len coefs = ncols).
  { apply last_Some_elem_of, list_elem_of_lookup in Hlast as [m Hm].
    destruct (Forall2_lookup_r _ _ _ _ _ Hlines Hm)
      as (line & _ & rest & _ & _ & _ & Hlen). done. }
  rewrite Hcoefs. fold zeros.
  set (nrows := Py.len word_index + 1).
  destruct (fill_matrix_spec index ncols word_index Hnd Hwidth
              (replicate (Z.to_nat nrows) zeros))
    as (matrix & Hrun & Hlen & Hitems & Hother).
  { eapply Forall_impl; [exact Hrange|]. intros [word i] Hi.
    unfold Py.len in *. rewrite length_replicate. unfold nrows, Py.len. lia. }
  rewrite Hrun. eexists. split; [reflexivity|]. cbn.
  rewrite length_replicate in Hlen.
  split; [done|]. split; [done|]. split; [done|]. split; [done|].
  split; [unfold Py.len in *; rewrite Hlen; unfold nrows, Py.len; lia|].
  split.
  - rewrite Hother.
    + apply lookup_replicate_2. unfold nrows, Py.len. lia.
    + intros word i Hin. rewrite Forall_forall in Hrange.
      pose proof (Hrange _ Hin) as Hi. simpl in Hi. lia.
  - intros word i Hin. rewrite <- Hindex. apply Hitems; [done|].
    apply lookup_replicate_2. rewrite Forall_forall in Hrange.
    pose proof (Hrange _ Hin) as Hi. simpl in Hi. unfold nrows, Py.len in *. lia.
Qed.

(** X21.  An empty GloVe file leaves [coefs] unbound, and the function raises
    UnboundLocalError when it asks for the number of columns; a line
    without a space, or with something that is not a number, makes it
    raise ValueError. *)
Theorem load_glove_rejects (files : gmap string string)
    (embedding_path content : string) (word_index : list (string * Z))
    (max_sequence : Z) (trainable : bool) :
  files !! embedding_path = Some content ->
  content = "" \/
  Exists (fun line =>
            match Train.split1 line with
            | [word; rest] => Train.coefficients rest = None
            | _ => True
            end) (Py.readlines content) ->
  Train.load_glove_embeddings files embedding_path word_index max_sequence
    trainable
  = Train.Raises (if decide (content = "")
                  then Train.UnboundLocalError "coefs"
                  else Train.ValueError).
Proof.
  intros Hfile Hbad. unfold Train.load_glove_embeddings. rewrite Hfile.
  destruct (decide (content = "")) as [->|Hne]; [done|].
  destruct Hbad as [-> | Hbad]; [done|].
  assert (forall index coefs,
            Train.read_vectors (Py.readlines content) index coefs
            = Train.Raises Train.ValueError) as ->; [|done].
  induction Hbad as [line lines Hline | line lines _ IH];
    intros index coefs; cbn [Train.read_vectors].
  - destruct (split1_spec line) as [[_ Hs] | (w & rest & _ & _ & Hs)];
      rewrite Hs in Hline |- *; [done|]. cbn [Train.unpack2].
    by rewrite Hline.
  - destruct (Train.unpack2 (Train.split1 line)) as [[word rest]|e] eqn:Hu.
    + destruct (Train.coefficients rest); [apply IH | done].
    + destruct (split1_spec line) as [[_ Hs] | (w & r & _ & _ & Hs)];
        rewrite Hs in Hu; [by injection Hu as <- | done].
Qed.

End Glove.

(** ** The theorems on small inputs *)

Import TrainExample.

Lemma get_class_weights_spec_witness :
  exists weights : gmap Z Z,
    Train.get_class_weights [[0; 1]; [1; 0]; [0; 1]; [0; 1]; [1 # 2; 1 # 2]]%Q
    = Train.Returns weights /\
    (forall c, is_Some (weights !! c)
               <-> 0 < Py.len (filter (fun row => Train.argmax row = Some c)
                             [[0; 1]; [1; 0]; [0; 1]; [0; 1]; [1 # 2; 1 # 2]]%Q)) /\
    (forall c w, weights !! c = Some w ->
       1 <= w /\
       (forall c',
          Py.len (filter (fun row => Train.argmax row = Some c')
                    [[0; 1]; [1; 0]; [0; 1]; [0; 1]; [1 # 2; 1 # 2]]%Q)
          <= w * Py.len (filter (fun row => Train.argmax row = Some c)
                    [[0; 1]; [1; 0]; [0; 1]; [0; 1]; [1 # 2; 1 # 2]]%Q)) /\
       (exists c',
          (w - 1) * Py.len (filter (fun row => Train.argmax row = Some c)
                    [[0; 1]; [1; 0]; [0; 1]; [0; 1]; [1 # 2; 1 # 2]]%Q)
          < Py.len (filter (fun row => Train.argmax row = Some c')
                    [[0; 1]; [1; 0]; [0; 1]; [0; 1]; [1 # 2; 1 # 2]]%Q))) /\
    (forall c,
       0 < Py.len (filter (fun row => Train.argmax row = Some c)
                     [[0; 1]; [1; 0]; [0; 1]; [0; 1]; [1 # 2; 1 # 2]]%Q) ->
       (forall c',
          Py.len (filter (fun row => Train.argmax row = Some c')
                    [[0; 1]; [1; 0]; [0; 1]; [0; 1]; [1 # 2; 1 # 2]]%Q)
          <= Py.len (filter (fun row => Train.argmax row = Some c)
                    [[0; 1]; [1; 0]; [0; 1]; [0; 1]; [1 # 2; 1 # 2]]%Q)) ->
       weights !! c = Some 1).
Proof.
  apply (get_class_weights_spec
           [[0; 1]; [1; 0]; [0; 1]; [0; 1]; [1 # 2; 1 # 2]]%Q).
  - discriminate.
  - repeat constructor; discriminate.
Defined.

Lemma get_class_weights_empty_witness :
  Train.get_class_weights [[]; []] = Train.Raises Train.ValueError.
Proof.
  apply (get_class_weights_empty [[]; []]).
  right. left.
Defined.

Lemma load_data_train_witness :
  exists (pairs : list (string * string)) (labels : list (list Q))
         (class_to_id : gmap string Z),
    Train.load_data files "train.txt" true None
    = (Train.Returns (pairs.*2, labels, class_to_id),
       ["Filtering classes"; "Class statistics";
        "Found " +:+ Py.fmt_d (Z.of_nat (size class_to_id)) +:+ " classes";
        "Labels shape: (" +:+ Py.fmt_d (Py.len (Py.readlines train_file))
          +:+ ", " +:+ Py.fmt_d (Z.of_nat (size class_to_id)) +:+ ")"]) /\
    Forall2 (fun line '(cls, text) =>
               line = cls +:+ " " +:+ text /\ (" "%char ∉ Py.chars cls))
      (Py.readlines train_file) pairs /\
    (forall cls, is_Some (class_to_id !! cls) <-> cls ∈ pairs.*1) /\
    Forall2 (fun '(cls, text) row =>
               exists i, class_to_id !! cls = Some i /\
                         row = Train.one_hot (Z.of_nat (size class_to_id)) i)
      pairs labels.
Proof.
  apply (load_data_train files "train.txt" train_file true).
  - reflexivity.
  - discriminate.
  - vm_compute. repeat constructor.
Defined.

Lemma class_ids_by_frequency_witness :
  exists (pairs : list (string * string)) (labels : list (list Q))
         (class_to_id : gmap string Z) (log : list string),
    Train.load_data files "train.txt" false None
    = (Train.Returns (pairs.*2, labels, class_to_id), log) /\
    Forall2 (fun line '(cls, text) =>
               line = cls +:+ " " +:+ text /\ (" "%char ∉ Py.chars cls))
      (Py.readlines train_file) pairs /\
    (forall i, (exists cls, class_to_id !! cls = Some i)
               <-> 0 <= i < Z.of_nat (size class_to_id)) /\
    (forall cls cls' i,
       class_to_id !! cls = Some i -> class_to_id !! cls' = Some i ->
       cls = cls') /\
    (forall cls cls' i j,
       class_to_id !! cls = Some i -> class_to_id !! cls' = Some j ->
       i < j ->
       occurrences cls' pairs.*1 <= occurrences cls pairs.*1).
Proof.
  apply (class_ids_by_frequency files "train.txt" train_file false).
  - reflexivity.
  - discriminate.
  - vm_compute. repeat constructor.
Defined.

Lemma load_data_test_witness :
  exists pairs : list (string * string),
    Forall2 (fun line '(cls, text) =>
               line = cls +:+ " " +:+ text /\ (" "%char ∉ Py.chars cls))
      (Py.readlines test_file) pairs /\
    match filter (fun '(cls, text) =>
                    is_Some (({[ "cat" := 0; "dog" := 1 ]} : gmap string Z)
                             !! cls)) pairs with
    | [] =>
        Train.load_data files "test.txt" false
          (Some {[ "cat" := 0; "dog" := 1 ]})
        = (Train.Raises Train.ValueError, [])
    | _ :: _ =>
        exists (labels : list (list Q)) (log : list string),
          Train.load_data files "test.txt" false
            (Some {[ "cat" := 0; "dog" := 1 ]})
          = (Train.Returns
               ((filter (fun '(cls, text) =>
                           is_Some (({[ "cat" := 0; "dog" := 1 ]}
                                     : gmap string Z) !! cls)) pairs).*2,
                labels, {[ "cat" := 0; "dog" := 1 ]}), log) /\
          Forall2 (fun '(cls, text) row =>
                     exists i,
                       ({[ "cat" := 0; "dog" := 1 ]} : gmap string Z) !! cls
                       = Some i /\
                       row = Train.one_hot
                               (Z.of_nat (size ({[ "cat" := 0; "dog" := 1 ]}
                                                : gmap string Z))) i)
            (filter (fun '(cls, text) =>
                       is_Some (({[ "cat" := 0; "dog" := 1 ]}
                                 : gmap string Z) !! cls)) pairs) labels
    end.
Proof.
  apply (load_data_test files "test.txt" test_file false
           {[ "cat" := 0; "dog" := 1 ]}).
  - reflexivity.
  - discriminate.
  - vm_compute. repeat constructor.
  - intros cls i Hi. change (Z.of_nat (size _)) with 2.
    apply lookup_insert_Some in Hi as [[_ <-] | [_ Hi]]; [lia|].
    apply lookup_singleton_Some in Hi as [_ <-]. lia.
Defined.

Lemma load_data_rejects_witness :
  Train.load_data files "empty.txt" false None
  = (Train.Raises Train.ValueError, []) /\
  Train.load_data {[ "train.txt" := "cat" ]} "train.txt" false None
  = (Train.Raises Train.ValueError, []).
Proof.
  split.
  - apply (load_data_rejects files "empty.txt" "" false None).
    + reflexivity.
    + by left.
  - apply (load_data_rejects {[ "train.txt" := "cat" ]} "train.txt" "cat"
             false None).
    + reflexivity.
    + right. apply (bool_decide_unpack _). vm_compute. exact I.
Defined.

Lemma class_weights_of_training_labels_witness :
  exists (pairs : list (string * string)) (labels : list (list Q))
         (class_to_id : gmap string Z) (log : list string)
         (weights : gmap Z Z),
    Train.load_data files "train.txt" false None
    = (Train.Returns (pairs.*2, labels, class_to_id), log) /\
    Forall2 (fun line '(cls, text) =>
               line = cls +:+ " " +:+ text /\ (" "%char ∉ Py.chars cls))
      (Py.readlines train_file) pairs /\
    Train.get_class_weights labels = Train.Returns weights /\
    (forall i, is_Some (weights !! i)
               <-> exists cls, class_to_id !! cls = Some i) /\
    (forall cls i, class_to_id !! cls = Some i ->
       exists w, weights !! i = Some w /\
         (forall cls', occurrences cls' pairs.*1
                       <= w * occurrences cls pairs.*1) /\
         (exists cls', (w - 1) * occurrences cls pairs.*1
                       < occurrences cls' pairs.*1)).
Proof.
  apply (class_weights_of_training_labels files "train.txt" train_file false).
  - reflexivity.
  - discriminate.
  - vm_compute. repeat constructor.
Defined.

Lemma process_data_rows_witness :
  exists data : list (list Z),
    Train.process_data ["ab"; "abcd"] 10000 3 None
    = Train.Returns (data, default (Train.fit_on_texts 10000 ["ab"; "abcd"])
                             None) /\
    Py.len data = Py.len ["ab"; "abcd"] /\
    forall (i : nat) (text : string),
      ["ab"; "abcd"] !! i = Some text ->
      exists row : list Z,
        data !! i = Some row /\ Py.len row = 3 /\
        row = take (Z.to_nat 3)
                (Train.text_to_sequence
                   (default (Train.fit_on_texts 10000 ["ab"; "abcd"]) None)
                   text)
              ++ replicate
                   (Z.to_nat 3
                    - length (Train.text_to_sequence
                                (default
                                   (Train.fit_on_texts 10000 ["ab"; "abcd"])
                                   None) text)) 0.
Proof. apply (process_data_rows ["ab"; "abcd"] 10000 3 None). lia. Defined.

Lemma process_data_as_embed_witness :
  exists data : list (list Z),
    Train.process_data ["ab"; "abcd"] 10000 3 (Some tt)
    = Train.Returns (data, tt) /\
    GraphLoad.token_matrix
      {| GraphLoad.Y := load_graph "models/frozen_model.pb";
         GraphLoad.tokenizer := Train.text_to_sequence tt;
         GraphLoad.maxlen := 3 |}
      (GraphLoad.Many ["ab"; "abcd"])
    = Ok data.
Proof.
  apply (process_data_as_embed (load_graph "models/frozen_model.pb") tt
           ["ab"; "abcd"] 10000 3).
  lia.
Defined.

Lemma load_glove_matrix_witness :
  exists layer : Train.EmbeddingLayer,
    Train.load_glove_embeddings files "glove.txt" [("a", 1); ("zz", 2)] 30
      true = Train.Returns layer /\
    Train.input_dim layer = Py.len [("a", 1); ("zz", 2)] + 1 /\
    Train.output_dim layer = 2 /\
    Train.input_length layer = 30 /\
    Train.trainable layer = true /\
    Py.len (Train.weights layer) = Py.len [("a", 1); ("zz", 2)] + 1 /\
    Train.weights layer !! 0%nat = Some (replicate (Z.to_nat 2) 0%Q) /\
    (forall word i, (word, i) ∈ [("a", 1); ("zz", 2)] ->
       Train.weights layer !! Z.to_nat i
       = Some (default (replicate (Z.to_nat 2) 0%Q)
                 (snd <$> last (filter (fun e => e.1 = word)
                                  [("a", [1; 2]); ("b", [3; 4]);
                                   ("a", [5; 6])]%Q)))).
Proof.
  apply (load_glove_matrix files "glove.txt" glove_file
           [("a", [1; 2]); ("b", [3; 4]); ("a", [5; 6])]%Q 2
           [("a", 1); ("zz", 2)] 30 true).
  - reflexivity.
  - discriminate.
  - vm_compute Py.readlines.
    constructor; [|constructor; [|constructor; [|constructor]]].
    + exists "1 2
". repeat split; apply (bool_decide_unpack _); vm_compute; exact I.
    + exists "3 4
". repeat split; apply (bool_decide_unpack _); vm_compute; exact I.
    + exists "5 6
". repeat split; apply (bool_decide_unpack _); vm_compute; exact I.
  - apply (bool_decide_unpack _). vm_compute. exact I.
  - repeat constructor; vm_compute; discriminate.
Defined.

Lemma load_glove_rejects_witness :
  Train.load_glove_embeddings files "empty.txt" [("a", 1)] 30 true
  = Train.Raises (Train.UnboundLocalError "coefs") /\
  Train.load_glove_embeddings files "train.txt" [("a", 1)] 30 true
  = Train.Raises Train.ValueError.
Proof.
  split.
  - apply (load_glove_rejects files "empty.txt" "" [("a", 1)] 30 true).
    + reflexivity.
    + by left.
  - apply (load_glove_rejects files "train.txt" train_file [("a", 1)] 30 true).
    + reflexivity.
    + right. vm_compute. left. reflexivity.
Defined.
